(** * Template synchronization engine: a shallow embedding

    The repository provisions GitHub repositories from template
    repositories ([src/lib/github/repo-cloner.ts], class
    [GitHubRepoCloner]) and checks them for drift against their template
    (the [GET] handler of the sync-template route).  Both are asynchronous
    TypeScript code whose only effects are calls to a remote API, waits,
    the clock and the console.

    The embedding represents such code as a finite tree of requests
    ([Prog]): every remote call carries its continuation, which receives
    either the response or the error the call raised.  A program is run
    against an arbitrary remote ([Remote]: any state type, any response
    function) and yields its outcome together with the trace of everything
    it did.  Theorems quantify over every remote. *)

From Stdlib Require Import String Ascii List Arith Bool ZArith Lia.
From Stdlib Require Import DecimalString.
Import ListNotations.
Local Open Scope list_scope.
Local Open Scope string_scope.

Set Implicit Arguments.

(* ================================================================== *)
(** * JavaScript strings *)
(* ================================================================== *)

Module Js.

(** [String.prototype.includes]. *)
Fixpoint includes (hay needle : string) : bool :=
  if prefix needle hay then true
  else match hay with
       | EmptyString => false
       | String _ rest => includes rest needle
       end.

(** [String.prototype.startsWith]. *)
Definition startsWith (s p : string) : bool := prefix p s.

(** [s.slice(0, n)] for a non-negative [n]. *)
Definition slice0 (n : nat) (s : string) : string := substring 0 n s.

(** [xs.slice(i, j)] on arrays, for [0 <= i <= j]. *)
Definition slice {A} (i j : nat) (xs : list A) : list A :=
  firstn (j - i) (skipn i xs).

(** [s.replace(/[cs]/g, by)]: every character of the class is replaced. *)
Fixpoint replace_class (cls : ascii -> bool) (by_ : string) (s : string) : string :=
  match s with
  | EmptyString => EmptyString
  | String c rest =>
      if cls c then by_ ++ replace_class cls by_ rest
      else String c (replace_class cls by_ rest)
  end.

(** [s.replace(pat, by)] with a string pattern: the first occurrence only. *)
Fixpoint replace_first (pat by_ s : string) : string :=
  if prefix pat s then by_ ++ substring (String.length pat) (String.length s) s
  else match s with
       | EmptyString => EmptyString
       | String c rest => String c (replace_first pat by_ rest)
       end.

(** Template-literal rendering of a number. *)
Definition of_nat (n : nat) : string := NilZero.string_of_uint (Nat.to_uint n).

(** The value of [x || d] for an optional string: [undefined], [null]
    and the empty string are falsy. *)
Definition or_else (x : option string) (d : string) : string :=
  match x with
  | Some s => if String.eqb s "" then d else s
  | None => d
  end.

Definition truthy (x : option string) : bool :=
  match x with
  | Some s => negb (String.eqb s "")
  | None => false
  end.

(** Canonicalisation of a code unit under the [i] flag (no [u] flag):
    the upper-case form, which for the ASCII patterns of this program
    only ever identifies a letter with its other case. *)
Definition canonicalize (c : ascii) : ascii :=
  let n := nat_of_ascii c in
  if Nat.leb 97 n && Nat.leb n 122 then ascii_of_nat (n - 32) else c.

Definition char_eq (icase : bool) (a b : ascii) : bool :=
  if icase then Ascii.eqb (canonicalize a) (canonicalize b) else Ascii.eqb a b.

(** Matching a literal at the start of [s]; the rest of [s] on success. *)
Fixpoint match_literal (icase : bool) (lit s : string) : option string :=
  match lit with
  | EmptyString => Some s
  | String a lit' =>
      match s with
      | EmptyString => None
      | String b s' =>
          if char_eq icase a b then match_literal icase lit' s' else None
      end
  end.

(** The regular expressions the sync filter uses: a literal anchored at
    the start ([/^lit/]), optionally anchored at the end ([/^lit$/]) and
    optionally case-insensitive ([/.../i]). *)
Record Anchored := mkAnchored {
  literal : string;
  to_end : bool;
  ignore_case : bool
}.

(** [RegExp.prototype.test]. *)
Definition test (re : Anchored) (s : string) : bool :=
  match match_literal (ignore_case re) (literal re) s with
  | Some rest => if to_end re then String.eqb rest "" else true
  | None => false
  end.

Definition is_hex (c : ascii) : bool :=
  let n := nat_of_ascii (canonicalize c) in
  (Nat.leb 48 n && Nat.leb n 57) || (Nat.leb 65 n && Nat.leb n 70).

(** [n] hexadecimal digits at the start of [s] (the class [[a-f0-9]]
    under the [i] flag). *)
Fixpoint take_hex (n : nat) (s : string) : option string :=
  match n with
  | O => Some EmptyString
  | S n' =>
      match s with
      | EmptyString => None
      | String c rest =>
          if is_hex c then
            match take_hex n' rest with
            | Some h => Some (String c h)
            | None => None
            end
          else None
      end
  end.

(** [s.match(/template-sha: ([a-f0-9]{40})/i)]: the first capture group
    of the leftmost match. *)
Fixpoint match_template_sha (s : string) : option string :=
  let here :=
    match match_literal true "template-sha: " s with
    | Some rest => take_hex 40 rest
    | None => None
    end in
  match here with
  | Some sha => Some sha
  | None =>
      match s with
      | EmptyString => None
      | String _ rest => match_template_sha rest
      end
  end.

(** A maximal non-empty run of characters of a class. *)
Fixpoint span (cls : ascii -> bool) (s : string) : string * string :=
  match s with
  | EmptyString => (EmptyString, EmptyString)
  | String c rest =>
      if cls c then let '(a, b) := span cls rest in (String c a, b)
      else (EmptyString, s)
  end.

Definition not_slash (c : ascii) : bool := negb (Ascii.eqb c "/").
Definition repo_char (c : ascii) : bool :=
  negb (Ascii.eqb c "/" || Ascii.eqb c "?" || Ascii.eqb c ".").

(** [s.match(/github\.com\/([^\/]+)\/([^\/\?.]+)/)]: owner and
    repository of the leftmost match. *)
Fixpoint match_github_url (s : string) : option (string * string) :=
  let here :=
    match match_literal false "github.com/" s with
    | Some rest =>
        let '(owner, rest1) := span not_slash rest in
        match owner, rest1 with
        | String _ _, String "/" rest2 =>
            let '(repo, _) := span repo_char rest2 in
            match repo with
            | String _ _ => Some (owner, repo)
            | EmptyString => None
            end
        | _, _ => None
        end
    | None => None
    end in
  match here with
  | Some r => Some r
  | None =>
      match s with
      | EmptyString => None
      | String _ rest => match_github_url rest
      end
  end.

End Js.

(* ================================================================== *)
(** * Errors and results *)
(* ================================================================== *)

(** A thrown value: an [Error] (no status) or an Octokit request error
    (with the HTTP status). *)
Record JsError := mkError {
  message : string;
  status : option nat
}.

Definition new_Error (msg : string) : JsError := mkError msg None.

Inductive Result (A : Type) : Type :=
| Ok (a : A)
| Err (e : JsError).
Arguments Ok {A} a.
Arguments Err {A} e.

Definition status_is (e : JsError) (n : nat) : bool :=
  match status e with
  | Some s => Nat.eqb s n
  | None => false
  end.

(* ================================================================== *)
(** * Data exchanged with the remote API *)
(* ================================================================== *)

(** An Octokit client is determined by the credential it was built with. *)
Record Octokit := mkOctokit { auth : option string }.

(** [{ path, content }], the in-memory file of the cloner. *)
Record File := mkFile {
  f_path : string;
  f_content : string
}.

(** An entry of the tree written by [createTree]. *)
Record TreeEntry := mkTreeEntry {
  te_path : string;
  te_mode : string;
  te_type : string;
  te_sha : string
}.

Record AuthUser := mkAuthUser { login : string }.

Record RepoData := mkRepoData {
  description : option string;
  default_branch : option string;
  html_url : string
}.

Record CreateRepoReq := mkCreateRepoReq {
  cr_name : string;
  cr_description : string;
  cr_private : bool;
  cr_auto_init : bool
}.

(** [ref.object.sha]. *)
Record GitRef := mkGitRef { object_sha : string }.

(** A git commit object: [commit.sha] and [commit.tree.sha]. *)
Record GitCommit := mkGitCommit {
  gc_sha : string;
  gc_tree_sha : string
}.

Record Author := mkAuthor {
  a_name : option string;
  a_date : option string
}.

(** An element of [repos.listCommits]: [sha], [commit.message],
    [commit.author]. *)
Record CommitItem := mkCommitItem {
  ci_sha : string;
  ci_message : string;
  ci_author : option Author
}.

(** An element of a recursive tree listing. *)
Record TreeItem := mkTreeItem {
  ti_path : option string;
  ti_type : option string;
  ti_sha : option string
}.

Record BlobData := mkBlobData {
  b_content : string;
  b_encoding : string
}.

Record TreeData := mkTreeData { td_sha : string }.

Record PullRequest := mkPullRequest { pr_html_url : string }.

Record Branch := mkBranch { br_name : string }.

Record Reviews := mkReviews {
  dismiss_stale_reviews : option bool;
  require_code_owner_reviews : option bool;
  required_approving_review_count : option nat
}.

Record Protection := mkProtection {
  required_pull_request_reviews : option Reviews
}.

Record SimplifiedReviews := mkSimplifiedReviews {
  sr_dismiss_stale_reviews : bool;
  sr_require_code_owner_reviews : bool;
  sr_required_approving_review_count : nat
}.

(** [repos.getContent]: a file carries a [sha], a directory listing does
    not. *)
Record ContentData := mkContentData { cd_sha : option string }.

(** [repos.compareCommits]: the file names of [comparison.files]. *)
Record Comparison := mkComparison { cmp_files : option (list string) }.

Record Committer := mkCommitter {
  cm_name : string;
  cm_email : string
}.

Record PullReq := mkPullReq {
  pq_title : string;
  pq_body : string;
  pq_head : string;
  pq_base : string
}.

(** The rows the drift check reads from the database. *)
Record GithubTemplate := mkGithubTemplate {
  githubUrl : string;
  githubToken : option string;
  branch : option string
}.

Record Project := mkProject {
  githubRepo : option string;
  githubTemplate : option GithubTemplate;
  createdAt : Z
}.

Record Account := mkAccount { access_token : option string }.

(* ================================================================== *)
(** * Remote calls *)
(* ================================================================== *)

(** The calls the code awaits, indexed by the type of their response.
    Each of them may reject. *)
Inductive Api : Type -> Type :=
| Users_getAuthenticated (cl : Octokit) : Api AuthUser
| Repos_get (cl : Octokit) (owner repo : string) : Api RepoData
| Repos_createForAuthenticatedUser (cl : Octokit) (req : CreateRepoReq) : Api RepoData
| Repos_getContent (cl : Octokit) (owner repo path : string) : Api ContentData
| Repos_deleteFile (cl : Octokit) (owner repo path msg sha : string) : Api unit
| Repos_createOrUpdateFileContents
    (cl : Octokit) (owner repo path msg content : string) (committer : Committer) : Api unit
| Repos_getBranchProtection (cl : Octokit) (owner repo branch_ : string) : Api Protection
| Repos_updateBranchProtection
    (cl : Octokit) (owner repo branch_ : string) (reviews : option SimplifiedReviews) : Api unit
| Repos_listBranches (cl : Octokit) (owner repo : string) (per_page : nat) : Api (list Branch)
| Repos_listCommits
    (cl : Octokit) (owner repo : string) (sha : option string) (per_page : nat)
  : Api (list CommitItem)
| Repos_compareCommits (cl : Octokit) (owner repo base head : string) : Api Comparison
| Git_getRef (cl : Octokit) (owner repo ref : string) : Api GitRef
| Git_createRef (cl : Octokit) (owner repo ref sha : string) : Api unit
| Git_updateRef (cl : Octokit) (owner repo ref sha : string) (force : bool) : Api unit
| Git_getCommit (cl : Octokit) (owner repo commit_sha : string) : Api GitCommit
| Git_getTree (cl : Octokit) (owner repo tree_sha recursive : string) : Api (list TreeItem)
| Git_getBlob (cl : Octokit) (owner repo file_sha : string) : Api BlobData
| Git_createBlob (cl : Octokit) (owner repo content encoding : string) : Api string
| Git_createTree
    (cl : Octokit) (owner repo : string) (tree : list TreeEntry) (base_tree : option string)
  : Api TreeData
| Git_createCommit
    (cl : Octokit) (owner repo msg tree : string) (parents : list string) : Api GitCommit
| Pulls_create (cl : Octokit) (owner repo : string) (req : PullReq) : Api PullRequest
| Auth_session : Api (option string)
| Prisma_project_findFirst (id userId : string) : Api (option Project)
| Prisma_account_findFirst (userId provider : string) : Api (option Account).

Inductive Level := LLog | LWarn | LError.

(** What a run leaves behind, in order. *)
Inductive Event : Type :=
| EvCall (X : Type) (c : Api X) (r : Result X)
| EvSleep (ms : nat)
| EvConsole (lvl : Level) (text : string)
| EvNow (iso : string).

(* ================================================================== *)
(** * Programs *)
(* ================================================================== *)

(** An asynchronous computation: it returns, throws, awaits a remote
    call (and continues with its response or its error), waits, writes to
    the console or reads the clock ([new Date().toISOString()]). *)
Inductive Prog (A : Type) : Type :=
| Ret (a : A)
| Throw (e : JsError)
| Call (X : Type) (c : Api X) (k : Result X -> Prog A)
| Sleep (ms : nat) (k : Prog A)
| Console (lvl : Level) (text : string) (k : Prog A)
| Now (k : string -> Prog A).
Arguments Ret {A} a.
Arguments Throw {A} e.
Arguments Call {A X} c k.
Arguments Sleep {A} ms k.
Arguments Console {A} lvl text k.
Arguments Now {A} k.

Fixpoint bind {A B} (m : Prog A) (f : A -> Prog B) : Prog B :=
  match m with
  | Ret a => f a
  | Throw e => Throw e
  | Call c k => Call c (fun r => bind (k r) f)
  | Sleep ms k => Sleep ms (bind k f)
  | Console lvl text k => Console lvl text (bind k f)
  | Now k => Now (fun s => bind (k s) f)
  end.

(** [try { m } catch (e) { h e }]. *)
Fixpoint try_catch {A} (m : Prog A) (h : JsError -> Prog A) : Prog A :=
  match m with
  | Ret a => Ret a
  | Throw e => h e
  | Call c k => Call c (fun r => try_catch (k r) h)
  | Sleep ms k => Sleep ms (try_catch k h)
  | Console lvl text k => Console lvl text (try_catch k h)
  | Now k => Now (fun s => try_catch (k s) h)
  end.

(** [await call]: a rejected call throws. *)
Definition await {X} (c : Api X) : Prog X :=
  Call c (fun r => match r with Ok x => Ret x | Err e => Throw e end).

Definition sleep (ms : nat) : Prog unit := Sleep ms (Ret tt).
Definition console (lvl : Level) (text : string) : Prog unit := Console lvl text (Ret tt).
Definition now_iso : Prog string := Now (fun s => Ret s).

(** The settled state of a promise. *)
Definition settle {A} (m : Prog A) : Prog (Result A) :=
  try_catch (bind m (fun a => Ret (Ok a))) (fun e => Ret (Err e)).

Declare Scope prog_scope.
Delimit Scope prog_scope with prog.
Notation "x <- m ;; k" := (bind m (fun x => k))
  (at level 61, m at next level, right associativity) : prog_scope.
Notation "m ;;; k" := (bind m (fun _ => k))
  (at level 61, right associativity) : prog_scope.
Local Open Scope prog_scope.

Fixpoint first_error {A} (rs : list (Result A)) : option JsError :=
  match rs with
  | [] => None
  | Ok _ :: rest => first_error rest
  | Err e :: _ => Some e
  end.

Fixpoint values {A} (rs : list (Result A)) : list A :=
  match rs with
  | [] => []
  | Ok a :: rest => a :: values rest
  | Err _ :: rest => values rest
  end.

Fixpoint settle_all {A} (ps : list (Prog A)) : Prog (list (Result A)) :=
  match ps with
  | [] => Ret []
  | p :: rest =>
      r <- settle p ;;
      rs <- settle_all rest ;;
      Ret (r :: rs)
  end.

(** [await Promise.all(ps)].  The promises of one batch have all been
    started when the batch is awaited; the model runs them one after the
    other in index order, each to its end, and then rejects with the error
    of the first that failed or fulfils with all the values. *)
Definition Promise_all {A} (ps : list (Prog A)) : Prog (list A) :=
  rs <- settle_all ps ;;
  match first_error rs with
  | Some e => Throw e
  | None => Ret (values rs)
  end.

(* ================================================================== *)
(** * Running a program against a remote *)
(* ================================================================== *)

(** Any remote: a state, the response (or error) it gives to each call
    and the clock it shows. *)
Class Remote := mkRemote {
  World : Type;
  handle : forall X, Api X -> World -> Result X * World;
  clock : World -> string * World
}.

Fixpoint run {R : Remote} {A} (p : Prog A) (w : World) : Result A * World * list Event :=
  match p with
  | Ret a => (Ok a, w, [])
  | Throw e => (Err e, w, [])
  | Call c k =>
      let '(r, w1) := handle c w in
      let '(out, w2, tr) := run (k r) w1 in
      (out, w2, EvCall c r :: tr)
  | Sleep ms k =>
      let '(out, w1, tr) := run k w in
      (out, w1, EvSleep ms :: tr)
  | Console lvl text k =>
      let '(out, w1, tr) := run k w in
      (out, w1, EvConsole lvl text :: tr)
  | Now k =>
      let '(s, w1) := clock w in
      let '(out, w2, tr) := run (k s) w1 in
      (out, w2, EvNow s :: tr)
  end.

Definition outcome {R : Remote} {A} (p : Prog A) (w : World) : Result A :=
  fst (fst (run p w)).
Definition final {R : Remote} {A} (p : Prog A) (w : World) : World :=
  snd (fst (run p w)).
Definition trace {R : Remote} {A} (p : Prog A) (w : World) : list Event :=
  snd (run p w).

(* ================================================================== *)
(** * The JavaScript runtime around the code *)
(* ================================================================== *)

(** Library functions of the platform the code calls and the process
    environment it reads. *)
Class JsRuntime := mkJsRuntime {
  (** [Buffer.from(s).toString('base64')] *)
  base64_of_utf8 : string -> string;
  (** [Buffer.from(s, 'base64').toString('utf-8')] *)
  utf8_of_base64 : string -> string;
  (** the time value of [new Date(s)]; [None] is an invalid date *)
  Date_parse : string -> option Z;
  (** [process.env.GITHUB_TOKEN] *)
  env_GITHUB_TOKEN : option string;
  (** [isEncrypted] and [decrypt] of [src/lib/encryption.ts], which rest
      on the [crypto] module; [None] is a throw *)
  isEncrypted : string -> bool;
  decrypt : string -> option string
}.

Definition nl : string := String (ascii_of_nat 10) EmptyString.

(** [console.error(label, error.message)] and the like print their
    arguments separated by a space. *)
Definition console2 (lvl : Level) (label arg : string) : Prog unit :=
  console lvl (label ++ " " ++ arg).

(** The loop
    [for (let i = 0; i < xs.length; i += batchSize) {
       const batch = xs.slice(i, i + batchSize); body;
       if (i + batchSize < xs.length) await sleep(delay) }]
    over a state [acc] that the body updates.  [fuel] bounds the number
    of iterations; [List.length xs] is enough for a positive [batchSize]. *)
Fixpoint for_batches {A S : Type} (fuel i batchSize : nat) (xs : list A) (delay : nat)
    (body : list A -> S -> Prog S) (acc : S) : Prog S :=
  match fuel with
  | O => Ret acc
  | Datatypes.S fuel' =>
      if Nat.ltb i (List.length xs) then
        acc' <- body (Js.slice i (i + batchSize) xs) acc ;;
        (if Nat.ltb (i + batchSize) (List.length xs) then sleep delay else Ret tt) ;;;
        for_batches fuel' (i + batchSize) batchSize xs delay body acc'
      else Ret acc
  end.

(** [for (const x of xs) body] over a state. *)
Fixpoint for_of {A S : Type} (xs : list A) (body : A -> S -> Prog S) (acc : S) : Prog S :=
  match xs with
  | [] => Ret acc
  | x :: rest => acc' <- body x acc ;; for_of rest body acc'
  end.

Fixpoint somes {A} (xs : list (option A)) : list A :=
  match xs with
  | [] => []
  | Some a :: rest => a :: somes rest
  | None :: rest => somes rest
  end.

(* ================================================================== *)
(** * [GitHubRepoCloner] (src/lib/github/repo-cloner.ts) *)
(* ================================================================== *)

Module CloneOptions.
Record t := mk {
  sourceOwner : string;
  sourceRepo : string;
  targetName : string;
  targetDescription : option string;
  isPrivate : option bool;
  includeBranches : option bool;
  sourceToken : option string;
  targetUsername : option string
}.
End CloneOptions.

Module CloneResult.
Record t := mk {
  success : bool;
  repository : RepoData;
  filesCount : nat;
  message : string
}.
End CloneResult.

Module SyncOptions.
Record t := mk {
  sourceOwner : string;
  sourceRepo : string;
  targetOwner : string;
  targetRepo : string;
  targetBranch : option string;
  createPullRequest : option bool;
  sourceToken : option string;
  commitMessage : option string;
  directToMain : option bool
}.
End SyncOptions.

Module SyncResult.
Record t := mk {
  success : bool;
  filesCount : nat;
  syncBranch : option string;
  pullRequestUrl : option string;
  message : string
}.
End SyncResult.

(** The two private fields of the class. *)
Record GitHubRepoCloner := mkCloner {
  octokit : Octokit;
  sourceOctokit : Octokit
}.

Definition default {A} (x : option A) (d : A) : A :=
  match x with Some a => a | None => d end.

Section Cloner.
Context {rt : JsRuntime}.

(** The constructor. *)
Definition new_GitHubRepoCloner (token sourceToken : option string) : GitHubRepoCloner :=
  let main := mkOctokit (if Js.truthy token then token else env_GITHUB_TOKEN) in
  mkCloner main (if Js.truthy sourceToken then mkOctokit sourceToken else main).

Variable self : GitHubRepoCloner.

(** One task of a [getAllFiles] batch: the file, or nothing when the
    item is incomplete or its blob cannot be read. *)
Definition fetch_item (owner repo : string) (item : TreeItem) : Prog (option File) :=
  match ti_sha item, ti_path item with
  | Some sha, Some path =>
      if negb (String.eqb sha "") && negb (String.eqb path "") then
        Call (Git_getBlob (sourceOctokit self) owner repo sha) (fun r =>
          match r with
          | Ok blob =>
              let content :=
                if String.eqb (b_encoding blob) "base64"
                then utf8_of_base64 (b_content blob)
                else b_content blob in
              Ret (Some (mkFile path content))
          | Err error =>
              console2 LError ("Error fetching " ++ path ++ ":") (message error) ;;;
              (if Js.includes (message error) "is not valid UTF-8"
               then console LLog ("Skipping binary file: " ++ path)
               else Ret tt) ;;;
              Ret None
          end)
      else Ret None
  | _, _ => Ret None
  end.

Definition is_blob (item : TreeItem) : bool :=
  match ti_type item with
  | Some t => String.eqb t "blob"
  | None => false
  end.

Definition getAllFiles (owner repo ref : string) : Prog (list File) :=
  try_catch
    (commitSha <-
       Call (Git_getRef (sourceOctokit self) owner repo ("heads/" ++ ref)) (fun r =>
         match r with
         | Ok refData => Ret (Some (object_sha refData))
         | Err _ =>
             Call (Git_getCommit (sourceOctokit self) owner repo ref) (fun r' =>
               match r' with
               | Ok commit => Ret (Some (gc_sha commit))
               | Err _ =>
                   console LError
                     ("Reference " ++ ref ++ " not found in " ++ owner ++ "/" ++ repo) ;;;
                   Ret None
               end)
         end) ;;
     match commitSha with
     | None => Ret []
     | Some commitSha =>
         tree <- await (Git_getTree (sourceOctokit self) owner repo commitSha "true") ;;
         let blobs := filter is_blob tree in
         let batchSize := 5 in
         for_batches (List.length blobs) 0 batchSize blobs 300
           (fun batch files =>
              fetched <- Promise_all (map (fetch_item owner repo) batch) ;;
              Ret (files ++ somes fetched)%list)
           []
     end)
    (fun error =>
       console2 LError "Error getting files:" (message error) ;;;
       if status_is error 409 && Js.includes (message error) "Git Repository is empty"
       then console LLog "Repository is empty, returning empty file list" ;;; Ret []
       else Throw error).

Definition getBranches (owner repo : string) : Prog (list Branch) :=
  Call (Repos_listBranches (sourceOctokit self) owner repo 100) (fun r =>
    match r with
    | Ok branches => Ret branches
    | Err error => console2 LError "Error getting branches:" (message error) ;;; Ret []
    end).

Definition show_status (error : JsError) : string :=
  match status error with
  | Some 0 | None => "unknown error"
  | Some s => Js.of_nat s
  end.

(** The loop of [createBlobWithRetry], entered at index [i] with [n]
    iterations left ([n = retries - i]). *)
Fixpoint createBlobWithRetry_loop (owner repo : string) (file : File) (retries n i : nat)
  : Prog string :=
  match n with
  | O => Throw (new_Error ("Failed to create blob for " ++ f_path file))
  | Datatypes.S n' =>
      Call (Git_createBlob (octokit self) owner repo
              (base64_of_utf8 (f_content file)) "base64") (fun r =>
        match r with
        | Ok sha => Ret sha
        | Err error =>
            if Nat.eqb i (retries - 1) then
              console2 LError ("Failed to create blob for " ++ f_path file ++ ":")
                (message error) ;;;
              Throw error
            else
              console LLog ("Retry " ++ Js.of_nat (i + 1) ++ " for creating blob "
                            ++ f_path file ++ " (" ++ show_status error ++ ")") ;;;
              sleep (2000 * (i + 1)) ;;;
              createBlobWithRetry_loop owner repo file retries n' (i + 1)
        end)
  end.

Definition createBlobWithRetry (owner repo : string) (file : File) (retries : nat)
  : Prog string :=
  createBlobWithRetry_loop owner repo file retries retries 0.

Definition blob_entry (owner repo : string) (file : File) : Prog TreeEntry :=
  sha <- createBlobWithRetry owner repo file 3 ;;
  Ret (mkTreeEntry (f_path file) "100644" "blob" sha).

Definition createTree (owner repo : string) (files : list File) (baseTree : option string)
  : Prog TreeData :=
  sleep 1000 ;;;
  let batchSize := 5 in
  tree <- for_batches (List.length files) 0 batchSize files 500
            (fun batch tree =>
               batchResults <- Promise_all (map (blob_entry owner repo) batch) ;;
               Ret (tree ++ batchResults)%list)
            [] ;;
  let base_tree := if Js.truthy baseTree then baseTree else None in
  Call (Git_createTree (octokit self) owner repo tree base_tree) (fun r =>
    match r with
    | Ok treeData => Ret treeData
    | Err error =>
        console2 LError "Error creating tree:" (message error) ;;;
        if status_is error 404 && Js.truthy baseTree then
          Throw (new_Error ("Base tree SHA " ++ default baseTree ""
                            ++ " not found. The repository state may have changed."))
        else Throw error
    end).

Definition createCommit (owner repo treeSha msg : string) (parents : list string)
  : Prog GitCommit :=
  await (Git_createCommit (octokit self) owner repo msg treeSha parents).

(** The block that copies the protection of the default branch; both
    clone strategies end with it.  Its failure is only logged. *)
Definition copyBranchProtection (sourceOwner sourceRepo targetOwner targetName defaultBranch : string)
  : Prog unit :=
  try_catch
    (protectionRules <-
       await (Repos_getBranchProtection (sourceOctokit self)
                sourceOwner sourceRepo defaultBranch) ;;
     let simplifiedReviews :=
       match required_pull_request_reviews protectionRules with
       | Some rv =>
           Some (mkSimplifiedReviews
                   (default (dismiss_stale_reviews rv) false)
                   (default (require_code_owner_reviews rv) false)
                   (match required_approving_review_count rv with
                    | Some 0 | None => 1
                    | Some n => n
                    end))
       | None => None
       end in
     await (Repos_updateBranchProtection (octokit self)
              targetOwner targetName defaultBranch simplifiedReviews) ;;;
     console LLog ("Applied branch protection to " ++ defaultBranch))
    (fun _ => console LLog "Could not copy branch protection rules").

(** The authenticated user decides the target owner; any failure here
    is reported as an authentication failure. *)
Definition resolveTargetOwner (options : CloneOptions.t) : Prog string :=
  try_catch
    (authUser <- await (Users_getAuthenticated (octokit self)) ;;
     let targetOwner := Js.or_else (CloneOptions.targetUsername options) (login authUser) in
     console LLog ("Authenticated as: " ++ login authUser
                   ++ ", target owner: " ++ targetOwner) ;;;
     Ret targetOwner)
    (fun _ => Throw (new_Error
       "GitHub authentication failed. Please ensure you have a valid GitHub token.")).

Definition repoDescription (options : CloneOptions.t) (sourceRepoData : RepoData) : string :=
  let sourceOwner := CloneOptions.sourceOwner options in
  let sourceRepo := CloneOptions.sourceRepo options in
  if Js.truthy (CloneOptions.targetDescription options)
  then default (CloneOptions.targetDescription options) ""
  else Js.or_else (description sourceRepoData)
         ("Cloned from " ++ sourceOwner ++ "/" ++ sourceRepo).

Definition committer : Committer := mkCommitter "GitHub Repo Cloner" "noreply@github.com".

(** One iteration of the sequential file loop of the Contents strategy. *)
Definition createFile (targetOwner targetName : string) (file : File) (createdFiles : nat)
  : Prog nat :=
  let put :=
    Repos_createOrUpdateFileContents (octokit self) targetOwner targetName
      (f_path file) ("Add " ++ f_path file) (base64_of_utf8 (f_content file)) committer in
  Call put (fun r =>
    match r with
    | Ok _ =>
        console LLog ("Created: " ++ f_path file) ;;;
        sleep 500 ;;;
        Ret (createdFiles + 1)
    | Err error =>
        if Js.includes (message error) "sha" || status_is error 409 then
          console LWarn ("SHA conflict detected for " ++ f_path file ++ ", retrying...") ;;;
          sleep 1000 ;;;
          Call put (fun r' =>
            match r' with
            | Ok _ =>
                console LLog ("Created: " ++ f_path file ++ " (after retry)") ;;;
                Ret (createdFiles + 1)
            | Err retryError =>
                console2 LError ("Failed to create " ++ f_path file ++ " after retry:")
                  (message retryError) ;;;
                Ret createdFiles
            end)
        else
          console2 LError ("Failed to create " ++ f_path file ++ ":") (message error) ;;;
          Ret createdFiles
    end).

Definition cloneUsingContentsAPI (options : CloneOptions.t) : Prog CloneResult.t :=
  let sourceOwner := CloneOptions.sourceOwner options in
  let sourceRepo := CloneOptions.sourceRepo options in
  let targetName := CloneOptions.targetName options in
  let isPrivate := default (CloneOptions.isPrivate options) false in
  console LLog ("Cloning " ++ sourceOwner ++ "/" ++ sourceRepo ++ " as " ++ targetName
                ++ " using Contents API...") ;;;
  targetOwner <- resolveTargetOwner options ;;
  sourceRepoData <- await (Repos_get (sourceOctokit self) sourceOwner sourceRepo) ;;
  newRepo <- await (Repos_createForAuthenticatedUser (octokit self)
                      (mkCreateRepoReq targetName (repoDescription options sourceRepoData)
                         isPrivate true)) ;;
  console LLog ("Created repository: " ++ html_url newRepo) ;;;
  console LLog "Waiting for repository to be fully initialized..." ;;;
  sleep 3000 ;;;
  let defaultBranch := Js.or_else (default_branch sourceRepoData) "main" in
  files <- getAllFiles sourceOwner sourceRepo defaultBranch ;;
  if Nat.eqb (List.length files) 0 then
    console LWarn ("Source repository " ++ sourceOwner ++ "/" ++ sourceRepo
                   ++ " appears to be empty") ;;;
    Ret (CloneResult.mk true newRepo 0
           ("Successfully created repository " ++ targetName ++ " (source was empty)"))
  else
    console LLog ("Creating " ++ Js.of_nat (List.length files)
                  ++ " files using Contents API...") ;;;
    (if existsb (fun f => String.eqb (f_path f) "README.md") files then
       try_catch
         (existingReadme <- await (Repos_getContent (octokit self)
                                     targetOwner targetName "README.md") ;;
          match cd_sha existingReadme with
          | Some sha =>
              await (Repos_deleteFile (octokit self) targetOwner targetName "README.md"
                       "Remove auto-generated README" sha) ;;;
              console LLog "Removed auto-generated README.md"
          | None => Ret tt
          end)
         (fun _ => console LLog "No existing README to remove")
     else Ret tt) ;;;
    createdFiles <- for_of files (createFile targetOwner targetName) 0 ;;
    copyBranchProtection sourceOwner sourceRepo targetOwner targetName defaultBranch ;;;
    Ret (CloneResult.mk true newRepo createdFiles
           ("Successfully cloned " ++ sourceOwner ++ "/" ++ sourceRepo ++ " to "
            ++ targetName ++ " using Contents API")).

(** The readiness poll of the Git strategy, entered at attempt [i] with
    [n] attempts left. *)
Fixpoint waitForRepo (targetOwner targetName : string) (n i : nat) : Prog bool :=
  match n with
  | O => Ret false
  | Datatypes.S n' =>
      Call (Repos_get (octokit self) targetOwner targetName) (fun r =>
        match r with
        | Ok _ => console LLog "Repository is ready" ;;; Ret true
        | Err _ =>
            console LLog ("Repository not ready yet, attempt " ++ Js.of_nat (i + 1) ++ "/5") ;;;
            sleep 2000 ;;;
            waitForRepo targetOwner targetName n' (i + 1)
        end)
  end.

(** One iteration of the branch loop of the Git strategy. *)
Definition copyBranch (sourceOwner sourceRepo targetOwner targetName defaultBranch : string)
    (commit : GitCommit) (b : Branch) (_ : unit) : Prog unit :=
  if negb (String.eqb (br_name b) defaultBranch) then
    try_catch
      (branchFiles <- getAllFiles sourceOwner sourceRepo (br_name b) ;;
       branchTree <- createTree targetOwner targetName branchFiles None ;;
       branchCommit <- createCommit targetOwner targetName (td_sha branchTree)
                         ("Branch " ++ br_name b ++ " - Cloned from "
                          ++ sourceOwner ++ "/" ++ sourceRepo)
                         [gc_sha commit] ;;
       await (Git_createRef (octokit self) targetOwner targetName
                ("refs/heads/" ++ br_name b) (gc_sha branchCommit)) ;;;
       console LLog ("Created branch: " ++ br_name b))
      (fun error =>
         console2 LError ("Error creating branch " ++ br_name b ++ ":") (message error))
  else Ret tt.

Definition cloneUsingGitAPI (options : CloneOptions.t) : Prog CloneResult.t :=
  let sourceOwner := CloneOptions.sourceOwner options in
  let sourceRepo := CloneOptions.sourceRepo options in
  let targetName := CloneOptions.targetName options in
  let isPrivate := default (CloneOptions.isPrivate options) false in
  let includeBranches := default (CloneOptions.includeBranches options) true in
  console LLog ("Cloning " ++ sourceOwner ++ "/" ++ sourceRepo ++ " as " ++ targetName
                ++ " using Git API...") ;;;
  targetOwner <- resolveTargetOwner options ;;
  sourceRepoData <- await (Repos_get (sourceOctokit self) sourceOwner sourceRepo) ;;
  newRepo <- await (Repos_createForAuthenticatedUser (octokit self)
                      (mkCreateRepoReq targetName (repoDescription options sourceRepoData)
                         isPrivate true)) ;;
  console LLog ("Created repository: " ++ html_url newRepo) ;;;
  console LLog "Waiting for repository to be fully initialized..." ;;;
  sleep 5000 ;;;
  repoReady <- waitForRepo targetOwner targetName 5 0 ;;
  if negb repoReady then
    Throw (new_Error "Repository creation timed out. Please try again.")
  else
    let defaultBranch := Js.or_else (default_branch sourceRepoData) "main" in
    files <- getAllFiles sourceOwner sourceRepo defaultBranch ;;
    if Nat.eqb (List.length files) 0 then
      console LWarn ("Source repository " ++ sourceOwner ++ "/" ++ sourceRepo
                     ++ " appears to be empty") ;;;
      Ret (CloneResult.mk true newRepo 0
             ("Successfully created repository " ++ targetName ++ " (source was empty)"))
    else
      head <-
        Call (Git_getRef (octokit self) targetOwner targetName
                ("heads/" ++ defaultBranch)) (fun r =>
          match r with
          | Ok ref =>
              let parentSha := object_sha ref in
              Call (Git_getCommit (octokit self) targetOwner targetName parentSha) (fun r' =>
                match r' with
                | Ok parentCommit => Ret (Some parentSha, Some (gc_tree_sha parentCommit))
                | Err _ =>
                    console LLog "No existing HEAD found, creating initial commit" ;;;
                    Ret (Some parentSha, None)
                end)
          | Err _ =>
              console LLog "No existing HEAD found, creating initial commit" ;;;
              Ret (None, None)
          end) ;;
      let '(parentSha, baseTreeSha) := head in
      console LLog ("Copying " ++ Js.of_nat (List.length files)
                    ++ " files using Git API...") ;;;
      tree <- createTree targetOwner targetName files baseTreeSha ;;
      commit <- createCommit targetOwner targetName (td_sha tree)
                  ("Initial commit - Cloned from " ++ sourceOwner ++ "/" ++ sourceRepo)
                  (if Js.truthy parentSha then [default parentSha ""] else []) ;;
      await (Git_updateRef (octokit self) targetOwner targetName
               ("heads/" ++ defaultBranch) (gc_sha commit) true) ;;;
      (if includeBranches then
         branches <- getBranches sourceOwner sourceRepo ;;
         for_of branches
           (copyBranch sourceOwner sourceRepo targetOwner targetName defaultBranch commit) tt
       else Ret tt) ;;;
      copyBranchProtection sourceOwner sourceRepo targetOwner targetName defaultBranch ;;;
      Ret (CloneResult.mk true newRepo (List.length files)
             ("Successfully cloned " ++ sourceOwner ++ "/" ++ sourceRepo ++ " to "
              ++ targetName ++ " using Git API")).

Definition cloneAsTemplate (options : CloneOptions.t) : Prog CloneResult.t :=
  try_catch (cloneUsingContentsAPI options) (fun error =>
    console2 LWarn "Contents API approach failed, trying Git API fallback:"
      (message error) ;;;
    try_catch (cloneUsingGitAPI options) (fun fallbackError =>
      console LError "Both approaches failed" ;;;
      Throw (new_Error ("Failed to clone repository using both methods. Last error: "
                        ++ message fallbackError)))).

(** The paths a sync never writes: the [skipPatterns] of step 8. *)
Definition skipPatterns : list Js.Anchored :=
  [ Js.mkAnchored ".git/" false false;
    Js.mkAnchored "node_modules/" false false;
    Js.mkAnchored ".env" false false;
    Js.mkAnchored "README.md" true true;
    Js.mkAnchored "LICENSE" true true ].

Definition syncable (file : File) : bool :=
  negb (existsb (fun pattern => Js.test pattern (f_path file)) skipPatterns).

Definition colon_or_dot (c : ascii) : bool := Ascii.eqb c ":" || Ascii.eqb c ".".

(** The commit message of a sync that was given none. *)
Definition defaultCommitMessage (sourceOwner sourceRepo : string) (latest : CommitItem)
  : string :=
  "Sync with template " ++ sourceOwner ++ "/" ++ sourceRepo ++ nl ++ nl
  ++ "template-sha: " ++ ci_sha latest.

Definition author_name (c : CommitItem) : string :=
  Js.or_else (match ci_author c with Some a => a_name a | None => None end) "Unknown".

Definition author_date (c : CommitItem) (d : string) : string :=
  Js.or_else (match ci_author c with Some a => a_date a | None => None end) d.

Definition pullRequestBody (sourceOwner sourceRepo : string) (latest : CommitItem)
    (filesCount : nat) : string :=
  "This pull request syncs your project with the latest changes from the template repository."
  ++ nl ++ nl
  ++ "## Template Information" ++ nl
  ++ "- **Template**: " ++ sourceOwner ++ "/" ++ sourceRepo ++ nl
  ++ "- **Template Commit**: " ++ ci_sha latest ++ nl
  ++ "- **Files Updated**: " ++ Js.of_nat filesCount ++ nl ++ nl
  ++ "## Latest Template Commit" ++ nl
  ++ "- **Message**: " ++ ci_message latest ++ nl
  ++ "- **Author**: " ++ author_name latest ++ nl
  ++ "- **Date**: " ++ author_date latest "Unknown" ++ nl ++ nl
  ++ "## Review Guidelines" ++ nl
  ++ "Please review the changes carefully before merging:" ++ nl
  ++ "1. Check for any conflicts with your local modifications" ++ nl
  ++ "2. Ensure the updates don't break your existing functionality" ++ nl
  ++ "3. Test the changes in a development environment if possible" ++ nl ++ nl
  ++ "<!-- template-sha: " ++ ci_sha latest ++ " -->".

(** What steps 1 to 4 of [syncWithTemplate] establish: the local
    variables the later steps read. *)
Record SyncTarget := mkSyncTarget {
  defaultBranch : string;
  sourceBranch : string;
  latestTemplateCommit : CommitItem;
  syncBranchName : string
}.

Section Sync.
Variable options : SyncOptions.t.

Let sourceOwner := SyncOptions.sourceOwner options.
Let sourceRepo := SyncOptions.sourceRepo options.
Let targetOwner := SyncOptions.targetOwner options.
Let targetRepo := SyncOptions.targetRepo options.
Let targetBranch := SyncOptions.targetBranch options.
Let createPullRequest := default (SyncOptions.createPullRequest options) true.
Let sourceToken := SyncOptions.sourceToken options.
Let commitMessage := SyncOptions.commitMessage options.
Let directToMain := default (SyncOptions.directToMain options) false.

(** The client for the template: the token of the call if it has one. *)
Definition syncSourceOctokit : Octokit :=
  if Js.truthy sourceToken then mkOctokit sourceToken else sourceOctokit self.

(** Steps 1 to 4: the two repositories, the latest template commit and
    the name of the sync branch. *)
Definition syncResolve : Prog SyncTarget :=
  (* 1. target repository information *)
  targetRepoData <- await (Repos_get (octokit self) targetOwner targetRepo) ;;
  let defaultBranch := Js.or_else (default_branch targetRepoData) "main" in
  (* 2. source repository information *)
  sourceRepoData <- await (Repos_get syncSourceOctokit sourceOwner sourceRepo) ;;
  let sourceBranch := Js.or_else (default_branch sourceRepoData) "main" in
  (* 3. latest template commit *)
  templateCommits <- await (Repos_listCommits syncSourceOctokit sourceOwner sourceRepo
                              (Some sourceBranch) 1) ;;
  match templateCommits with
  | [] => Throw (new_Error "No commits found in template repository")
  | latestTemplateCommit :: _ =>
      (* 4. name of the sync branch *)
      syncBranchName <-
        (if directToMain then Ret defaultBranch
         else if Js.truthy targetBranch then Ret (default targetBranch "")
         else
           iso <- now_iso ;;
           let timestamp := Js.slice0 19 (Js.replace_class colon_or_dot "-" iso) in
           Ret ("sync-template-" ++ timestamp)) ;;
      Ret (mkSyncTarget defaultBranch sourceBranch latestTemplateCommit syncBranchName)
  end.

(** Steps 6 and 7: the sync branch is created from the head of the
    default branch unless it exists or is the default branch, and its
    current reference and commit are read. *)
Definition syncCheckout (t : SyncTarget) : Prog (GitRef * GitCommit) :=
  (* 6. create or check out the sync branch *)
  defaultBranchRef <- await (Git_getRef (octokit self) targetOwner targetRepo
                               ("heads/" ++ defaultBranch t)) ;;
  branchExists <-
    Call (Git_getRef (octokit self) targetOwner targetRepo
            ("heads/" ++ syncBranchName t)) (fun r =>
      match r with
      | Ok _ => Ret true
      | Err error => if negb (status_is error 404) then Throw error else Ret false
      end) ;;
  (if negb branchExists && negb (String.eqb (syncBranchName t) (defaultBranch t)) then
     await (Git_createRef (octokit self) targetOwner targetRepo
              ("refs/heads/" ++ syncBranchName t) (object_sha defaultBranchRef)) ;;;
     console LLog ("Created sync branch: " ++ syncBranchName t) ;;;
     sleep 1000
   else if String.eqb (syncBranchName t) (defaultBranch t) then
     console LLog ("Syncing directly to " ++ defaultBranch t ++ " branch")
   else Ret tt) ;;;
  (* 7. current commit of the sync branch *)
  try_catch
    (ref <- await (Git_getRef (octokit self) targetOwner targetRepo
                     ("heads/" ++ syncBranchName t)) ;;
     commit <- await (Git_getCommit (octokit self) targetOwner targetRepo
                        (object_sha ref)) ;;
     Ret (ref, commit))
    (fun error =>
       console2 LError ("Error getting branch reference for " ++ syncBranchName t ++ ":")
         (message error) ;;;
       Throw (new_Error ("Failed to get current state of branch " ++ syncBranchName t))).

(** Step 9: the tree on top of the current tree of the branch, and
    without a base tree if that fails. *)
Definition syncBuildTree (filesToSync : list File) (currentCommit : GitCommit)
  : Prog TreeData :=
  try_catch
    (createTree targetOwner targetRepo filesToSync (Some (gc_tree_sha currentCommit)))
    (fun error =>
       console2 LWarn "Failed to create tree with base tree, trying without base tree:"
         (message error) ;;;
       createTree targetOwner targetRepo filesToSync None).

Definition syncCommitMessage (t : SyncTarget) : string :=
  if Js.truthy commitMessage then default commitMessage ""
  else defaultCommitMessage sourceOwner sourceRepo (latestTemplateCommit t).

Definition syncPullReq (t : SyncTarget) (filesToSync : list File) : PullReq :=
  mkPullReq
    ("[sync-template] Update from " ++ sourceOwner ++ "/" ++ sourceRepo)
    (pullRequestBody sourceOwner sourceRepo (latestTemplateCommit t)
       (List.length filesToSync))
    (syncBranchName t) (defaultBranch t).

(** Steps 10 to 12 and the result. *)
Definition syncDeliver (t : SyncTarget) (filesToSync : list File) (branchRef : GitRef)
    (tree : TreeData) : Prog SyncResult.t :=
  (* 10. commit with the new tree *)
  commit <- createCommit targetOwner targetRepo (td_sha tree) (syncCommitMessage t)
              [object_sha branchRef] ;;
  (* 11. move the branch *)
  await (Git_updateRef (octokit self) targetOwner targetRepo
           ("heads/" ++ syncBranchName t) (gc_sha commit) false) ;;;
  console LLog ("Successfully updated branch " ++ syncBranchName t
                ++ " with template changes") ;;;
  (* 12. pull request, if requested and not on the default branch *)
  pullRequestUrl <-
    (if createPullRequest && negb (String.eqb (syncBranchName t) (defaultBranch t)) then
       Call (Pulls_create (octokit self) targetOwner targetRepo (syncPullReq t filesToSync))
         (fun r =>
            match r with
            | Ok pr =>
                console LLog ("Created pull request: " ++ pr_html_url pr) ;;;
                Ret (Some (pr_html_url pr))
            | Err error =>
                console2 LError "Error creating pull request:" (message error) ;;;
                Ret None
            end)
     else Ret None) ;;
  Ret (SyncResult.mk true (List.length filesToSync) (Some (syncBranchName t))
         pullRequestUrl
         ("Successfully synced with template " ++ sourceOwner ++ "/" ++ sourceRepo)).

Definition nothingToSync : SyncResult.t :=
  SyncResult.mk true 0 None None "Template repository is empty, nothing to sync".

(** What follows step 5 once the template has files. *)
Definition syncFiles (t : SyncTarget) (files : list File) : Prog SyncResult.t :=
  console LLog ("Found " ++ Js.of_nat (List.length files)
                ++ " files in template repository") ;;;
  current <- syncCheckout t ;;
  let '(branchRef, currentCommit) := current in
  (* 8. files to sync *)
  let filesToSync := filter syncable files in
  console LLog ("Syncing " ++ Js.of_nat (List.length filesToSync) ++ " files (excluded "
                ++ Js.of_nat (List.length files - List.length filesToSync) ++ " files)") ;;;
  console LLog ("Creating tree with " ++ Js.of_nat (List.length filesToSync)
                ++ " files...") ;;;
  tree <- syncBuildTree filesToSync currentCommit ;;
  syncDeliver t filesToSync branchRef tree.

Definition syncFailed (error : JsError) : Prog SyncResult.t :=
  console2 LError "Error syncing with template:" (message error) ;;;
  Throw (new_Error ("Failed to sync with template: " ++ message error)).

Definition syncWithTemplate : Prog SyncResult.t :=
  console LLog ("Syncing " ++ targetOwner ++ "/" ++ targetRepo ++ " with template "
                ++ sourceOwner ++ "/" ++ sourceRepo ++ "...") ;;;
  try_catch
    (t <- syncResolve ;;
     (* 5. all files of the template *)
     files <- getAllFiles sourceOwner sourceRepo (sourceBranch t) ;;
     if Nat.eqb (List.length files) 0 then Ret nothingToSync
     else syncFiles t files)
    syncFailed.

End Sync.

End Cloner.

(* ================================================================== *)
(** * The drift check: [GET] of the sync-template route *)
(* ================================================================== *)

Record LatestCommit := mkLatestCommit {
  lc_sha : string;
  lc_message : string;
  lc_date : string;
  lc_author : string
}.

Record TemplateUpdate := mkTemplateUpdate {
  hasUpdates : bool;
  latestCommit : option LatestCommit;
  changedFiles : option (list string)
}.

Inductive Body :=
| ErrorBody (error : string)
| NoCommitsBody (hasUpdates_ : bool) (message_ : string)
| UpdateBody (u : TemplateUpdate).

(** [NextResponse.json(body, { status })]. *)
Record Response := mkResponse {
  rs_status : nat;
  rs_body : Body
}.

Definition json (body : Body) (st : nat) : Prog Response := Ret (mkResponse st body).

(** [a > b] on two [Date]s: false when either is invalid. *)
Definition date_gt (a b : option Z) : bool :=
  match a, b with
  | Some x, Some y => Z.ltb y x
  | _, _ => false
  end.

Definition is_sync_marker (c : CommitItem) : bool :=
  Js.includes (ci_message c) "sync-template"
  || Js.includes (ci_message c) "Initial commit from template".

Section DriftCheck.
Context {rt : JsRuntime}.

(** [safeDecrypt] of [src/lib/encryption.ts]. *)
Definition safeDecrypt (text : string) : Prog string :=
  if String.eqb text "" then Ret ""
  else if isEncrypted text then
    match decrypt text with
    | Some plain => Ret plain
    | None => console LError "Failed to decrypt, returning original text:" ;;; Ret text
    end
  else Ret text.

(** The template client: the decrypted token of the template if it has
    one, else the client of the user. *)
Definition templateClient (template : GithubTemplate) (octokit : Octokit) : Prog Octokit :=
  if Js.truthy (githubToken template) then
    templateToken <- safeDecrypt (default (githubToken template) "") ;;
    Ret (if Js.truthy (Some templateToken) then mkOctokit (Some templateToken) else octokit)
  else Ret octokit.

Definition latest_of (c : CommitItem) : LatestCommit :=
  mkLatestCommit (ci_sha c) (ci_message c) (author_date c "") (author_name c).

(** The check proper, once the project, its template and the two
    repositories are known: from "Get template repository info" to the
    response. *)
Definition checkUpdates (project : Project) (template : GithubTemplate) (octokit : Octokit)
    (projectOwner projectRepo templateOwner templateRepo : string) : Prog Response :=
  templateOctokit <- templateClient template octokit ;;
  (* latest commit of the template *)
  templateCommits <-
    await (Repos_listCommits templateOctokit templateOwner
             (Js.replace_first ".git" "" templateRepo)
             (Some (Js.or_else (branch template) "main")) 1) ;;
  match templateCommits with
  | [] => json (NoCommitsBody false "No commits found in template repository") 200
  | latestTemplateCommit :: _ =>
      (* the last sync commit of the project, or its initial commit *)
      projectCommits <-
        await (Repos_listCommits octokit projectOwner
                 (Js.replace_first ".git" "" projectRepo) None 100) ;;
      let lastSyncCommit := find is_sync_marker projectCommits in
      let lastSyncedTemplateSha :=
        match lastSyncCommit with
        | Some c => Js.match_template_sha (ci_message c)
        | None => None
        end in
      let templateCommitDate := Date_parse (author_date latestTemplateCommit "") in
      let lastSyncDate :=
        match lastSyncCommit with
        | Some c => Date_parse (author_date c "")
        | None => Some (createdAt project)
        end in
      let hasUpdates := date_gt templateCommitDate lastSyncDate in
      changed <-
        (match hasUpdates, lastSyncedTemplateSha with
         | true, Some base =>
             Call (Repos_compareCommits templateOctokit templateOwner
                     (Js.replace_first ".git" "" templateRepo)
                     base (ci_sha latestTemplateCommit)) (fun r =>
               match r with
               | Ok comparison => Ret (Some (default (cmp_files comparison) []))
               | Err error =>
                   console2 LError "Error comparing commits:" (message error) ;;;
                   Ret None
               end)
         | true, None => Ret (Some ["All files (first sync or template SHA not found)"])
         | false, _ => Ret None
         end) ;;
      json (UpdateBody (mkTemplateUpdate hasUpdates (Some (latest_of latestTemplateCommit))
                          changed)) 200
  end.

(** The [try] block of [GET]: the project, the account and the two
    repository URLs, then the check. *)
Definition findAndCheck (id userId : string) : Prog Response :=
  project <- await (Prisma_project_findFirst id userId) ;;
  match project with
  | None => json (ErrorBody "Project not found") 404
  | Some project =>
      match githubTemplate project with
      | None => json (ErrorBody "Project was not created from a template") 400
      | Some template =>
          if negb (Js.truthy (githubRepo project)) then
            json (ErrorBody "Project does not have a GitHub repository") 400
          else
            userAccount <- await (Prisma_account_findFirst userId "github") ;;
            let token := match userAccount with Some a => access_token a | None => None end in
            if negb (Js.truthy token) then
              json (ErrorBody "GitHub authentication required") 401
            else
              match Js.match_github_url (default (githubRepo project) ""),
                    Js.match_github_url (githubUrl template) with
              | Some (projectOwner, projectRepo), Some (templateOwner, templateRepo) =>
                  checkUpdates project template (mkOctokit token)
                    projectOwner projectRepo templateOwner templateRepo
              | _, _ => json (ErrorBody "Invalid repository URLs") 400
              end
      end
  end.

Definition GET (id : string) : Prog Response :=
  session <- await Auth_session ;;
  if negb (Js.truthy session) then json (ErrorBody "Unauthorized") 401
  else
    try_catch (findAndCheck id (default session ""))
      (fun error =>
         console2 LError "Error checking template updates:" (message error) ;;;
         json (ErrorBody "Failed to check template updates") 500).

End DriftCheck.

(* ================================================================== *)
(** * Reading a trace *)
(* ================================================================== *)

Definition succeeded {X} (r : Result X) : bool :=
  match r with Ok _ => true | Err _ => false end.

Definition collect {A B} (f : A -> option B) (xs : list A) : list B :=
  somes (map f xs).


Definition ev_sleep (e : Event) : option nat :=
  match e with
  | EvSleep ms => Some ms
  | _ => None
  end.

(** The trees a run asked the remote to write, accepted or not. *)
Definition ev_tree_request (e : Event) : option (list TreeEntry * option string) :=
  match e with
  | EvCall c _ =>
      match c with
      | Git_createTree _ _ _ tree base_tree => Some (tree, base_tree)
      | _ => None
      end
  | _ => None
  end.

Definition sleeps (tr : list Event) := collect ev_sleep tr.
Definition tree_requests (tr : list Event) := collect ev_tree_request tr.



(** Every call that changes the remote. *)
Definition is_write (e : Event) : bool :=
  match e with
  | EvCall c _ =>
      match c with
      | Repos_createForAuthenticatedUser _ _ => true
      | Repos_deleteFile _ _ _ _ _ _ => true
      | Repos_createOrUpdateFileContents _ _ _ _ _ _ _ => true
      | Repos_updateBranchProtection _ _ _ _ _ => true
      | Git_createRef _ _ _ _ _ => true
      | Git_updateRef _ _ _ _ _ _ => true
      | Git_createBlob _ _ _ _ _ => true
      | Git_createTree _ _ _ _ _ => true
      | Git_createCommit _ _ _ _ _ _ => true
      | Pulls_create _ _ _ _ => true
      | _ => false
      end
  | _ => false
  end.

Definition writes (tr : list Event) : list Event := filter is_write tr.

Definition octokit_eqb (a b : Octokit) : bool :=
  match auth a, auth b with
  | Some x, Some y => String.eqb x y
  | None, None => true
  | _, _ => false
  end.

(** The messages of the commits a run asked for. *)
Definition ev_commit_message (e : Event) : option string :=
  match e with
  | EvCall c _ =>
      match c with
      | Git_createCommit _ _ _ msg _ _ => Some msg
      | _ => None
      end
  | _ => None
  end.

Definition commit_messages (tr : list Event) := collect ev_commit_message tr.

(* ================================================================== *)
(** * The denylist in the words of the specification *)
(* ================================================================== *)

Definition lower_char (c : ascii) : ascii :=
  let n := nat_of_ascii c in
  if Nat.leb 65 n && Nat.leb n 90 then ascii_of_nat (n + 32) else c.

Fixpoint lower (s : string) : string :=
  match s with
  | EmptyString => EmptyString
  | String c rest => String (lower_char c) (lower rest)
  end.

(** A path begins with [.git/], [node_modules/] or [.env], or equals
    [README.md] or [LICENSE] up to the case of its letters. *)
Definition denylisted (path : string) : bool :=
  prefix ".git/" path || prefix "node_modules/" path || prefix ".env" path
  || String.eqb (lower path) (lower "README.md")
  || String.eqb (lower path) (lower "LICENSE").

(* ================================================================== *)
(** * A concrete remote for examples *)
(* ================================================================== *)

(** A small in-memory hosting service.  It keeps the references of its
    repositories, numbers the calls it receives and can be told to reject
    chosen calls, so that every path of the code can be exercised on
    concrete data. *)
Module Mock.

Record Scenario := mkScenario {
  (** the calls, by their number, that the service rejects with a 500 *)
  fails_at : nat -> bool;
  (** blob contents the service never accepts *)
  rejects_blob : string -> bool;
  (** a tree on a base tree is answered with 404 *)
  stale_base : bool;
  (** the commits of the template, newest first *)
  template_commits : list CommitItem;
  (** the commits of the project, newest first *)
  project_commits : list CommitItem;
  (** the recursive tree of the template *)
  template_tree : list TreeItem;
  (** the project row of the drift check *)
  project_row : option Project
}.

Record State := mkState {
  refs : list (string * string);
  tick : nat
}.

Definition ref_key (owner repo ref : string) : string :=
  owner ++ "/" ++ repo ++ ":"
  ++ (if prefix "refs/" ref then substring 5 (String.length ref) ref else ref).

Fixpoint lookup (k : string) (m : list (string * string)) : option string :=
  match m with
  | [] => None
  | (k', v) :: rest => if String.eqb k k' then Some v else lookup k rest
  end.

Definition not_found {X} : Result X := Err (mkError "Not Found" (Some 404)).
Definition server_error {X} : Result X := Err (mkError "Server Error" (Some 500)).
Definition unprocessable {X} : Result X := Err (mkError "Unprocessable" (Some 422)).

Definition repo_data (owner repo : string) : RepoData :=
  mkRepoData None (Some "main") ("https://github.com/" ++ owner ++ "/" ++ repo).

Definition respond (sc : Scenario) (X : Type) (c : Api X) (s : State) : Result X * State :=
  let s' := mkState (refs s) (Datatypes.S (tick s)) in
  if fails_at sc (tick s) then (server_error, s') else
  match c in Api X return Result X * State with
  | Users_getAuthenticated _ => (Ok (mkAuthUser "octo"), s')
  | Repos_get _ owner repo => (Ok (repo_data owner repo), s')
  | Repos_createForAuthenticatedUser _ req => (Ok (repo_data "octo" (cr_name req)), s')
  | Repos_getContent _ _ _ _ => (Ok (mkContentData (Some "readme-sha")), s')
  | Repos_deleteFile _ _ _ _ _ _ => (Ok tt, s')
  | Repos_createOrUpdateFileContents _ _ _ _ _ _ _ => (Ok tt, s')
  | Repos_getBranchProtection _ _ _ _ => (Ok (mkProtection None), s')
  | Repos_updateBranchProtection _ _ _ _ _ => (Ok tt, s')
  | Repos_listBranches _ _ _ _ => (Ok [mkBranch "main"], s')
  | Repos_listCommits _ _ repo _ _ =>
      (Ok (if String.eqb repo "template" then template_commits sc else project_commits sc), s')
  | Repos_compareCommits _ _ _ _ _ => (Ok (mkComparison (Some ["a.txt"])), s')
  | Git_getRef _ owner repo ref =>
      match lookup (ref_key owner repo ref) (refs s) with
      | Some sha => (Ok (mkGitRef sha), s')
      | None => (not_found, s')
      end
  | Git_createRef _ owner repo ref sha =>
      (Ok tt, mkState ((ref_key owner repo ref, sha) :: refs s) (Datatypes.S (tick s)))
  | Git_updateRef _ owner repo ref sha _ =>
      (Ok tt, mkState ((ref_key owner repo ref, sha) :: refs s) (Datatypes.S (tick s)))
  | Git_getCommit _ _ _ sha => (Ok (mkGitCommit sha ("tree-of-" ++ sha)), s')
  | Git_getTree _ _ _ _ _ => (Ok (template_tree sc), s')
  | Git_getBlob _ _ _ sha => (Ok (mkBlobData ("content of " ++ sha) "utf-8"), s')
  | Git_createBlob _ _ _ content _ =>
      if rejects_blob sc content then (unprocessable, s') else (Ok ("blob-" ++ content), s')
  | Git_createTree _ _ _ _ base_tree =>
      match base_tree with
      | Some _ =>
          if stale_base sc then (not_found, s')
          else (Ok (mkTreeData ("tree-" ++ Js.of_nat (tick s))), s')
      | None => (Ok (mkTreeData ("tree-" ++ Js.of_nat (tick s))), s')
      end
  | Git_createCommit _ _ _ _ tree _ =>
      (Ok (mkGitCommit ("commit-" ++ Js.of_nat (tick s)) tree), s')
  | Pulls_create _ owner repo _ =>
      (Ok (mkPullRequest ("https://github.com/" ++ owner ++ "/" ++ repo ++ "/pull/1")), s')
  | Auth_session => (Ok (Some "user-1"), s')
  | Prisma_project_findFirst _ _ => (Ok (project_row sc), s')
  | Prisma_account_findFirst _ _ => (Ok (Some (mkAccount (Some "user-token"))), s')
  end.

Definition remote (sc : Scenario) : Remote :=
  mkRemote (respond sc) (fun s => ("2024-05-06T07:08:09.123Z", s)).

(** The template [acme/template] and the project [octo/app], both on
    [main]. *)
Definition start : State :=
  mkState [ ("acme/template:heads/main", "t1"); ("octo/app:heads/main", "h0") ] 0.

Definition item (path sha : string) : TreeItem :=
  mkTreeItem (Some path) (Some "blob") (Some sha).

Definition commit_at (sha msg date : string) : CommitItem :=
  mkCommitItem sha msg (Some (mkAuthor (Some "dev") (Some date))).

Definition sha_a : string := "aaaaaaaaaaaaaaaaaaaaaaaaaaaaaaaaaaaaaaaa".
Definition sha_b : string := "bbbbbbbbbbbbbbbbbbbbbbbbbbbbbbbbbbbbbbbb".

Definition quiet : Scenario :=
  mkScenario (fun _ => false) (fun _ => false) false
    [commit_at sha_b "add b" "2024-05-06T00:00:00Z"]
    [commit_at "h0" "Initial commit" "2024-05-01T00:00:00Z"]
    [item "a.txt" "s1"; item "README.md" "s2"; item ".env.local" "s3"]
    (Some (mkProject (Some "https://github.com/octo/app")
             (Some (mkGithubTemplate "https://github.com/acme/template" None None))
             20240401000000)).

Definition with_failures (f : nat -> bool) (sc : Scenario) : Scenario :=
  mkScenario f (rejects_blob sc) (stale_base sc) (template_commits sc)
    (project_commits sc) (template_tree sc) (project_row sc).


Definition with_stale_base (sc : Scenario) : Scenario :=
  mkScenario (fails_at sc) (rejects_blob sc) true (template_commits sc)
    (project_commits sc) (template_tree sc) (project_row sc).

Definition with_template_commits (cs : list CommitItem) (sc : Scenario) : Scenario :=
  mkScenario (fails_at sc) (rejects_blob sc) (stale_base sc) cs
    (project_commits sc) (template_tree sc) (project_row sc).

Definition with_project_commits (cs : list CommitItem) (sc : Scenario) : Scenario :=
  mkScenario (fails_at sc) (rejects_blob sc) (stale_base sc) (template_commits sc)
    cs (template_tree sc) (project_row sc).

Definition with_template_tree (t : list TreeItem) (sc : Scenario) : Scenario :=
  mkScenario (fails_at sc) (rejects_blob sc) (stale_base sc) (template_commits sc)
    (project_commits sc) t (project_row sc).

Fixpoint digits (s : string) : list nat :=
  match s with
  | EmptyString => []
  | String c rest =>
      let n := nat_of_ascii c in
      if Nat.leb 48 n && Nat.leb n 57 then (n - 48) :: digits rest else digits rest
  end.

(** A stand-in for [Date.parse] on timestamps [YYYY-MM-DDTHH:MM:SSZ]: it
    reads the fourteen digits as one number, which orders such
    timestamps as their time values do.  Anything else is an invalid
    date. *)
Definition date_parse (s : string) : option Z :=
  let ds := digits (substring 0 19 s) in
  if Nat.eqb (List.length ds) 14
  then Some (fold_left (fun acc d => (acc * 10 + Z.of_nat d)%Z) ds 0%Z)
  else None.

Definition runtime : JsRuntime :=
  mkJsRuntime (fun s => s) (fun s => s) date_parse None (fun _ => false) (fun _ => None).

Definition cloner : GitHubRepoCloner :=
  @new_GitHubRepoCloner runtime (Some "user-token") None.

Definition sync_options : SyncOptions.t :=
  SyncOptions.mk "acme" "template" "octo" "app" None None None None None.

Definition clone_options : CloneOptions.t :=
  CloneOptions.mk "acme" "template" "app" None None None None None.

End Mock.

(* ================================================================== *)
(** * Vocabulary of the theorems *)
(* ================================================================== *)

(** ** Kinds of events *)

(** What building a tree emits: blob and tree creation, waits and
    console output. *)
Definition is_tree_building (e : Event) : bool :=
  match e with
  | EvCall c _ =>
      match c with
      | Git_createBlob _ _ _ _ _ => true
      | Git_createTree _ _ _ _ _ => true
      | _ => false
      end
  | EvSleep _ => true
  | EvConsole _ _ => true
  | EvNow _ => false
  end.

Definition is_blob_building (e : Event) : bool :=
  match e with
  | EvCall c _ =>
      match c with
      | Git_createBlob _ _ _ _ _ => true
      | _ => false
      end
  | EvSleep _ => true
  | EvConsole _ _ => true
  | EvNow _ => false
  end.

(** What steps 1 to 4 of a sync emit. *)
Definition is_resolving (e : Event) : bool :=
  match e with
  | EvCall c _ =>
      match c with
      | Repos_get _ _ _ => true
      | Repos_listCommits _ _ _ _ _ => true
      | _ => false
      end
  | EvNow _ => true
  | _ => false
  end.

(** What enumerating the files of a repository emits. *)
Definition is_source_read (e : Event) : bool :=
  match e with
  | EvCall c _ =>
      match c with
      | Git_getRef _ _ _ _ => true
      | Git_getCommit _ _ _ _ => true
      | Git_getTree _ _ _ _ _ => true
      | Git_getBlob _ _ _ _ => true
      | _ => false
      end
  | EvSleep _ => true
  | EvConsole _ _ => true
  | EvNow _ => false
  end.


(** What steps 6 and 7 of a sync emit. *)
Definition is_checkout (e : Event) : bool :=
  match e with
  | EvCall c _ =>
      match c with
      | Git_getRef _ _ _ _ => true
      | Git_getCommit _ _ _ _ => true
      | Git_createRef _ _ _ _ _ => true
      | _ => false
      end
  | EvSleep _ => true
  | EvConsole _ _ => true
  | EvNow _ => false
  end.



(** A request for a pull request that the remote answered with an
    error. *)
Definition is_failed_pull (e : Event) : bool :=
  match e with
  | EvCall c r =>
      match c with
      | Pulls_create _ _ _ _ => negb (succeeded r)
      | _ => false
      end
  | _ => false
  end.

Definition is_comparison (e : Event) : bool :=
  match e with
  | EvCall c _ =>
      match c with
      | Repos_compareCommits _ _ _ _ _ => true
      | _ => false
      end
  | _ => false
  end.

Definition is_console (e : Event) : bool :=
  match e with
  | EvConsole _ _ => true
  | _ => false
  end.

(** A tree request names no denylisted path. *)
Definition clean_tree_request (e : Event) : bool :=
  match ev_tree_request e with
  | Some (entries, _) => forallb (fun en => negb (denylisted (te_path en))) entries
  | None => true
  end.

(** Every commit the event asks for has a message that satisfies [p]. *)
Definition commit_message_is (p : string -> bool) (e : Event) : bool :=
  match ev_commit_message e with
  | Some msg => p msg
  | None => true
  end.

(** The project rows a run read. *)
Definition ev_project_row (e : Event) : option Project :=
  match e with
  | EvCall c r =>
      match c in Api X return Result X -> option Project with
      | Prisma_project_findFirst _ _ => fun r =>
          match r with
          | Ok (Some project) => Some project
          | _ => None
          end
      | _ => fun _ => None
      end r
  | _ => None
  end.

(** The commit lists a run was given. *)
Definition ev_listed_commits (e : Event) : option (list CommitItem) :=
  match e with
  | EvCall c r =>
      match c in Api X return Result X -> option (list CommitItem) with
      | Repos_listCommits _ _ _ _ _ => fun r =>
          match r with
          | Ok commits => Some commits
          | Err _ => None
          end
      | _ => fun _ => None
      end r
  | _ => None
  end.

Definition project_rows (tr : list Event) := collect ev_project_row tr.
Definition listed_commits (tr : list Event) := collect ev_listed_commits tr.

Definition all_ascii : list ascii := map ascii_of_nat (seq 0 256).

(** ** Properties of programs *)

Section Programs.
Context {R : Remote}.

(** Every event of every run of the program is of kind [q]. *)
Definition emits (q : Event -> bool) {A} (p : Prog A) : Prop :=
  forall w : World, forallb q (snd (run p w)) = true.

(** Every value the program returns satisfies [P]. *)
Definition returns {A} (P : A -> Prop) (p : Prog A) : Prop :=
  forall (w : World) a w' tr, run p w = (Ok a, w', tr) -> P a.

End Programs.

(** ** Building a tree *)

Section TreeVocabulary.
Context {R : Remote} {rt : JsRuntime}.
Variable self : GitHubRepoCloner.
Variables owner repo : string.

(** The call that creates the blob of a file. *)
Definition blob_call (file : File) : Api string :=
  Git_createBlob (octokit self) owner repo (base64_of_utf8 (f_content file)) "base64".

(** An entry of the tree is the path of its file with the blob that was
    created for it. *)
Definition entry_of (file : File) (entry : TreeEntry) : Prop :=
  te_path entry = f_path file /\ te_mode entry = "100644" /\ te_type entry = "blob"
  /\ exists w0 w1 t,
       run (createBlobWithRetry self owner repo file 3) w0 = (Ok (te_sha entry), w1, t).

(** The body of the batch loop of [createTree]. *)
Definition blob_batch (batch : list File) (tree : list TreeEntry) : Prog (list TreeEntry) :=
  batchResults <- Promise_all (map (blob_entry self owner repo) batch) ;;
  Ret (tree ++ batchResults)%list.

End TreeVocabulary.

(** ** The runs of a sync *)

(** The name a sync gives its branch when it is given none. *)
Definition generatedBranchName (iso : string) : string :=
  "sync-template-" ++ Js.slice0 19 (Js.replace_class colon_or_dot "-" iso).

(** The result of a sync that wrote [n] files to [name]. *)
Definition synced (options : SyncOptions.t) (name : string) (n : nat) (url : option string)
  : SyncResult.t :=
  SyncResult.mk true n (Some name) url
    ("Successfully synced with template " ++ SyncOptions.sourceOwner options ++ "/"
     ++ SyncOptions.sourceRepo options).

Definition ev_started (options : SyncOptions.t) : Event :=
  EvConsole LLog ("Syncing " ++ SyncOptions.targetOwner options ++ "/"
                  ++ SyncOptions.targetRepo options ++ " with template "
                  ++ SyncOptions.sourceOwner options ++ "/"
                  ++ SyncOptions.sourceRepo options ++ "...").

Definition ev_failed (e : JsError) : Event :=
  EvConsole LError ("Error syncing with template:" ++ " " ++ message e).

Definition ev_found (files : list File) : Event :=
  EvConsole LLog ("Found " ++ Js.of_nat (List.length files)
                  ++ " files in template repository").

Definition ev_filtered (files : list File) : list Event :=
  let filesToSync := filter syncable files in
  [ EvConsole LLog ("Syncing " ++ Js.of_nat (List.length filesToSync) ++ " files (excluded "
                    ++ Js.of_nat (List.length files - List.length filesToSync) ++ " files)");
    EvConsole LLog ("Creating tree with " ++ Js.of_nat (List.length filesToSync)
                    ++ " files...") ].

Section SyncVocabulary.
Context {R : Remote} {rt : JsRuntime}.
Variable self : GitHubRepoCloner.
Variable options : SyncOptions.t.

(** The runs of the [try] block of [syncWithTemplate], step by step:
    where it stops, with what, and the trace it leaves. *)
Inductive SyncRun (w : World) : Result SyncResult.t -> World -> list Event -> Prop :=
| SyncRun_unresolved e w1 t1 :
    run (syncResolve self options) w = (Err e, w1, t1) ->
    SyncRun w (Err e) w1 t1
| SyncRun_unlisted t w1 t1 e w2 t2 :
    run (syncResolve self options) w = (Ok t, w1, t1) ->
    run (getAllFiles self (SyncOptions.sourceOwner options)
           (SyncOptions.sourceRepo options) (sourceBranch t)) w1 = (Err e, w2, t2) ->
    SyncRun w (Err e) w2 (t1 ++ t2)
| SyncRun_nothing t w1 t1 w2 t2 :
    run (syncResolve self options) w = (Ok t, w1, t1) ->
    run (getAllFiles self (SyncOptions.sourceOwner options)
           (SyncOptions.sourceRepo options) (sourceBranch t)) w1 = (Ok [], w2, t2) ->
    SyncRun w (Ok nothingToSync) w2 (t1 ++ t2)
| SyncRun_no_checkout t w1 t1 files w2 t2 e w3 t3 :
    run (syncResolve self options) w = (Ok t, w1, t1) ->
    run (getAllFiles self (SyncOptions.sourceOwner options)
           (SyncOptions.sourceRepo options) (sourceBranch t)) w1 = (Ok files, w2, t2) ->
    files <> [] ->
    run (syncCheckout self options t) w2 = (Err e, w3, t3) ->
    SyncRun w (Err e) w3 (t1 ++ t2 ++ ev_found files :: t3)
| SyncRun_no_tree t w1 t1 files w2 t2 ref cur w3 t3 e w4 t4 :
    run (syncResolve self options) w = (Ok t, w1, t1) ->
    run (getAllFiles self (SyncOptions.sourceOwner options)
           (SyncOptions.sourceRepo options) (sourceBranch t)) w1 = (Ok files, w2, t2) ->
    files <> [] ->
    run (syncCheckout self options t) w2 = (Ok (ref, cur), w3, t3) ->
    run (syncBuildTree self options (filter syncable files) cur) w3 = (Err e, w4, t4) ->
    SyncRun w (Err e) w4 (t1 ++ t2 ++ ev_found files :: t3 ++ ev_filtered files ++ t4)
| SyncRun_delivery t w1 t1 files w2 t2 ref cur w3 t3 tree w4 t4 out w5 t5 :
    run (syncResolve self options) w = (Ok t, w1, t1) ->
    run (getAllFiles self (SyncOptions.sourceOwner options)
           (SyncOptions.sourceRepo options) (sourceBranch t)) w1 = (Ok files, w2, t2) ->
    files <> [] ->
    run (syncCheckout self options t) w2 = (Ok (ref, cur), w3, t3) ->
    run (syncBuildTree self options (filter syncable files) cur) w3 = (Ok tree, w4, t4) ->
    run (syncDeliver self options t (filter syncable files) ref tree) w4 = (out, w5, t5) ->
    SyncRun w out w5
      (t1 ++ t2 ++ ev_found files :: t3 ++ ev_filtered files ++ t4 ++ t5).


End SyncVocabulary.

(** ** The drift check *)

(** The commit the drift check anchors on: the first of the listed
    history that carries a marker. *)
Definition anchor_of (history : list CommitItem) : option CommitItem :=
  find is_sync_marker history.

(** The sync anchor of a history listed newest first, in the words of
    the specification: the most recent commit whose message contains the
    sync marker or the initial-import marker. *)
Definition is_anchor (history : list CommitItem) (c : CommitItem) : Prop :=
  exists newer older,
    history = (newer ++ c :: older)%list
    /\ is_sync_marker c = true
    /\ Forall (fun x => is_sync_marker x = false) newer.



(** ** Scenarios on the concrete remote *)

Definition good_file : File := mkFile "a.txt" "hello".



(** Trees on a base tree are answered with 404. *)
Definition stale : Mock.Scenario := Mock.with_stale_base Mock.quiet.

(** The template has commits but its tree is empty. *)
Definition bare_template : Mock.Scenario := Mock.with_template_tree [] Mock.quiet.

(** The template has no commit. *)
Definition no_commits : Mock.Scenario := Mock.with_template_commits [] Mock.quiet.

(** The remote rejects the eighteenth call of a run: for the sync of the
    example, the request for the pull request. *)
Definition pull_rejected : Mock.Scenario := Mock.with_failures (Nat.eqb 17) Mock.quiet.





Definition custom_message : string := "sync-template: manual update".

Definition custom_options : SyncOptions.t :=
  SyncOptions.mk "acme" "template" "octo" "app" None None None (Some custom_message)
    (Some true).

(** A project whose latest sync was committed under a message of the
    caller. *)
Definition custom_history : list CommitItem :=
  [ Mock.commit_at "c2" custom_message "2024-05-03T00:00:00Z";
    Mock.commit_at "c1" "Initial commit" "2024-05-01T00:00:00Z" ].

Definition customised : Mock.Scenario := Mock.with_project_commits custom_history Mock.quiet.

(* ================================================================== *)
(** * Vocabulary of the further properties *)
(* ================================================================== *)

(** ** Strings *)

(** Every character of the string is of the class. *)
Fixpoint all_chars (cls : ascii -> bool) (s : string) : bool :=
  match s with
  | EmptyString => true
  | String c rest => cls c && all_chars cls rest
  end.

(** The string is empty or begins with a character outside the class. *)
Definition stops (cls : ascii -> bool) (s : string) : bool :=
  match s with
  | EmptyString => true
  | String c _ => negb (cls c)
  end.

Definition not_dot (c : ascii) : bool := negb (Ascii.eqb c ".").

(** Forty hexadecimal digits and nothing else: a commit sha. *)
Definition is_sha (s : string) : Prop := Js.take_hex 40 s = Some s.

(** The attempt of [Js.match_github_url] at the start of the string. *)
Definition github_url_here (s : string) : option (string * string) :=
  match Js.match_literal false "github.com/" s with
  | Some rest =>
      let '(owner, rest1) := Js.span Js.not_slash rest in
      match owner, rest1 with
      | String _ _, String "/" rest2 =>
          let '(repo, _) := Js.span Js.repo_char rest2 in
          match repo with
          | String _ _ => Some (owner, repo)
          | EmptyString => None
          end
      | _, _ => None
      end
  | None => None
  end.

(** The attempt of [Js.match_template_sha] at the start of the string. *)
Definition template_sha_here (s : string) : option string :=
  match Js.match_literal true "template-sha: " s with
  | Some rest => Js.take_hex 40 rest
  | None => None
  end.

Definition newline : ascii := ascii_of_nat 10.

(** ** Programs that cannot fail, and the steps of a batch *)

Section Programs2.
Context {R : Remote}.

(** No run of the program ends in an error. *)
Definition never_throws {A} (p : Prog A) : Prop :=
  forall w : World, succeeded (outcome p w) = true.

(** One task of a batch that has run to its end: the item, what the task
    gave and the trace it left. *)
Definition step_of {A B} (g : A -> Prog B) (s : A * Result B * list Event) : Prop :=
  exists w0 w1, run (g (fst (fst s))) w0 = (snd (fst s), w1, snd s).

End Programs2.


(** ** More kinds of events *)

(** Reads of the git data of [owner/repo] through the client [cl], waits
    and console output. *)
Definition is_read_by (cl : Octokit) (owner repo : string) (e : Event) : bool :=
  match e with
  | EvCall c _ =>
      match c with
      | Git_getRef cl' o r _ =>
          octokit_eqb cl cl' && String.eqb owner o && String.eqb repo r
      | Git_getCommit cl' o r _ =>
          octokit_eqb cl cl' && String.eqb owner o && String.eqb repo r
      | Git_getTree cl' o r _ _ =>
          octokit_eqb cl cl' && String.eqb owner o && String.eqb repo r
      | Git_getBlob cl' o r _ =>
          octokit_eqb cl cl' && String.eqb owner o && String.eqb repo r
      | _ => false
      end
  | EvSleep _ => true
  | EvConsole _ _ => true
  | EvNow _ => false
  end.


(** The blobs the remote created: the content it was sent and the sha it
    answered. *)
Definition ev_blob_created (e : Event) : option (string * string) :=
  match e with
  | EvCall c r =>
      match c in Api X return Result X -> option (string * string) with
      | Git_createBlob _ _ _ content _ => fun r =>
          match r with
          | Ok sha => Some (content, sha)
          | Err _ => None
          end
      | _ => fun _ => None
      end r
  | _ => None
  end.

Definition blobs_created (tr : list Event) := collect ev_blob_created tr.

(** The errors with which the remote rejected tree requests. *)
Definition ev_tree_rejected (e : Event) : option JsError :=
  match e with
  | EvCall c r =>
      match c in Api X return Result X -> option JsError with
      | Git_createTree _ _ _ _ _ => fun r =>
          match r with
          | Ok _ => None
          | Err error => Some error
          end
      | _ => fun _ => None
      end r
  | _ => None
  end.

Definition tree_errors (tr : list Event) := collect ev_tree_rejected tr.

(** The entry [createTree] writes for a file whose blob has the given
    sha. *)
Definition entry_for (fs : File * string) : TreeEntry :=
  mkTreeEntry (f_path (fst fs)) "100644" "blob" (snd fs).

(** ** Scenarios on the concrete remote, continued *)

(** The second call of a run is rejected: for [getAllFiles] on a branch,
    the listing of the tree. *)
Definition listing_fails : Mock.Scenario := Mock.with_failures (Nat.eqb 1) Mock.quiet.

(** Every call is rejected. *)
Definition all_fail : Mock.Scenario := Mock.with_failures (fun _ => true) Mock.quiet.

(** ** Reading the trace of a clone *)

(** A file the Contents API accepted. *)
Definition is_file_created (e : Event) : bool :=
  match e with
  | EvCall c r =>
      match c with
      | Repos_createOrUpdateFileContents _ _ _ _ _ _ _ => succeeded r
      | _ => false
      end
  | _ => false
  end.

(** A request to create a repository, accepted or not. *)
Definition is_repo_creation (e : Event) : bool :=
  match e with
  | EvCall c _ =>
      match c with
      | Repos_createForAuthenticatedUser _ _ => true
      | _ => false
      end
  | _ => false
  end.

(** The repositories the remote created: the request and its answer. *)
Definition ev_repo_created (e : Event) : option (CreateRepoReq * RepoData) :=
  match e with
  | EvCall c r =>
      match c in Api X return Result X -> option (CreateRepoReq * RepoData) with
      | Repos_createForAuthenticatedUser _ req => fun r =>
          match r with
          | Ok repo => Some (req, repo)
          | Err _ => None
          end
      | _ => fun _ => None
      end r
  | _ => None
  end.

Definition repos_created (tr : list Event) := collect ev_repo_created tr.

(** What a clone emits before it has a repository: reads of the user and
    of repositories, waits and console output. *)
Definition is_preparing (e : Event) : bool :=
  match e with
  | EvCall c _ =>
      match c with
      | Users_getAuthenticated _ => true
      | Repos_get _ _ _ => true
      | _ => false
      end
  | EvSleep _ => true
  | EvConsole _ _ => true
  | EvNow _ => false
  end.

(** What the Contents strategy emits once it has the files: the removal
    of the generated README, the files, the branch protection, waits and
    console output. *)
Definition is_populating (e : Event) : bool :=
  match e with
  | EvCall c _ =>
      match c with
      | Repos_getContent _ _ _ _ => true
      | Repos_deleteFile _ _ _ _ _ _ => true
      | Repos_createOrUpdateFileContents _ _ _ _ _ _ _ => true
      | Repos_getBranchProtection _ _ _ _ => true
      | Repos_updateBranchProtection _ _ _ _ _ => true
      | _ => false
      end
  | EvSleep _ => true
  | EvConsole _ _ => true
  | EvNow _ => false
  end.

(** The polls of the readiness check of the Git strategy: whether the
    repository could be read. *)
Definition ev_poll (e : Event) : option bool :=
  match e with
  | EvCall c r =>
      match c with
      | Repos_get _ _ _ => Some (succeeded r)
      | _ => None
      end
  | _ => None
  end.

Definition polls (tr : list Event) := collect ev_poll tr.

(** The review settings a run asked the remote to protect a branch
    with. *)
Definition ev_protection (e : Event) : option (option SimplifiedReviews) :=
  match e with
  | EvCall c _ =>
      match c with
      | Repos_updateBranchProtection _ _ _ _ reviews => Some reviews
      | _ => None
      end
  | _ => None
  end.

Definition protections (tr : list Event) := collect ev_protection tr.

(** ** The strategies in parts *)

Section ContentsParts.
Context {rt : JsRuntime}.
Variable self : GitHubRepoCloner.
Variable options : CloneOptions.t.

Let sourceOwner := CloneOptions.sourceOwner options.
Let sourceRepo := CloneOptions.sourceRepo options.
Let targetName := CloneOptions.targetName options.

(** What the Contents strategy does once it has the files of the
    source. *)
Definition populate (targetOwner defaultBranch : string) (newRepo : RepoData)
    (files : list File) : Prog CloneResult.t :=
  if Nat.eqb (List.length files) 0 then
    console LWarn ("Source repository " ++ sourceOwner ++ "/" ++ sourceRepo
                   ++ " appears to be empty") ;;;
    Ret (CloneResult.mk true newRepo 0
           ("Successfully created repository " ++ targetName ++ " (source was empty)"))
  else
    console LLog ("Creating " ++ Js.of_nat (List.length files)
                  ++ " files using Contents API...") ;;;
    (if existsb (fun f => String.eqb (f_path f) "README.md") files then
       try_catch
         (existingReadme <- await (Repos_getContent (octokit self)
                                     targetOwner targetName "README.md") ;;
          match cd_sha existingReadme with
          | Some sha =>
              await (Repos_deleteFile (octokit self) targetOwner targetName "README.md"
                       "Remove auto-generated README" sha) ;;;
              console LLog "Removed auto-generated README.md"
          | None => Ret tt
          end)
         (fun _ => console LLog "No existing README to remove")
     else Ret tt) ;;;
    createdFiles <- for_of files (createFile self targetOwner targetName) 0 ;;
    copyBranchProtection self sourceOwner sourceRepo targetOwner targetName defaultBranch ;;;
    Ret (CloneResult.mk true newRepo createdFiles
           ("Successfully cloned " ++ sourceOwner ++ "/" ++ sourceRepo ++ " to "
            ++ targetName ++ " using Contents API")).

End ContentsParts.

Section GitParts.
Context {rt : JsRuntime}.
Variable self : GitHubRepoCloner.
Variable options : CloneOptions.t.

Let sourceOwner := CloneOptions.sourceOwner options.
Let sourceRepo := CloneOptions.sourceRepo options.
Let targetName := CloneOptions.targetName options.

(** Step 5 of the Git strategy: the head of the default branch of the new
    repository and its tree, as far as they can be read. *)
Definition readHead (targetOwner defaultBranch : string)
  : Prog (option string * option string) :=
  Call (Git_getRef (octokit self) targetOwner targetName
          ("heads/" ++ defaultBranch)) (fun r =>
    match r with
    | Ok ref =>
        let parentSha := object_sha ref in
        Call (Git_getCommit (octokit self) targetOwner targetName parentSha) (fun r' =>
          match r' with
          | Ok parentCommit => Ret (Some parentSha, Some (gc_tree_sha parentCommit))
          | Err _ =>
              console LLog "No existing HEAD found, creating initial commit" ;;;
              Ret (Some parentSha, None)
          end)
    | Err _ =>
        console LLog "No existing HEAD found, creating initial commit" ;;;
        Ret (None, None)
    end).

(** Steps 6 and 7 of the Git strategy and its result: the other
    branches, the branch protection. *)
Definition copyBranches (targetOwner defaultBranch : string) (newRepo : RepoData)
    (files : list File) (commit : GitCommit) : Prog CloneResult.t :=
  (if default (CloneOptions.includeBranches options) true then
     branches <- getBranches self sourceOwner sourceRepo ;;
     for_of branches
       (copyBranch self sourceOwner sourceRepo targetOwner targetName defaultBranch commit) tt
   else Ret tt) ;;;
  copyBranchProtection self sourceOwner sourceRepo targetOwner targetName defaultBranch ;;;
  Ret (CloneResult.mk true newRepo (List.length files)
         ("Successfully cloned " ++ sourceOwner ++ "/" ++ sourceRepo ++ " to "
          ++ targetName ++ " using Git API")).

(** What the Git strategy does with the files of the source, when there
    are some: one commit on the head of the default branch, to which the
    branch is then moved. *)
Definition writeFiles (targetOwner defaultBranch : string) (newRepo : RepoData)
    (files : list File) : Prog CloneResult.t :=
  head <- readHead targetOwner defaultBranch ;;
  let '(parentSha, baseTreeSha) := head in
  console LLog ("Copying " ++ Js.of_nat (List.length files)
                ++ " files using Git API...") ;;;
  tree <- createTree self targetOwner targetName files baseTreeSha ;;
  commit <- createCommit self targetOwner targetName (td_sha tree)
              ("Initial commit - Cloned from " ++ sourceOwner ++ "/" ++ sourceRepo)
              (if Js.truthy parentSha then [default parentSha ""] else []) ;;
  await (Git_updateRef (octokit self) targetOwner targetName
           ("heads/" ++ defaultBranch) (gc_sha commit) true) ;;;
  copyBranches targetOwner defaultBranch newRepo files commit.

End GitParts.

(** A forced move of a reference that the remote accepted: in a clone,
    the move of the default branch to the commit of the copy. *)
Definition is_forced_move (e : Event) : bool :=
  match e with
  | EvCall c r =>
      match c with
      | Git_updateRef _ _ _ _ _ force => force && succeeded r
      | _ => false
      end
  | _ => false
  end.

(** Commits: the request to create one, accepted or not. *)
Definition is_commit (e : Event) : bool :=
  match e with
  | EvCall c _ =>
      match c with
      | Git_createCommit _ _ _ _ _ _ => true
      | _ => false
      end
  | _ => false
  end.

(** The five polls of the readiness check are rejected. *)
Definition never_ready : Mock.Scenario :=
  Mock.with_failures (fun n => Nat.leb 3 n && Nat.leb n 7) Mock.quiet.

(** ** Who calls what in a sync *)

(** The calls of a sync by their client: what changes the target goes
    through the client [main]; the repository data and the commits of the
    template are read through [perCall]; trees and blobs are read through
    [source]; references and commits are read through [main] or
    [source]. *)
Definition sync_call_by (main source perCall : Octokit) (e : Event) : bool :=
  match e with
  | EvCall c _ =>
      match c with
      | Repos_get cl _ _ => octokit_eqb main cl || octokit_eqb perCall cl
      | Repos_listCommits cl _ _ _ _ => octokit_eqb perCall cl
      | Git_getTree cl _ _ _ _ => octokit_eqb source cl
      | Git_getBlob cl _ _ _ => octokit_eqb source cl
      | Git_getRef cl _ _ _ => octokit_eqb main cl || octokit_eqb source cl
      | Git_getCommit cl _ _ _ => octokit_eqb main cl || octokit_eqb source cl
      | Git_createRef cl _ _ _ _ => octokit_eqb main cl
      | Git_updateRef cl _ _ _ _ _ => octokit_eqb main cl
      | Git_createBlob cl _ _ _ _ => octokit_eqb main cl
      | Git_createTree cl _ _ _ _ => octokit_eqb main cl
      | Git_createCommit cl _ _ _ _ _ => octokit_eqb main cl
      | Pulls_create cl _ _ _ => octokit_eqb main cl
      | _ => false
      end
  | _ => true
  end.

(** A request for a pull request, accepted or not. *)
Definition is_pull_request (e : Event) : bool :=
  match e with
  | EvCall c _ =>
      match c with
      | Pulls_create _ _ _ _ => true
      | _ => false
      end
  | _ => false
  end.

(** The commits the remote created: the tree and the parents it was
    given, and the sha it answered. *)
Definition ev_commit_created (e : Event) : option (string * list string * string) :=
  match e with
  | EvCall c r =>
      match c in Api X return Result X -> option (string * list string * string) with
      | Git_createCommit _ _ _ _ tree parents => fun r =>
          match r with
          | Ok commit => Some (tree, parents, gc_sha commit)
          | Err _ => None
          end
      | _ => fun _ => None
      end r
  | _ => None
  end.

Definition commits_created (tr : list Event) := collect ev_commit_created tr.

(** The references the remote moved: the reference, the sha it was moved
    to and whether the move was forced. *)
Definition ev_ref_moved (e : Event) : option (string * string * bool) :=
  match e with
  | EvCall c r =>
      match c with
      | Git_updateRef _ _ _ ref sha force =>
          if succeeded r then Some (ref, sha, force) else None
      | _ => None
      end
  | _ => None
  end.

Definition refs_moved (tr : list Event) := collect ev_ref_moved tr.

(** The trees the remote created: the entries it was given and the sha
    it answered. *)
Definition ev_tree_created (e : Event) : option (list TreeEntry * string) :=
  match e with
  | EvCall c r =>
      match c in Api X return Result X -> option (list TreeEntry * string) with
      | Git_createTree _ _ _ tree _ => fun r =>
          match r with
          | Ok td => Some (tree, td_sha td)
          | Err _ => None
          end
      | _ => fun _ => None
      end r
  | _ => None
  end.

Definition trees_created (tr : list Event) := collect ev_tree_created tr.

(** ** Scenarios on the concrete remote, continued *)

(** A template that holds only files a sync leaves out. *)
Definition only_denylisted : Mock.Scenario :=
  Mock.with_template_tree [Mock.item "README.md" "s2"; Mock.item ".env.local" "s3"]
    Mock.quiet.


(** Options with a token of their own for the template. *)
Definition token_options : SyncOptions.t :=
  SyncOptions.mk "acme" "template" "octo" "app" None None (Some "per-call-token") None None.

(** ** The calls of the routes *)

(** A call to GitHub: any call but the ones for the session and for the
    database. *)
Definition is_github_call (e : Event) : bool :=
  match e with
  | EvCall c _ =>
      match c with
      | Auth_session => false
      | Prisma_project_findFirst _ _ => false
      | Prisma_account_findFirst _ _ => false
      | _ => true
      end
  | _ => false
  end.

(** What a drift check may do: ask for the session, the project and the
    account, list commits, compare commits and write to the console. *)
Definition is_drift_check_event (e : Event) : bool :=
  match e with
  | EvCall c _ =>
      match c with
      | Auth_session => true
      | Prisma_project_findFirst _ _ => true
      | Prisma_account_findFirst _ _ => true
      | Repos_listCommits _ _ _ _ _ => true
      | Repos_compareCommits _ _ _ _ _ => true
      | _ => false
      end
  | EvConsole _ _ => true
  | _ => false
  end.

(** The comparisons a run asked for: the two commits and whether the
    remote answered. *)
Definition ev_compared (e : Event) : option (string * string * bool) :=
  match e with
  | EvCall c r =>
      match c with
      | Repos_compareCommits _ _ _ base head => Some (base, head, succeeded r)
      | _ => None
      end
  | _ => None
  end.

Definition comparisons (tr : list Event) := collect ev_compared tr.

(** The errors the remote answered calls with. *)
Definition ev_call_failed (e : Event) : option JsError :=
  match e with
  | EvCall _ (Err error) => Some error
  | _ => None
  end.

Definition failed_calls (tr : list Event) := collect ev_call_failed tr.

(** ** Scenarios on the concrete remote, continued *)

(** The database has no such project. *)
Definition no_project : Mock.Scenario :=
  Mock.mkScenario (fun _ => false) (fun _ => false) false
    (Mock.template_commits Mock.quiet) (Mock.project_commits Mock.quiet)
    (Mock.template_tree Mock.quiet) None.

(** The listing of the commits of the template, the fourth call of the
    drift check of the example, is rejected. *)
Definition listing_rejected : Mock.Scenario := Mock.with_failures (Nat.eqb 3) Mock.quiet.

(** A project whose latest sync was committed under a message that
    carries the marker and names the commit [sha_a] of the template. *)
Definition marked_history : list CommitItem :=
  [ Mock.commit_at "c2" ("sync-template update, template-sha: " ++ Mock.sha_a)
      "2024-05-03T00:00:00Z";
    Mock.commit_at "c1" "Initial commit" "2024-05-01T00:00:00Z" ].

(** The comparison, the sixth call of the drift check of such a project,
    is rejected. *)
Definition comparison_rejected : Mock.Scenario :=
  Mock.with_failures (Nat.eqb 5) (Mock.with_project_commits marked_history Mock.quiet).

(* ================================================================== *)
(** * The sync of a project: [POST] of the sync-template route *)
(* ================================================================== *)

(** The two fields the route reads off the body of the request, each
    absent or a boolean. *)
Record SyncRequest := mkSyncRequest {
  rq_createPullRequest : option bool;
  rq_directToMain : option bool
}.

(** The bodies the route answers with: an error, the error of a sync with
    its details, and the report of a sync. *)
Inductive SyncBody :=
| SyncError (error : string)
| SyncErrorDetails (error details : string)
| SyncReport (message_ : string) (syncBranch_ : option string) (updatedFiles : nat)
    (pullRequestUrl_ : option string) (directToMain_ : bool).

Record SyncResponse := mkSyncResponse {
  ps_status : nat;
  ps_body : SyncBody
}.

Section SyncRoute.
Context {rt : JsRuntime}.

(** The template token of the route: the decrypted token of the template
    if it has one and that is not empty. *)
Definition routeTemplateToken (template : GithubTemplate) : Prog (option string) :=
  if Js.truthy (githubToken template) then
    plain <- safeDecrypt (default (githubToken template) "") ;;
    Ret (if Js.truthy (Some plain) then Some plain else None)
  else Ret None.

(** The inner [try] of [POST]: the sync and its answer. *)
Definition syncAndAnswer (repoCloner : GitHubRepoCloner) (options : SyncOptions.t)
    (directToMain : bool) : Prog SyncResponse :=
  try_catch
    (result <- syncWithTemplate repoCloner options ;;
     if negb (SyncResult.success result) then
       Ret (mkSyncResponse 500
              (SyncError (Js.or_else (Some (SyncResult.message result))
                            "Failed to sync with template")))
     else
       Ret (mkSyncResponse 200
              (SyncReport (SyncResult.message result) (SyncResult.syncBranch result)
                 (SyncResult.filesCount result) (SyncResult.pullRequestUrl result)
                 directToMain)))
    (fun error =>
       console2 LError "Error syncing with template:" (message error) ;;;
       Ret (mkSyncResponse 500
              (SyncErrorDetails
                 (Js.or_else (Some (message error)) "Failed to sync with template")
                 (message error)))).

(** The outer [try] of [POST] once the body of the request is read: the
    project, the account and the two repository URLs, then the sync. *)
Definition findAndSync (request : SyncRequest) (id userId : string) : Prog SyncResponse :=
  let createPullRequest := default (rq_createPullRequest request) true in
  let directToMain := default (rq_directToMain request) false in
  project <- await (Prisma_project_findFirst id userId) ;;
  match project with
  | None => Ret (mkSyncResponse 404 (SyncError "Project not found"))
  | Some project =>
      match githubTemplate project with
      | None =>
          Ret (mkSyncResponse 400 (SyncError "Project was not created from a template"))
      | Some template =>
          if negb (Js.truthy (githubRepo project)) then
            Ret (mkSyncResponse 400 (SyncError "Project does not have a GitHub repository"))
          else
            userAccount <- await (Prisma_account_findFirst userId "github") ;;
            let token := match userAccount with Some a => access_token a | None => None end in
            if negb (Js.truthy token) then
              Ret (mkSyncResponse 401 (SyncError "GitHub authentication required"))
            else
              match Js.match_github_url (default (githubRepo project) ""),
                    Js.match_github_url (githubUrl template) with
              | Some (projectOwner, projectRepo), Some (templateOwner, templateRepo) =>
                  let cleanProjectRepo := Js.replace_first ".git" "" projectRepo in
                  let cleanTemplateRepo := Js.replace_first ".git" "" templateRepo in
                  templateToken <- routeTemplateToken template ;;
                  let repoCloner := new_GitHubRepoCloner token templateToken in
                  syncAndAnswer repoCloner
                    (SyncOptions.mk templateOwner cleanTemplateRepo
                       projectOwner cleanProjectRepo None
                       (Some (createPullRequest && negb directToMain))
                       templateToken None (Some directToMain))
                    directToMain
              | _, _ => Ret (mkSyncResponse 400 (SyncError "Invalid repository URLs"))
              end
      end
  end.

(** [POST]; [body] is what [request.json()] resolves to or rejects
    with. *)
Definition POST (body : Result SyncRequest) (id : string) : Prog SyncResponse :=
  session <- await Auth_session ;;
  if negb (Js.truthy session) then Ret (mkSyncResponse 401 (SyncError "Unauthorized"))
  else
    try_catch
      (request <- match body with
                  | Ok request => Ret request
                  | Err error => Throw error
                  end ;;
       findAndSync request id (default session ""))
      (fun error =>
         console2 LError "Error syncing with template:" (message error) ;;;
         Ret (mkSyncResponse 500 (SyncError "Failed to sync with template"))).

End SyncRoute.

(** What an answer of the route says about the run that gave it: an
    error without details was answered without a call to GitHub, an error
    with details is that of a sync, and a report is for the request as it
    was read. *)
Definition route_answer (body : Result SyncRequest) (resp : SyncResponse)
    (tr : list Event) : Prop :=
  match ps_body resp with
  | SyncError _ =>
      In (ps_status resp) [400; 401; 404; 500] /\ existsb is_github_call tr = false
  | SyncErrorDetails error details =>
      ps_status resp = 500 /\ details = error
      /\ exists cause, error = "Failed to sync with template: " ++ cause
  | SyncReport _ _ _ url direct =>
      ps_status resp = 200
      /\ exists request,
           body = Ok request
           /\ direct = default (rq_directToMain request) false
           /\ (url <> None ->
               direct = false /\ default (rq_createPullRequest request) true = true)
  end.

(** ** Scenarios on the concrete remote, continued *)

(** A request to sync directly to the default branch that also asks for
    a pull request. *)
Definition direct_request : SyncRequest := mkSyncRequest (Some true) (Some true).

(** Every call from the fourth on, the first of the sync, is rejected. *)
Definition sync_rejected : Mock.Scenario :=
  Mock.with_failures (fun n => Nat.leb 3 n) Mock.quiet.

(* ================================================================== *)
(** * Laws of running *)
(* ================================================================== *)

Section Running.
Context {R : Remote}.

Lemma run_bind A B (m : Prog A) (f : A -> Prog B) (w : World) :
  run (bind m f) w =
  match run m w with
  | (Ok a, w1, t1) => let '(r, w2, t2) := run (f a) w1 in (r, w2, (t1 ++ t2)%list)
  | (Err e, w1, t1) => (Err e, w1, t1)
  end.
Proof.
  revert w; induction m as [a|e|X c k IH|ms k IH|lvl text k IH|k IH]; intros w; simpl.
  - destruct (run (f a) w) as [[r w2] t2]; reflexivity.
  - reflexivity.
  - destruct (handle c w) as [r w1]. rewrite IH.
    destruct (run (k r) w1) as [[[a|e] w2] t1]; [|reflexivity].
    destruct (run (f a) w2) as [[r' w3] t2]; reflexivity.
  - rewrite IH. destruct (run k w) as [[[a|e] w2] t1]; [|reflexivity].
    destruct (run (f a) w2) as [[r' w3] t2]; reflexivity.
  - rewrite IH. destruct (run k w) as [[[a|e] w2] t1]; [|reflexivity].
    destruct (run (f a) w2) as [[r' w3] t2]; reflexivity.
  - destruct (clock w) as [s w1]. rewrite IH.
    destruct (run (k s) w1) as [[[a|e] w2] t1]; [|reflexivity].
    destruct (run (f a) w2) as [[r' w3] t2]; reflexivity.
Qed.

Lemma run_try_catch A (m : Prog A) (h : JsError -> Prog A) (w : World) :
  run (try_catch m h) w =
  match run m w with
  | (Ok a, w1, t1) => (Ok a, w1, t1)
  | (Err e, w1, t1) => let '(r, w2, t2) := run (h e) w1 in (r, w2, (t1 ++ t2)%list)
  end.
Proof.
  revert w; induction m as [a|e|X c k IH|ms k IH|lvl text k IH|k IH]; intros w; simpl.
  - reflexivity.
  - destruct (run (h e) w) as [[r w2] t2]; reflexivity.
  - destruct (handle c w) as [r w1]. rewrite IH.
    destruct (run (k r) w1) as [[[a|e] w2] t1]; [reflexivity|].
    destruct (run (h e) w2) as [[r' w3] t2]; reflexivity.
  - rewrite IH. destruct (run k w) as [[[a|e] w2] t1]; [reflexivity|].
    destruct (run (h e) w2) as [[r' w3] t2]; reflexivity.
  - rewrite IH. destruct (run k w) as [[[a|e] w2] t1]; [reflexivity|].
    destruct (run (h e) w2) as [[r' w3] t2]; reflexivity.
  - destruct (clock w) as [s w1]. rewrite IH.
    destruct (run (k s) w1) as [[[a|e] w2] t1]; [reflexivity|].
    destruct (run (h e) w2) as [[r' w3] t2]; reflexivity.
Qed.

Lemma run_settle A (m : Prog A) (w : World) :
  run (settle m) w = let '(r, w1, t1) := run m w in (Ok r, w1, t1).
Proof.
  unfold settle. rewrite run_try_catch, run_bind.
  destruct (run m w) as [[[a|e] w1] t1]; simpl; rewrite ?app_nil_r; reflexivity.
Qed.

(** Inversion of a run, by the shape of the program. *)
Lemma run_bind_inv A B (m : Prog A) (f : A -> Prog B) w out w' tr :
  run (bind m f) w = (out, w', tr) ->
  (exists a w1 t1 t2,
      run m w = (Ok a, w1, t1) /\ run (f a) w1 = (out, w', t2) /\ tr = (t1 ++ t2)%list)
  \/ (exists e, run m w = (Err e, w', tr) /\ out = Err e).
Proof.
  rewrite run_bind. destruct (run m w) as [[[a|e] w1] t1].
  - destruct (run (f a) w1) as [[r w2] t2] eqn:E. intros H; inversion H; subst.
    left. exists a, w1, t1, t2. auto.
  - intros H; inversion H; subst. right. exists e. auto.
Qed.

Lemma run_try_catch_inv A (m : Prog A) (h : JsError -> Prog A) w out w' tr :
  run (try_catch m h) w = (out, w', tr) ->
  (exists a, run m w = (Ok a, w', tr) /\ out = Ok a)
  \/ (exists e w1 t1 t2,
        run m w = (Err e, w1, t1) /\ run (h e) w1 = (out, w', t2) /\ tr = (t1 ++ t2)%list).
Proof.
  rewrite run_try_catch. destruct (run m w) as [[[a|e] w1] t1].
  - intros H; inversion H; subst. left. exists a. auto.
  - destruct (run (h e) w1) as [[r w2] t2] eqn:E. intros H; inversion H; subst.
    right. exists e, w1, t1, t2. auto.
Qed.

Lemma run_await_inv X (c : Api X) w out w' tr :
  run (await c) w = (out, w', tr) ->
  handle c w = (out, w') /\ tr = [EvCall c out].
Proof.
  unfold await; simpl. destruct (handle c w) as [[x|e] w1]; simpl;
    intros H; inversion H; subst; auto.
Qed.

Lemma run_console lvl text w : run (console lvl text) w = (Ok tt, w, [EvConsole lvl text]).
Proof. reflexivity. Qed.

Lemma run_console2 lvl a b w :
  run (console2 lvl a b) w = (Ok tt, w, [EvConsole lvl (a ++ " " ++ b)]).
Proof. reflexivity. Qed.

Lemma run_sleep ms w : run (sleep ms) w = (Ok tt, w, [EvSleep ms]).
Proof. reflexivity. Qed.

End Running.

(** Observations distribute over the concatenation of traces. *)
Lemma somes_app A (xs ys : list (option A)) : somes (xs ++ ys) = (somes xs ++ somes ys)%list.
Proof.
  induction xs as [|[a|] xs IH]; simpl; [reflexivity| |]; rewrite IH; reflexivity.
Qed.

Lemma collect_app A B (f : A -> option B) xs ys :
  collect f (xs ++ ys) = (collect f xs ++ collect f ys)%list.
Proof. unfold collect. rewrite map_app, somes_app. reflexivity. Qed.

Lemma collect_cons A B (f : A -> option B) x xs :
  collect f (x :: xs) = match f x with Some b => b :: collect f xs | None => collect f xs end.
Proof. unfold collect; simpl. destruct (f x); reflexivity. Qed.

(** Traces are compared up to the association of their segments. *)
Ltac norm_app :=
  repeat first [ rewrite <- app_assoc | rewrite <- app_comm_cons | progress cbn [app] ].

(* ================================================================== *)
(** * Programs that only emit events of one kind *)
(* ================================================================== *)

Section Emits.
Context {R : Remote}.
Variable q : Event -> bool.

Lemma emits_Ret A (a : A) : emits q (Ret a).
Proof. intros w; reflexivity. Qed.

Lemma emits_Throw A e : emits q (@Throw A e).
Proof. intros w; reflexivity. Qed.

Lemma emits_Call A X (c : Api X) (k : Result X -> Prog A) :
  (forall r, q (EvCall c r) = true) -> (forall r, emits q (k r)) -> emits q (Call c k).
Proof.
  intros Hc Hk w; simpl. destruct (handle c w) as [r w1].
  specialize (Hk r w1). destruct (run (k r) w1) as [[out w2] tr]; simpl in *.
  rewrite Hc, Hk; reflexivity.
Qed.

Lemma emits_Sleep A ms (k : Prog A) : q (EvSleep ms) = true -> emits q k -> emits q (Sleep ms k).
Proof.
  intros Hc Hk w; simpl. specialize (Hk w).
  destruct (run k w) as [[out w2] tr]; simpl in *. rewrite Hc, Hk; reflexivity.
Qed.

Lemma emits_Console A lvl text (k : Prog A) :
  q (EvConsole lvl text) = true -> emits q k -> emits q (Console lvl text k).
Proof.
  intros Hc Hk w; simpl. specialize (Hk w).
  destruct (run k w) as [[out w2] tr]; simpl in *. rewrite Hc, Hk; reflexivity.
Qed.

Lemma emits_Now A (k : string -> Prog A) :
  (forall s, q (EvNow s) = true) -> (forall s, emits q (k s)) -> emits q (Now k).
Proof.
  intros Hc Hk w; simpl. destruct (clock w) as [s w1]. specialize (Hk s w1).
  destruct (run (k s) w1) as [[out w2] tr]; simpl in *. rewrite Hc, Hk; reflexivity.
Qed.

Lemma emits_bind A B (m : Prog A) (f : A -> Prog B) :
  emits q m -> (forall a, emits q (f a)) -> emits q (bind m f).
Proof.
  intros Hm Hf w. rewrite run_bind. specialize (Hm w).
  destruct (run m w) as [[[a|e] w1] t1]; simpl in *; [|assumption].
  specialize (Hf a w1). destruct (run (f a) w1) as [[r w2] t2]; simpl in *.
  rewrite forallb_app, Hm, Hf; reflexivity.
Qed.

Lemma emits_try_catch A (m : Prog A) (h : JsError -> Prog A) :
  emits q m -> (forall e, emits q (h e)) -> emits q (try_catch m h).
Proof.
  intros Hm Hh w. rewrite run_try_catch. specialize (Hm w).
  destruct (run m w) as [[[a|e] w1] t1]; simpl in *; [assumption|].
  specialize (Hh e w1). destruct (run (h e) w1) as [[r w2] t2]; simpl in *.
  rewrite forallb_app, Hm, Hh; reflexivity.
Qed.

Lemma emits_await X (c : Api X) : (forall r, q (EvCall c r) = true) -> emits q (await c).
Proof.
  intros Hc. apply emits_Call; [assumption|].
  intros [x|e]; [apply emits_Ret|apply emits_Throw].
Qed.

Lemma emits_settle A (m : Prog A) : emits q m -> emits q (settle m).
Proof.
  intros Hm. apply emits_try_catch.
  - apply emits_bind; [assumption|]. intros a; apply emits_Ret.
  - intros e; apply emits_Ret.
Qed.

Lemma emits_settle_all A (ps : list (Prog A)) :
  (forall p, In p ps -> emits q p) -> emits q (settle_all ps).
Proof.
  induction ps as [|p ps IH]; intros H; simpl.
  - apply emits_Ret.
  - apply emits_bind; [apply emits_settle, H; left; reflexivity|].
    intros r. apply emits_bind; [apply IH; intros p' Hp'; apply H; right; assumption|].
    intros rs; apply emits_Ret.
Qed.

Lemma emits_Promise_all A (ps : list (Prog A)) :
  (forall p, In p ps -> emits q p) -> emits q (Promise_all ps).
Proof.
  intros H. apply emits_bind; [apply emits_settle_all; assumption|].
  intros rs. destruct (first_error rs); [apply emits_Throw|apply emits_Ret].
Qed.

Lemma emits_for_batches A S fuel (xs : list A) delay batchSize
    (body : list A -> S -> Prog S) :
  q (EvSleep delay) = true ->
  (forall batch acc, emits q (body batch acc)) ->
  forall i acc, emits q (for_batches fuel i batchSize xs delay body acc).
Proof.
  intros Hs Hb. induction fuel as [|fuel IH]; intros i acc; simpl.
  - apply emits_Ret.
  - destruct (Nat.ltb i (List.length xs)); [|apply emits_Ret].
    apply emits_bind; [apply Hb|]. intros acc'.
    apply emits_bind; [|intros _; apply IH].
    destruct (Nat.ltb (i + batchSize) (List.length xs)).
    + apply emits_Sleep; [assumption|apply emits_Ret].
    + apply emits_Ret.
Qed.

Lemma emits_for_of A S (xs : list A) (body : A -> S -> Prog S) :
  (forall x acc, emits q (body x acc)) -> forall acc, emits q (for_of xs body acc).
Proof.
  intros Hb. induction xs as [|x xs IH]; intros acc; simpl.
  - apply emits_Ret.
  - apply emits_bind; [apply Hb|]. intros acc'; apply IH.
Qed.

End Emits.

Lemma emits_weaken {R : Remote} (q q' : Event -> bool) A (p : Prog A) :
  (forall e, q e = true -> q' e = true) -> emits q p -> emits q' p.
Proof.
  intros Hqq Hp w. specialize (Hp w). rewrite forallb_forall in *.
  intros e He. apply Hqq, Hp, He.
Qed.

(** An observation sees nothing in a trace none of whose events it
    selects. *)
Lemma collect_none A B (f : A -> option B) (q : A -> bool) xs :
  (forall x, q x = true -> f x = None) -> forallb q xs = true -> collect f xs = [].
Proof.
  intros Hq. induction xs as [|x xs IH]; simpl; [reflexivity|].
  intros H. apply andb_prop in H as [Hx Hxs]. rewrite collect_cons, (Hq x Hx). auto.
Qed.

Lemma filter_none A (p q : A -> bool) xs :
  (forall x, q x = true -> p x = false) -> forallb q xs = true -> filter p xs = [].
Proof.
  intros Hq. induction xs as [|x xs IH]; simpl; [reflexivity|].
  intros H. apply andb_prop in H as [Hx Hxs]. rewrite (Hq x Hx). auto.
Qed.

Ltac emits_step :=
  match goal with
  | |- emits _ (Ret _) => apply emits_Ret
  | |- emits _ (Throw _) => apply emits_Throw
  | |- emits _ (Console _ _ _) => apply emits_Console; [reflexivity|]
  | |- emits _ (Sleep _ _) => apply emits_Sleep; [reflexivity|]
  | |- emits _ (Call _ _) => apply emits_Call; [intros; reflexivity|intros [?|?]]
  | |- emits _ (Now _) => apply emits_Now; [intros; reflexivity|intro]
  | |- emits _ (await _) => apply emits_await; intros; reflexivity
  | |- emits _ (console _ _) => unfold console
  | |- emits _ (console2 _ _ _) => unfold console2, console
  | |- emits _ (sleep _) => unfold sleep
  | |- emits _ now_iso => unfold now_iso
  | |- emits _ (bind _ _) => apply emits_bind; [|intro]
  | |- emits _ (try_catch _ _) => apply emits_try_catch; [|intro]
  | |- emits _ (if ?b then _ else _) => destruct b
  | |- emits _ (match ?x with _ => _ end) => destruct x
  | |- emits _ (let '(_, _) := ?x in _) => destruct x
  end.

Ltac emits_tac := repeat emits_step.

(* ================================================================== *)
(** * Building a tree *)
(* ================================================================== *)

Lemma in_slice A (x : A) i j xs : In x (Js.slice i j xs) -> In x xs.
Proof.
  unfold Js.slice. intros H.
  rewrite <- (firstn_skipn i xs). apply in_or_app. right.
  rewrite <- (firstn_skipn (j - i) (skipn i xs)). apply in_or_app. left. assumption.
Qed.

Section Blobs.
Context {R : Remote} {rt : JsRuntime}.
Variable self : GitHubRepoCloner.
Variables owner repo : string.

(** The run of [createBlobWithRetry] with three tries, by the answers of
    the remote. *)
Lemma createBlobWithRetry_run (file : File) (w : World) :
  let c := blob_call self owner repo file in
  let retry (k : nat) (e : JsError) :=
    [ EvCall c (Err e);
      EvConsole LLog ("Retry " ++ Js.of_nat k ++ " for creating blob " ++ f_path file
                      ++ " (" ++ show_status e ++ ")");
      EvSleep (2000 * k) ] in
  run (createBlobWithRetry self owner repo file 3) w =
  match handle c w with
  | (Ok sha, w1) => (Ok sha, w1, [EvCall c (Ok sha)])
  | (Err e1, w1) =>
      match handle c w1 with
      | (Ok sha, w2) => (Ok sha, w2, (retry 1 e1 ++ [EvCall c (Ok sha)])%list)
      | (Err e2, w2) =>
          match handle c w2 with
          | (Ok sha, w3) => (Ok sha, w3, (retry 1 e1 ++ retry 2 e2 ++ [EvCall c (Ok sha)])%list)
          | (Err e3, w3) =>
              (Err e3, w3,
               (retry 1 e1 ++ retry 2 e2
                ++ [ EvCall c (Err e3);
                     EvConsole LError (("Failed to create blob for " ++ f_path file ++ ":")
                                       ++ " " ++ message e3)%string ])%list)
          end
      end
  end.
Proof.
  unfold createBlobWithRetry, blob_call. cbn -[Js.of_nat Nat.mul append show_status].
  destruct (handle _ w) as [[sha|e1] w1]; [reflexivity|].
  cbn -[Js.of_nat Nat.mul append show_status].
  destruct (handle _ w1) as [[sha|e2] w2]; [reflexivity|].
  cbn -[Js.of_nat Nat.mul append show_status].
  destruct (handle _ w2) as [[sha|e3] w3]; reflexivity.
Qed.

(** Every promise of a settled batch has run, from some state of the
    remote. *)
Lemma settle_all_inv A B (g : A -> Prog B) (xs : list A) w out w' tr :
  run (settle_all (map g xs)) w = (out, w', tr) ->
  exists rs, out = Ok rs
    /\ Forall2 (fun x r => exists w0 w1 t, run (g x) w0 = (r, w1, t)) xs rs.
Proof.
  revert w out w' tr. induction xs as [|x xs IH]; intros w out w' tr; simpl.
  - intros H; inversion H; subst. exists []. split; [reflexivity|constructor].
  - rewrite run_bind, run_settle.
    destruct (run (g x) w) as [[r w1] t1] eqn:Ex.
    rewrite run_bind.
    destruct (run (settle_all (map g xs)) w1) as [[out2 w2] t2] eqn:Exs.
    destruct (IH _ _ _ _ Exs) as (rs & -> & HF). simpl.
    intros H; inversion H; subst. exists (r :: rs). split; [reflexivity|].
    constructor; [|assumption]. exists w, w1, t1. assumption.
Qed.

Lemma first_error_none_values A (rs : list (Result A)) :
  first_error rs = None -> rs = map Ok (values rs).
Proof.
  induction rs as [|[a|e] rs IH]; simpl; intros H; [reflexivity| |discriminate].
  rewrite <- IH by assumption. reflexivity.
Qed.

Lemma first_error_some_in A (rs : list (Result A)) e :
  first_error rs = Some e -> In (Err e) rs.
Proof.
  induction rs as [|[a|e'] rs IH]; simpl; intros H; [discriminate| |].
  - right; auto.
  - inversion H; subst. left; reflexivity.
Qed.

Lemma Promise_all_ok A B (g : A -> Prog B) (xs : list A) w ys w' tr :
  run (Promise_all (map g xs)) w = (Ok ys, w', tr) ->
  Forall2 (fun x y => exists w0 w1 t, run (g x) w0 = (Ok y, w1, t)) xs ys.
Proof.
  unfold Promise_all. rewrite run_bind.
  destruct (run (settle_all (map g xs)) w) as [[out w1] t1] eqn:E.
  destruct (settle_all_inv _ _ _ E) as (rs & -> & HF).
  destruct (first_error rs) eqn:Efe; simpl; [discriminate|].
  intros H; inversion H; subst. clear H E.
  apply first_error_none_values in Efe. revert Efe HF.
  generalize (values rs) as vs. intros vs ->. clear.
  revert vs. induction xs as [|x xs IH]; intros [|v vs] HF; inversion HF; subst;
    constructor; auto.
Qed.

Lemma Promise_all_err A B (g : A -> Prog B) (xs : list A) w e w' tr :
  run (Promise_all (map g xs)) w = (Err e, w', tr) ->
  exists x w0 w1 t, In x xs /\ run (g x) w0 = (Err e, w1, t).
Proof.
  unfold Promise_all. rewrite run_bind.
  destruct (run (settle_all (map g xs)) w) as [[out w1] t1] eqn:E.
  destruct (settle_all_inv _ _ _ E) as (rs & -> & HF).
  destruct (first_error rs) as [e'|] eqn:Efe; simpl; [|discriminate].
  intros H; inversion H; subst. clear H E.
  apply first_error_some_in in Efe.
  induction HF as [|x r xs rs (w0 & w2 & t & Hx) HF IH]; [contradiction|].
  destruct Efe as [->|Hin].
  - exists x, w0, w2, t. split; [left; reflexivity|assumption].
  - destruct (IH Hin) as (x' & w0' & w1' & t' & Hin' & Hx').
    exists x', w0', w1', t'. split; [right; assumption|assumption].
Qed.

Lemma blob_entry_ok file w0 entry w1 t :
  run (blob_entry self owner repo file) w0 = (Ok entry, w1, t) -> (entry_of self owner repo) file entry.
Proof.
  unfold blob_entry. rewrite run_bind.
  destruct (run (createBlobWithRetry self owner repo file 3) w0) as [[[sha|e] w2] t2] eqn:E;
    simpl; intros H; inversion H; subst.
  repeat split. exists w0, w1, t2. assumption.
Qed.

Lemma blob_batch_ok batch acc w tree w' tr :
  run ((blob_batch self owner repo) batch acc) w = (Ok tree, w', tr) ->
  exists results, tree = (acc ++ results)%list /\ Forall2 (entry_of self owner repo) batch results.
Proof.
  unfold blob_batch. rewrite run_bind.
  destruct (run (Promise_all _) w) as [[[ys|e] w1] t1] eqn:E; simpl; [|discriminate].
  intros H; inversion H; subst. exists ys. split; [reflexivity|].
  apply Promise_all_ok in E.
  clear H. induction E as [|x y xs ys' (w0 & w2 & t & Hx) HF IH].
  - constructor.
  - constructor; [|assumption]. eapply blob_entry_ok; eassumption.
Qed.

(** The batches cover the files from index [i] on, in order. *)
Lemma blob_batches_ok (files : list File) fuel :
  forall i acc w tree w' tr,
    List.length files <= i + 5 * fuel ->
    run (for_batches fuel i 5 files 500 (blob_batch self owner repo) acc) w = (Ok tree, w', tr) ->
    exists results, tree = (acc ++ results)%list
                    /\ Forall2 (entry_of self owner repo) (skipn i files) results.
Proof.
  induction fuel as [|fuel IH]; intros i acc w tree w' tr Hlen; simpl.
  - intros H; inversion H; subst. exists []. rewrite app_nil_r. split; [reflexivity|].
    rewrite skipn_all2 by lia. constructor.
  - destruct (Nat.ltb_spec i (List.length files)) as [Hi|Hi].
    + rewrite run_bind.
      destruct (run ((blob_batch self owner repo) _ acc) w) as [[[acc'|e] w1] t1] eqn:Eb; [|discriminate].
      apply blob_batch_ok in Eb as (res1 & -> & HF1).
      rewrite run_bind.
      destruct (run (if Nat.ltb (i + 5) (List.length files) then sleep 500 else Ret tt) w1)
        as [[[[]|e] w2] t2] eqn:Es.
      2:{ destruct (Nat.ltb (i + 5) (List.length files)); simpl in Es; discriminate. }
      destruct (run (for_batches fuel (i + 5) 5 files 500 (blob_batch self owner repo) (acc ++ res1)%list) w2)
        as [[out3 w3] t3] eqn:Er.
      intros H; inversion H; subst.
      apply IH in Er as (res2 & -> & HF2); [|lia].
      exists (res1 ++ res2)%list. split; [rewrite app_assoc; reflexivity|].
      unfold Js.slice in HF1. replace (i + 5 - i) with 5 in HF1 by lia.
      rewrite <- (firstn_skipn 5 (skipn i files)).
      apply Forall2_app; [assumption|].
      rewrite skipn_skipn. replace (5 + i) with (i + 5) by lia. assumption.
    + intros H; inversion H; subst. exists []. rewrite app_nil_r. split; [reflexivity|].
      rewrite skipn_all2 by lia. constructor.
Qed.

Lemma entry_of_paths files entries :
  Forall2 (entry_of self owner repo) files entries -> map te_path entries = map f_path files.
Proof.
  induction 1 as [|f en fs ens (Hp & _) _ IH]; simpl; [reflexivity|].
  rewrite Hp, IH; reflexivity.
Qed.

Lemma createBlobWithRetry_loop_emits file retries n i :
  emits is_blob_building (createBlobWithRetry_loop self owner repo file retries n i).
Proof.
  revert i. induction n as [|n IH]; intros i; cbn [createBlobWithRetry_loop].
  - apply emits_Throw.
  - emits_tac. apply IH.
Qed.

Lemma blob_entry_emits file : emits is_blob_building (blob_entry self owner repo file).
Proof.
  unfold blob_entry, createBlobWithRetry.
  apply emits_bind; [apply createBlobWithRetry_loop_emits|intros; apply emits_Ret].
Qed.

Lemma blob_batches_emit files fuel i acc :
  emits is_blob_building (for_batches fuel i 5 files 500 (blob_batch self owner repo) acc).
Proof.
  apply emits_for_batches; [reflexivity|].
  intros batch acc'. unfold blob_batch.
  apply emits_bind; [|intros; apply emits_Ret].
  apply emits_Promise_all. intros p Hp. apply in_map_iff in Hp as (f & <- & _).
  apply blob_entry_emits.
Qed.

(** [createTree], in the terms of its batches. *)
Lemma createTree_eq files baseTree :
  createTree self owner repo files baseTree =
  (sleep 1000 ;;;
   tree <- for_batches (List.length files) 0 5 files 500 (blob_batch self owner repo) [] ;;
   Call (Git_createTree (octokit self) owner repo tree
           (if Js.truthy baseTree then baseTree else None)) (fun r =>
     match r with
     | Ok treeData => Ret treeData
     | Err error =>
         console2 LError "Error creating tree:" (message error) ;;;
         if status_is error 404 && Js.truthy baseTree then
           Throw (new_Error ("Base tree SHA " ++ default baseTree ""
                             ++ " not found. The repository state may have changed."))
         else Throw error
     end)).
Proof. reflexivity. Qed.

Lemma createTree_emits files baseTree :
  emits is_tree_building (createTree self owner repo files baseTree).
Proof.
  rewrite createTree_eq. emits_tac.
  eapply emits_weaken; [|apply blob_batches_emit].
  intros [X c r| | |]; simpl; try reflexivity; try discriminate.
  destruct c; simpl; congruence.
Qed.

Lemma blob_entry_err file w0 e w1 t :
  run (blob_entry self owner repo file) w0 = (Err e, w1, t) ->
  run (createBlobWithRetry self owner repo file 3) w0 = (Err e, w1, t).
Proof.
  unfold blob_entry. rewrite run_bind.
  destruct (run (createBlobWithRetry self owner repo file 3) w0) as [[[sha|e'] w2] t2];
    simpl; intros H; inversion H; subst. reflexivity.
Qed.

(** A failing batch loop stems from a file whose blob could not be
    created. *)
Lemma blob_batches_err (files : list File) fuel :
  forall i acc w e w' tr,
    run (for_batches fuel i 5 files 500 (blob_batch self owner repo) acc) w = (Err e, w', tr) ->
    exists f w0 w1 t,
      In f files /\ run (createBlobWithRetry self owner repo f 3) w0 = (Err e, w1, t).
Proof.
  induction fuel as [|fuel IH]; intros i acc w e w' tr; simpl; [discriminate|].
  destruct (Nat.ltb i (List.length files)); [|discriminate].
  rewrite run_bind.
  destruct (run ((blob_batch self owner repo) _ acc) w) as [[[acc'|e1] w1] t1] eqn:Eb.
  - rewrite run_bind.
    destruct (run (if Nat.ltb (i + 5) (List.length files) then sleep 500 else Ret tt) w1)
      as [[[[]|e2] w2] t2] eqn:Es.
    2:{ destruct (Nat.ltb (i + 5) (List.length files)); simpl in Es; discriminate. }
    destruct (run (for_batches fuel (i + 5) 5 files 500 (blob_batch self owner repo) acc') w2)
      as [[out3 w3] t3] eqn:Er.
    intros H; inversion H; subst. eapply IH; eassumption.
  - intros H; inversion H; subst. clear H.
    unfold blob_batch in Eb. rewrite run_bind in Eb.
    destruct (run (Promise_all _) w) as [[[ys|e2] w2] t2] eqn:E; simpl in Eb;
      inversion Eb; subst.
    apply Promise_all_err in E as (f & w0 & w1 & t & Hin & Hf).
    exists f, w0, w1, t. split.
    + eapply in_slice, Hin.
    + apply blob_entry_err; assumption.
Qed.

Lemma tree_requests_blob_building tr :
  forallb is_blob_building tr = true -> tree_requests tr = [].
Proof.
  apply collect_none. intros [X c r| | |]; simpl; try reflexivity.
  destruct c; simpl; congruence.
Qed.

(** The run of [createTree]: if a blob cannot be created it fails before
    any tree is requested; otherwise it requests exactly one tree, with an
    entry for every file, and the answer to that request decides. *)
Lemma createTree_inv files baseTree w out w' tr :
  run (createTree self owner repo files baseTree) w = (out, w', tr) ->
  (exists e, out = Err e /\ tree_requests tr = []
             /\ exists f w0 w1 t, In f files
                  /\ run (createBlobWithRetry self owner repo f 3) w0 = (Err e, w1, t))
  \/ (exists entries r,
        Forall2 (entry_of self owner repo) files entries
        /\ tree_requests tr = [(entries, if Js.truthy baseTree then baseTree else None)]
        /\ In (EvCall (Git_createTree (octokit self) owner repo entries
                         (if Js.truthy baseTree then baseTree else None)) r) tr
        /\ match r with
           | Ok td => out = Ok td
           | Err e => exists e', out = Err e'
           end).
Proof.
  rewrite createTree_eq, run_bind, run_sleep, run_bind.
  pose proof (blob_batches_emit files (List.length files) 0 [] w) as Hem.
  destruct (run (for_batches _ 0 5 files 500 (blob_batch self owner repo) []) w) as [[[tree|e] w1] t1] eqn:Eb;
    simpl in Hem.
  - apply blob_batches_ok in Eb as (entries & -> & HF); [|lia]. simpl in HF.
    cbn [run]. destruct (handle _ w1) as [r w2] eqn:Eh.
    destruct r as [td|e].
    + simpl. intros H; inversion H; subst. right. exists entries, (Ok td).
      split; [assumption|]. split; [|split; [|reflexivity]].
      * unfold tree_requests. rewrite collect_cons; simpl. rewrite collect_app.
        fold (tree_requests t1). rewrite tree_requests_blob_building by assumption.
        reflexivity.
      * right. apply in_or_app. right. left. reflexivity.
    + rewrite run_bind, run_console2.
      destruct (run (if status_is e 404 && Js.truthy baseTree then _ else _) w2)
        as [[out3 w3] t3] eqn:E3.
      assert (exists e', out3 = Err e' /\ t3 = []) as (e' & -> & ->).
      { destruct (status_is e 404 && Js.truthy baseTree); simpl in E3; inversion E3;
          eexists; split; reflexivity. }
      intros H; inversion H; subst. right. exists entries, (Err e).
      split; [assumption|]. split; [|split; [|exists e'; reflexivity]].
      * unfold tree_requests. rewrite collect_cons; simpl. rewrite collect_app.
        fold (tree_requests t1). rewrite tree_requests_blob_building by assumption.
        reflexivity.
      * right. apply in_or_app. right. left. reflexivity.
  - intros H; inversion H; subst. left. exists e. split; [reflexivity|]. split.
    + unfold tree_requests. rewrite collect_cons; simpl.
      apply tree_requests_blob_building; assumption.
    + eapply blob_batches_err; eassumption.
Qed.

End Blobs.




(* ================================================================== *)
(** * What a program returns *)
(* ================================================================== *)

Section Returns.
Context {R : Remote}.
Variable A : Type.
Variable P : A -> Prop.

Lemma returns_Ret a : P a -> returns P (Ret a).
Proof. intros H w a' w' tr E; inversion E; subst; assumption. Qed.

Lemma returns_Throw e : returns P (Throw e).
Proof. intros w a' w' tr E; inversion E. Qed.

Lemma returns_Call X (c : Api X) k : (forall r, returns P (k r)) -> returns P (Call c k).
Proof.
  intros Hk w a w' tr; simpl. destruct (handle c w) as [r w1].
  destruct (run (k r) w1) as [[out w2] t] eqn:E. intros H; inversion H; subst.
  eapply Hk; eassumption.
Qed.

Lemma returns_Sleep ms k : returns P k -> returns P (Sleep ms k).
Proof.
  intros Hk w a w' tr; simpl.
  destruct (run k w) as [[out w2] t] eqn:E. intros H; inversion H; subst.
  eapply Hk; eassumption.
Qed.

Lemma returns_Console lvl text k : returns P k -> returns P (Console lvl text k).
Proof.
  intros Hk w a w' tr; simpl.
  destruct (run k w) as [[out w2] t] eqn:E. intros H; inversion H; subst.
  eapply Hk; eassumption.
Qed.

Lemma returns_bind B (m : Prog B) (f : B -> Prog A) :
  (forall b, returns P (f b)) -> returns P (bind m f).
Proof.
  intros Hf w a w' tr H.
  apply run_bind_inv in H as [(b & w1 & t1 & t2 & _ & H & _)|(e & _ & ?)]; [|discriminate].
  eapply Hf; eassumption.
Qed.

Lemma returns_try_catch (m : Prog A) h :
  returns P m -> (forall e, returns P (h e)) -> returns P (try_catch m h).
Proof.
  intros Hm Hh w a w' tr H.
  apply run_try_catch_inv in H as [(b & H & Hb)|(e & w1 & t1 & t2 & _ & H & _)].
  - inversion Hb; subst. eapply Hm; eassumption.
  - eapply Hh; eassumption.
Qed.

End Returns.

Ltac returns_step :=
  match goal with
  | |- returns _ (Ret _) => apply returns_Ret
  | |- returns _ (Throw _) => apply returns_Throw
  | |- returns _ (Console _ _ _) => apply returns_Console
  | |- returns _ (Sleep _ _) => apply returns_Sleep
  | |- returns _ (Call _ _) => apply returns_Call; intros [?|?]
  | |- returns _ (bind _ _) => apply returns_bind; intro
  | |- returns _ (try_catch _ _) => apply returns_try_catch; [|intro]
  | |- returns _ (if ?b then _ else _) => destruct b
  | |- returns _ (let '(_, _) := ?x in _) => destruct x
  end.

Section Clone.
Context {R : Remote} {rt : JsRuntime}.
Variable self : GitHubRepoCloner.
Variable options : CloneOptions.t.

Lemma cloneUsingContentsAPI_success :
  returns (fun res => CloneResult.success res = true) (cloneUsingContentsAPI self options).
Proof.
  unfold cloneUsingContentsAPI. repeat returns_step; reflexivity.
Qed.

Lemma cloneUsingGitAPI_success :
  returns (fun res => CloneResult.success res = true) (cloneUsingGitAPI self options).
Proof.
  unfold cloneUsingGitAPI. repeat returns_step; reflexivity.
Qed.

(** C2.  [cloneAsTemplate] returns the success result of the Contents
    strategy when that strategy succeeds, and otherwise the success result
    of the Git strategy when the fallback succeeds; it raises only when
    both have failed, and the error it raises carries the message of the
    error of the fallback.  The fallback starts from the state the failed
    Contents strategy left. *)
Theorem cloneAsTemplate_outcome (w : World) :
  let '(r1, w1, t1) := run (cloneUsingContentsAPI self options) w in
  match r1 with
  | Ok res =>
      run (cloneAsTemplate self options) w = (Ok res, w1, t1)
      /\ CloneResult.success res = true
  | Err error =>
      let warned :=
        EvConsole LWarn ("Contents API approach failed, trying Git API fallback:"
                         ++ " " ++ message error) in
      let '(r2, w2, t2) := run (cloneUsingGitAPI self options) w1 in
      match r2 with
      | Ok res =>
          run (cloneAsTemplate self options) w = (Ok res, w2, (t1 ++ warned :: t2)%list)
          /\ CloneResult.success res = true
      | Err fallbackError =>
          run (cloneAsTemplate self options) w
          = (Err (new_Error ("Failed to clone repository using both methods. Last error: "
                             ++ message fallbackError)),
             w2,
             (t1 ++ warned :: t2 ++ [EvConsole LError "Both approaches failed"])%list)
      end
  end.
Proof.
  unfold cloneAsTemplate. rewrite run_try_catch.
  destruct (run (cloneUsingContentsAPI self options) w) as [[[res|error] w1] t1] eqn:E1.
  - split; [reflexivity|]. eapply cloneUsingContentsAPI_success; eassumption.
  - rewrite run_bind, run_console2, run_try_catch.
    destruct (run (cloneUsingGitAPI self options) w1) as [[[res|fallbackError] w2] t2] eqn:E2.
    + split; [reflexivity|]. eapply cloneUsingGitAPI_success; eassumption.
    + simpl. reflexivity.
Qed.

End Clone.

(* ================================================================== *)
(** * The steps of a sync *)
(* ================================================================== *)

Section SyncSteps.
Context {R : Remote} {rt : JsRuntime}.
Variable self : GitHubRepoCloner.
Variable options : SyncOptions.t.

Let sourceOwner := SyncOptions.sourceOwner options.
Let sourceRepo := SyncOptions.sourceRepo options.
Let targetOwner := SyncOptions.targetOwner options.
Let targetRepo := SyncOptions.targetRepo options.

Lemma syncResolve_emits : emits is_resolving (syncResolve self options).
Proof. unfold syncResolve. emits_tac. Qed.

Lemma getAllFiles_emits owner repo ref :
  emits is_source_read (getAllFiles self owner repo ref).
Proof.
  unfold getAllFiles. emits_tac.
  apply emits_for_batches; [reflexivity|]. intros batch acc. emits_tac.
  apply emits_Promise_all. intros p Hp. apply in_map_iff in Hp as (item & <- & _).
  unfold fetch_item. emits_tac.
Qed.

Lemma syncCheckout_emits t : emits is_checkout (syncCheckout self options t).
Proof. unfold syncCheckout. emits_tac. Qed.

Lemma syncBuildTree_emits files cur :
  emits is_tree_building (syncBuildTree self options files cur).
Proof.
  unfold syncBuildTree. emits_tac; apply createTree_emits.
Qed.


Let checkoutRef (t : SyncTarget) : Api GitRef :=
  Git_getRef (octokit self) targetOwner targetRepo ("heads/" ++ syncBranchName t).

(** What steps 6 and 7 do when they succeed: the head of the default
    branch is read, the sync branch is probed and, if the probe found
    nothing and the branch is not the default branch, created at that
    head; then its reference and commit are read. *)
Lemma syncCheckout_inv t w ref cur w' tr :
  run (syncCheckout self options t) w = (Ok (ref, cur), w', tr) ->
  exists head probe creation,
    tr = ([ EvCall (Git_getRef (octokit self) targetOwner targetRepo
                      ("heads/" ++ defaultBranch t)) (Ok head);
            EvCall (checkoutRef t) probe ]
          ++ creation
          ++ [ EvCall (checkoutRef t) (Ok ref);
               EvCall (Git_getCommit (octokit self) targetOwner targetRepo (object_sha ref))
                 (Ok cur) ])%list
    /\ ((succeeded probe = false
         /\ String.eqb (syncBranchName t) (defaultBranch t) = false
         /\ creation =
              [ EvCall (Git_createRef (octokit self) targetOwner targetRepo
                          ("refs/heads/" ++ syncBranchName t) (object_sha head)) (Ok tt);
                EvConsole LLog ("Created sync branch: " ++ syncBranchName t);
                EvSleep 1000 ])
        \/ (String.eqb (syncBranchName t) (defaultBranch t) = true
            /\ creation =
                 [ EvConsole LLog ("Syncing directly to " ++ defaultBranch t ++ " branch") ])
        \/ (succeeded probe = true
            /\ String.eqb (syncBranchName t) (defaultBranch t) = false
            /\ creation = [])).
Proof.
  unfold syncCheckout, checkoutRef. cbn -[append String.eqb].
  destruct (handle _ w) as [[head|e] w1]; cbn -[append String.eqb]; [|discriminate].
  destruct (handle _ w1) as [[found|e] w2]; cbn -[append String.eqb].
  - destruct (String.eqb (syncBranchName t) (defaultBranch t)) eqn:En;
      cbn -[append String.eqb].
    + destruct (handle _ w2) as [[ref'|e] w3]; cbn -[append String.eqb]; [|discriminate].
      destruct (handle _ w3) as [[cur'|e] w4]; cbn -[append String.eqb]; [|discriminate].
      intros H; inversion H; subst.
      exists head, (Ok found), [EvConsole LLog ("Syncing directly to " ++ defaultBranch t ++ " branch")].
      split; [reflexivity|]. right; left. split; reflexivity.
    + destruct (handle _ w2) as [[ref'|e] w3]; cbn -[append String.eqb]; [|discriminate].
      destruct (handle _ w3) as [[cur'|e] w4]; cbn -[append String.eqb]; [|discriminate].
      intros H; inversion H; subst. exists head, (Ok found), [].
      split; [reflexivity|]. right; right. repeat split.
  - destruct (status_is e 404); cbn -[append String.eqb]; [|discriminate].
    destruct (String.eqb (syncBranchName t) (defaultBranch t)) eqn:En;
      cbn -[append String.eqb].
    + destruct (handle _ w2) as [[ref'|e'] w3]; cbn -[append String.eqb]; [|discriminate].
      destruct (handle _ w3) as [[cur'|e'] w4]; cbn -[append String.eqb]; [|discriminate].
      intros H; inversion H; subst.
      exists head, (Err e), [EvConsole LLog ("Syncing directly to " ++ defaultBranch t ++ " branch")].
      split; [reflexivity|]. right; left. split; reflexivity.
    + destruct (handle _ w2) as [[[]|e'] w3]; cbn -[append String.eqb]; [|discriminate].
      destruct (handle _ w3) as [[ref'|e'] w4]; cbn -[append String.eqb]; [|discriminate].
      destruct (handle _ w4) as [[cur'|e'] w5]; cbn -[append String.eqb]; [|discriminate].
      intros H; inversion H; subst.
      exists head, (Err e),
        [ EvCall (Git_createRef (octokit self) targetOwner targetRepo
                          ("refs/heads/" ++ syncBranchName t) (object_sha head)) (Ok tt);
                EvConsole LLog ("Created sync branch: " ++ syncBranchName t);
                EvSleep 1000 ].
      split; [reflexivity|]. left. repeat split.
Qed.

(** Steps 10 to 12, by the answers of the remote. *)
Lemma syncDeliver_run t files ref tree w :
  let commitCall :=
    Git_createCommit (octokit self) targetOwner targetRepo
      (syncCommitMessage options t) (td_sha tree) [object_sha ref] in
  let moveCall commit :=
    Git_updateRef (octokit self) targetOwner targetRepo
      ("heads/" ++ syncBranchName t) (gc_sha commit) false in
  let pullCall :=
    Pulls_create (octokit self) targetOwner targetRepo (syncPullReq options t files) in
  let moved commit :=
    [ EvCall commitCall (Ok commit); EvCall (moveCall commit) (Ok tt);
      EvConsole LLog ("Successfully updated branch " ++ syncBranchName t
                      ++ " with template changes") ] in
  run (syncDeliver self options t files ref tree) w =
  match handle commitCall w with
  | (Err e, w1) => (Err e, w1, [EvCall commitCall (Err e)])
  | (Ok commit, w1) =>
      match handle (moveCall commit) w1 with
      | (Err e, w2) =>
          (Err e, w2, [EvCall commitCall (Ok commit); EvCall (moveCall commit) (Err e)])
      | (Ok _, w2) =>
          if default (SyncOptions.createPullRequest options) true
             && negb (String.eqb (syncBranchName t) (defaultBranch t))
          then
            match handle pullCall w2 with
            | (Ok pr, w3) =>
                (Ok (synced options (syncBranchName t) (List.length files) (Some (pr_html_url pr))),
                 w3,
                 (moved commit
                  ++ [ EvCall pullCall (Ok pr);
                       EvConsole LLog ("Created pull request: " ++ pr_html_url pr) ])%list)
            | (Err e, w3) =>
                (Ok (synced options (syncBranchName t) (List.length files) None),
                 w3,
                 (moved commit
                  ++ [ EvCall pullCall (Err e);
                       EvConsole LError ("Error creating pull request:" ++ " "
                                         ++ message e) ])%list)
            end
          else (Ok (synced options (syncBranchName t) (List.length files) None), w2, moved commit)
      end
  end.
Proof.
  unfold syncDeliver, createCommit, synced.
  cbn -[append String.eqb syncCommitMessage syncPullReq].
  destruct (handle _ w) as [[commit|e] w1];
    cbn -[append String.eqb syncCommitMessage syncPullReq]; [|reflexivity].
  destruct (handle _ w1) as [[[]|e] w2];
    cbn -[append String.eqb syncCommitMessage syncPullReq]; [|reflexivity].
  destruct (default (SyncOptions.createPullRequest options) true
            && negb (String.eqb (syncBranchName t) (defaultBranch t)));
    cbn -[append String.eqb syncCommitMessage syncPullReq]; [|reflexivity].
  destruct (handle _ w2) as [[pr|e] w3]; reflexivity.
Qed.

End SyncSteps.

(* ================================================================== *)
(** * The runs of a sync *)
(* ================================================================== *)

Section SyncRuns.
Context {R : Remote} {rt : JsRuntime}.
Variable self : GitHubRepoCloner.
Variable options : SyncOptions.t.

Let sourceOwner := SyncOptions.sourceOwner options.
Let sourceRepo := SyncOptions.sourceRepo options.
Let targetOwner := SyncOptions.targetOwner options.
Let targetRepo := SyncOptions.targetRepo options.

Lemma syncFiles_inv t files w out w' tr w0 t1 w1 t2 :
  run (syncResolve self options) w0 = (Ok t, w1, t1) ->
  run (getAllFiles self sourceOwner sourceRepo (sourceBranch t)) w1 = (Ok files, w, t2) ->
  files <> [] ->
  run (syncFiles self options t files) w = (out, w', tr) ->
  SyncRun self options w0 out w' (t1 ++ t2 ++ tr).
Proof.
  intros H1 H2 Hne. unfold syncFiles.
  rewrite run_bind, run_console, run_bind.
  destruct (run (syncCheckout self options t) w) as [[[[ref cur]|e] w3] t3] eqn:E3.
  2:{ intros H; inversion H; subst. eapply SyncRun_no_checkout; eassumption. }
  rewrite run_bind, run_console, run_bind, run_console, run_bind.
  destruct (run (syncBuildTree self options (filter syncable files) cur) w3)
    as [[[tree|e] w4] t4] eqn:E4.
  2:{ intros H; inversion H; subst.
      eapply SyncRun_no_tree; eassumption. }
  destruct (run (syncDeliver self options t (filter syncable files) ref tree) w4)
    as [[out5 w5] t5] eqn:E5.
  intros H; inversion H; subst.
  eapply SyncRun_delivery; eassumption.
Qed.

(** Every run of [syncWithTemplate] is one of the runs of its [try]
    block; an error of the block is logged and rethrown under the
    message of the sync. *)
Lemma syncWithTemplate_inv w out w' tr :
  run (syncWithTemplate self options) w = (out, w', tr) ->
  exists body tb,
    SyncRun self options w body w' tb
    /\ match body with
       | Ok res => out = Ok res /\ tr = ev_started options :: tb
       | Err e =>
           out = Err (new_Error ("Failed to sync with template: " ++ message e))
           /\ tr = (ev_started options :: tb ++ [ev_failed e])%list
       end.
Proof.
  unfold syncWithTemplate. rewrite run_bind, run_console, run_try_catch, run_bind.
  destruct (run (syncResolve self options) w) as [[[t|e] w1] t1] eqn:E1.
  2:{ cbn -[append]. intros H; inversion H; subst. exists (Err e), t1.
      split; [apply SyncRun_unresolved; assumption|]. split; reflexivity. }
  rewrite run_bind.
  destruct (run (getAllFiles self _ _ (sourceBranch t)) w1) as [[[files|e] w2] t2] eqn:E2.
  2:{ cbn -[append]. intros H; inversion H; subst. exists (Err e), (t1 ++ t2)%list.
      split; [eapply SyncRun_unlisted; eassumption|]. split; reflexivity. }
  destruct files as [|f files].
  { cbn -[append]. rewrite app_nil_r. intros H; inversion H; subst.
    exists (Ok nothingToSync), (t1 ++ t2)%list.
    split; [eapply SyncRun_nothing; eassumption|]. split; reflexivity. }
  cbn [List.length Nat.eqb].
  destruct (run (syncFiles self options t (f :: files)) w2) as [[out3 w3] t3] eqn:E3.
  assert (HR : SyncRun self options w out3 w3 (t1 ++ t2 ++ t3)).
  { eapply syncFiles_inv; [exact E1|exact E2|discriminate|exact E3]. }
  destruct out3 as [res|e]; cbn -[append]; intros H; inversion H; subst.
  - exists (Ok res), (t1 ++ t2 ++ t3)%list. split; [assumption|]. split; reflexivity.
  - exists (Err e), (t1 ++ t2 ++ t3)%list. split; [assumption|].
    split; [reflexivity|]. rewrite <- !app_assoc. reflexivity.
Qed.

End SyncRuns.

(* ================================================================== *)
(** * The sync filter and the denylist *)
(* ================================================================== *)

Lemma in_all_ascii (a : ascii) : In a all_ascii.
Proof.
  unfold all_ascii. rewrite <- (ascii_nat_embedding a).
  apply in_map, in_seq. pose proof (nat_ascii_bounded a). lia.
Qed.

(** Under the [i] flag two characters match exactly when their lower-case
    forms agree. *)
Lemma char_eq_lower (a b : ascii) :
  Js.char_eq true a b = Ascii.eqb (lower_char b) (lower_char a).
Proof.
  assert (H : forallb (fun a => forallb (fun b =>
                Bool.eqb (Js.char_eq true a b) (Ascii.eqb (lower_char b) (lower_char a)))
                all_ascii) all_ascii = true) by (vm_compute; reflexivity).
  rewrite forallb_forall in H. specialize (H a (in_all_ascii a)).
  rewrite forallb_forall in H. specialize (H b (in_all_ascii b)).
  apply Bool.eqb_prop in H. exact H.
Qed.

Lemma test_anchored_prefix (lit s : string) :
  Js.test (Js.mkAnchored lit false false) s = prefix lit s.
Proof.
  unfold Js.test; simpl. revert s. induction lit as [|a lit IH]; intros s; simpl.
  - destruct s; reflexivity.
  - destruct s as [|b s]; simpl; [reflexivity|].
    unfold Js.char_eq. destruct (ascii_dec a b) as [->|Hne].
    + rewrite Ascii.eqb_refl. apply IH.
    + destruct (Ascii.eqb_spec a b); [contradiction|reflexivity].
Qed.

Lemma test_anchored_whole_icase (lit s : string) :
  Js.test (Js.mkAnchored lit true true) s = String.eqb (lower s) (lower lit).
Proof.
  unfold Js.test; cbn [Js.ignore_case Js.literal Js.to_end].
  revert s. induction lit as [|a lit IH]; intros s.
  - destruct s; reflexivity.
  - destruct s as [|b s]; [reflexivity|].
    cbn [Js.match_literal lower String.eqb].
    rewrite char_eq_lower. unfold lower_char.
    destruct (Ascii.eqb _ _); [apply IH|reflexivity].
Qed.

(** The filter of step 8 keeps exactly the files off the denylist. *)
Lemma syncable_denylisted (file : File) :
  syncable file = negb (denylisted (f_path file)).
Proof.
  unfold syncable, denylisted, skipPatterns. cbn [existsb].
  rewrite !test_anchored_prefix, !test_anchored_whole_icase, orb_false_r, !orb_assoc.
  reflexivity.
Qed.

Lemma clean_forallb tr :
  forallb clean_tree_request tr
  = forallb (fun rq => forallb (fun en => negb (denylisted (te_path en))) (fst rq))
      (tree_requests tr).
Proof.
  unfold tree_requests. induction tr as [|e tr IH]; [reflexivity|].
  rewrite collect_cons. cbn [forallb]. unfold clean_tree_request at 1.
  destruct (ev_tree_request e) as [[entries base]|]; cbn [forallb fst]; rewrite IH;
    reflexivity.
Qed.

Lemma not_a_tree_request_clean (q : Event -> bool) :
  (forall e, q e = true -> ev_tree_request e = None) ->
  forall e, q e = true -> clean_tree_request e = true.
Proof. intros H e He. unfold clean_tree_request. rewrite (H e He). reflexivity. Qed.

Section Denylist.
Context {R : Remote} {rt : JsRuntime}.
Variable self : GitHubRepoCloner.

(** A tree built from files off the denylist requests no denylisted
    path. *)
Lemma createTree_clean owner repo files baseTree :
  (forall f, In f files -> denylisted (f_path f) = false) ->
  emits clean_tree_request (createTree self owner repo files baseTree).
Proof.
  intros Hfiles w. rewrite clean_forallb.
  destruct (run (createTree self owner repo files baseTree) w) as [[out w'] tr] eqn:E.
  cbn [snd].
  apply createTree_inv in E as [(e & _ & -> & _)|(entries & r & HF & -> & _)];
    [reflexivity|].
  cbn [forallb fst]. rewrite andb_true_r. apply forallb_forall. intros en Hen.
  apply entry_of_paths in HF.
  assert (In (te_path en) (map f_path files)) as Hin.
  { rewrite <- HF. apply in_map. assumption. }
  apply in_map_iff in Hin as (f & Hf & Hin). rewrite <- Hf, (Hfiles f Hin). reflexivity.
Qed.

Lemma filter_syncable_off_denylist files f :
  In f (filter syncable files) -> denylisted (f_path f) = false.
Proof.
  intros H. apply filter_In in H as [_ H]. rewrite syncable_denylisted in H.
  destruct (denylisted (f_path f)); [discriminate|reflexivity].
Qed.

Lemma syncWithTemplate_clean options :
  emits clean_tree_request (syncWithTemplate self options).
Proof.
  unfold syncWithTemplate. emits_tac.
  - eapply emits_weaken; [|apply syncResolve_emits].
    apply not_a_tree_request_clean. intros [X c r| | |]; simpl; try reflexivity.
    destruct c; simpl; congruence.
  - eapply emits_weaken; [|apply getAllFiles_emits].
    apply not_a_tree_request_clean. intros [X c r| | |]; simpl; try reflexivity.
    destruct c; simpl; congruence.
  - unfold syncFiles. emits_tac.
    + eapply emits_weaken; [|apply syncCheckout_emits].
      apply not_a_tree_request_clean. intros [X c r| | |]; simpl; try reflexivity.
      destruct c; simpl; congruence.
    + unfold syncBuildTree. emits_tac;
        apply createTree_clean; intros f Hf;
        eapply filter_syncable_off_denylist; eassumption.
    + unfold syncDeliver, createCommit. emits_tac.
  - unfold syncFailed. emits_tac.
Qed.

End Denylist.

(** C4.  Whatever the template holds and whatever the remote answers,
    no tree a sync asks the remote to write has an entry whose path begins
    with [.git/], [node_modules/] or [.env], or equals [README.md] or
    [LICENSE] up to case. *)
Theorem sync_writes_no_denylisted_path {R : Remote} {rt : JsRuntime}
    (self : GitHubRepoCloner) (options : SyncOptions.t) (w : World) :
  Forall (fun request =>
            Forall (fun entry => denylisted (te_path entry) = false) (fst request))
    (tree_requests (trace (syncWithTemplate self options) w)).
Proof.
  pose proof (syncWithTemplate_clean self options w) as H.
  rewrite clean_forallb in H. unfold trace.
  apply Forall_forall. intros rq Hrq.
  rewrite forallb_forall in H. specialize (H rq Hrq).
  apply Forall_forall. intros en Hen.
  rewrite forallb_forall in H. specialize (H en Hen).
  destruct (denylisted (te_path en)); [discriminate|reflexivity].
Qed.

(** On the example template ([a.txt], [README.md], [.env.local]) only
    [a.txt] is written. *)
Example sync_writes_only_a_txt :
  map (fun rq => map te_path (fst rq))
    (tree_requests
       (@trace (Mock.remote Mock.quiet) _
          (@syncWithTemplate Mock.runtime Mock.cloner Mock.sync_options) Mock.start))
  = [["a.txt"]].
Proof. vm_compute. reflexivity. Qed.

(* ================================================================== *)
(** * A sync from its ninth step on *)
(* ================================================================== *)

Section SyncForward.
Context {R : Remote} {rt : JsRuntime}.
Variable self : GitHubRepoCloner.
Variable options : SyncOptions.t.

Let sourceOwner := SyncOptions.sourceOwner options.
Let sourceRepo := SyncOptions.sourceRepo options.
Let targetOwner := SyncOptions.targetOwner options.
Let targetRepo := SyncOptions.targetRepo options.


End SyncForward.



(* ================================================================== *)
(** * Nothing to sync *)
(* ================================================================== *)

(** Deciding a class of events away from another. *)
Ltac by_event_cases :=
  let c := fresh "c" in
  intros [? c ?| | |]; simpl; try reflexivity; try discriminate;
  destruct c; simpl; try reflexivity; try discriminate; congruence.

Lemma existsb_none A (p q : A -> bool) xs :
  (forall x, p x = true -> q x = false) -> forallb p xs = true -> existsb q xs = false.
Proof.
  intros Hpq. induction xs as [|x xs IH]; simpl; [reflexivity|].
  intros H. apply andb_prop in H as [Hx Hxs]. rewrite (Hpq x Hx). auto.
Qed.

Lemma resolving_not_write e : is_resolving e = true -> is_write e = false.
Proof. revert e. by_event_cases. Qed.

Lemma source_read_not_write e : is_source_read e = true -> is_write e = false.
Proof. revert e. by_event_cases. Qed.

Section Nothing.
Context {R : Remote} {rt : JsRuntime}.
Variable self : GitHubRepoCloner.
Variable options : SyncOptions.t.

(** [getAllFiles] yields no file when the reference resolves neither
    as a branch nor as a commit. *)
Lemma getAllFiles_unresolved owner repo ref w e1 w1 e2 w2 :
  handle (Git_getRef (sourceOctokit self) owner repo ("heads/" ++ ref)) w = (Err e1, w1) ->
  handle (Git_getCommit (sourceOctokit self) owner repo ref) w1 = (Err e2, w2) ->
  outcome (getAllFiles self owner repo ref) w = Ok [].
Proof.
  intros H1 H2. unfold outcome, getAllFiles.
  rewrite run_try_catch, run_bind. cbn -[append]. rewrite H1. cbn -[append].
  rewrite H2. reflexivity.
Qed.

(** [getAllFiles] yields no file when the remote reports an empty
    repository, and raises on any other failure to list the tree. *)
Lemma getAllFiles_tree_unlisted owner repo ref w refData w1 e w2 :
  handle (Git_getRef (sourceOctokit self) owner repo ("heads/" ++ ref)) w = (Ok refData, w1) ->
  handle (Git_getTree (sourceOctokit self) owner repo (object_sha refData) "true") w1
  = (Err e, w2) ->
  outcome (getAllFiles self owner repo ref) w
  = if status_is e 409 && Js.includes (message e) "Git Repository is empty"
    then Ok [] else Err e.
Proof.
  intros H1 H2. unfold outcome, getAllFiles.
  rewrite run_try_catch, run_bind. cbn -[append Js.includes]. rewrite H1.
  cbn -[append Js.includes]. rewrite H2. cbn -[append Js.includes].
  destruct (status_is e 409 && Js.includes (message e) "Git Repository is empty");
    reflexivity.
Qed.

End Nothing.

(** C6 (amended).  When the two repositories can be read, the template
    has at least one commit and the enumeration of its files yields none,
    [syncWithTemplate] returns the success result with [filesCount = 0]
    and has changed nothing on the remote: no branch, no blob, no tree, no
    commit. *)
Theorem sync_nothing_to_sync {R : Remote} {rt : JsRuntime}
    (self : GitHubRepoCloner) (options : SyncOptions.t) (w : World) t w1 t1 w2 t2 :
  run (syncResolve self options) w = (Ok t, w1, t1) ->
  run (getAllFiles self (SyncOptions.sourceOwner options) (SyncOptions.sourceRepo options)
         (sourceBranch t)) w1 = (Ok [], w2, t2) ->
  run (syncWithTemplate self options) w
  = (Ok nothingToSync, w2, (ev_started options :: t1 ++ t2)%list)
  /\ SyncResult.success nothingToSync = true
  /\ SyncResult.filesCount nothingToSync = 0
  /\ writes (ev_started options :: t1 ++ t2) = [].
Proof.
  intros H1 H2. split; [|split; [reflexivity|split; [reflexivity|]]].
  - unfold syncWithTemplate.
    rewrite run_bind, run_console. cbv beta iota.
    rewrite run_try_catch, run_bind, H1. cbv beta iota.
    rewrite run_bind, H2. cbn -[append]. rewrite app_nil_r. reflexivity.
  - unfold writes. cbn [filter ev_started is_write]. rewrite filter_app.
    pose proof (syncResolve_emits self options w) as E1. rewrite H1 in E1.
    pose proof (getAllFiles_emits self (SyncOptions.sourceOwner options)
                  (SyncOptions.sourceRepo options) (sourceBranch t) w1) as E2.
    rewrite H2 in E2. cbn [snd] in E1, E2.
    rewrite (filter_none is_write is_resolving _ resolving_not_write E1).
    rewrite (filter_none is_write is_source_read _ source_read_not_write E2).
    reflexivity.
Qed.

Lemma sync_nothing_to_sync_witness :
  exists t w1 t1 w2 t2,
    run (R := Mock.remote bare_template)
      (syncWithTemplate (rt := Mock.runtime) Mock.cloner Mock.sync_options) Mock.start
    = (Ok nothingToSync, w2, (ev_started Mock.sync_options :: t1 ++ t2)%list)
    /\ run (R := Mock.remote bare_template) (syncResolve Mock.cloner Mock.sync_options)
         Mock.start = (Ok t, w1, t1)
    /\ writes (ev_started Mock.sync_options :: t1 ++ t2) = [].
Proof.
  do 5 eexists.
  refine ((fun H => conj (proj1 H) (conj _ (proj2 (proj2 (proj2 H)))))
            (@sync_nothing_to_sync (Mock.remote bare_template) Mock.runtime
               Mock.cloner Mock.sync_options Mock.start _ _ _ _ _ _ _)).
  - vm_compute. reflexivity.
  - vm_compute. reflexivity.
  - vm_compute. reflexivity.
Defined.

(** C6 as stated fails: a template without commits makes the sync
    raise. *)
Lemma sync_raises_on_template_without_commits :
  outcome (R := Mock.remote no_commits)
    (syncWithTemplate (rt := Mock.runtime) Mock.cloner Mock.sync_options) Mock.start
  = Err (new_Error
           "Failed to sync with template: No commits found in template repository").
Proof. vm_compute. reflexivity. Qed.

(* ================================================================== *)
(** * Delivery: branch, commit and pull request *)
(* ================================================================== *)

Lemma includes_unfold (h n : string) :
  Js.includes h n
  = if prefix n h then true
    else match h with
         | EmptyString => false
         | String _ rest => Js.includes rest n
         end.
Proof. destruct h; reflexivity. Qed.

Lemma prefix_app (s t : string) : prefix s (s ++ t) = true.
Proof.
  induction s as [|a s IH]; simpl; [destruct t; reflexivity|].
  destruct (ascii_dec a a); [assumption|contradiction].
Qed.



Lemma includes_prefix (s t : string) : Js.includes (s ++ t) s = true.
Proof. rewrite includes_unfold, prefix_app. reflexivity. Qed.

Lemma includes_app_r (x y n : string) :
  Js.includes y n = true -> Js.includes (x ++ y) n = true.
Proof.
  intros H. induction x as [|a x IH]; cbn [append]; [assumption|].
  rewrite includes_unfold.
  destruct (prefix n (String a (x ++ y))); [reflexivity|assumption].
Qed.

Lemma append_assoc (a b c : string) : (a ++ b) ++ c = a ++ b ++ c.
Proof. induction a as [|x a IH]; simpl; [reflexivity|]. rewrite IH. reflexivity. Qed.










Section ReadsOf.
Context {R : Remote} {rt : JsRuntime}.
Variable self : GitHubRepoCloner.


End ReadsOf.

Section Delivered.
Context {R : Remote} {rt : JsRuntime}.
Variable self : GitHubRepoCloner.
Variable options : SyncOptions.t.

(** A sync that returns a result with a sync branch has gone through
    all its steps. *)
Lemma syncWithTemplate_delivered w res w' tr name :
  run (syncWithTemplate self options) w = (Ok res, w', tr) ->
  SyncResult.syncBranch res = Some name ->
  exists t w1 t1 files w2 t2 ref cur w3 t3 tree w4 t4 t5,
    run (syncResolve self options) w = (Ok t, w1, t1)
    /\ run (getAllFiles self (SyncOptions.sourceOwner options)
              (SyncOptions.sourceRepo options) (sourceBranch t)) w1 = (Ok files, w2, t2)
    /\ files <> []
    /\ run (syncCheckout self options t) w2 = (Ok (ref, cur), w3, t3)
    /\ run (syncBuildTree self options (filter syncable files) cur) w3 = (Ok tree, w4, t4)
    /\ run (syncDeliver self options t (filter syncable files) ref tree) w4
       = (Ok res, w', t5)
    /\ tr = (ev_started options
             :: t1 ++ t2 ++ ev_found files :: t3 ++ ev_filtered files ++ t4 ++ t5)%list.
Proof.
  intros H Hb. apply syncWithTemplate_inv in H as (body & tb & HR & Hm).
  destruct body as [res'|e]; [|destruct Hm; discriminate].
  destruct Hm as [Hres ->]. inversion Hres; subst res'. clear Hres.
  inversion HR; subst.
  - discriminate.
  - repeat eexists; eassumption.
Qed.

End Delivered.





Lemma resolving_not_failed_pull e : is_resolving e = true -> is_failed_pull e = false.
Proof. revert e. by_event_cases. Qed.

Lemma source_read_not_failed_pull e : is_source_read e = true -> is_failed_pull e = false.
Proof. revert e. by_event_cases. Qed.

Lemma checkout_not_failed_pull e : is_checkout e = true -> is_failed_pull e = false.
Proof. revert e. by_event_cases. Qed.

Lemma tree_building_not_failed_pull e : is_tree_building e = true -> is_failed_pull e = false.
Proof. revert e. by_event_cases. Qed.

(** Every step of a sync only emits the events of its kind. *)
Ltac classify_steps :=
  repeat match goal with
  | H : run (syncResolve ?s ?o) ?w = (_, _, ?t) |- _ =>
      lazymatch goal with
      | _ : forallb is_resolving t = true |- _ => fail
      | _ => let E := fresh "E" in
             pose proof (syncResolve_emits s o w) as E; rewrite H in E; cbn [snd] in E
      end
  | H : run (getAllFiles ?s ?a ?b ?c) ?w = (_, _, ?t) |- _ =>
      lazymatch goal with
      | _ : forallb is_source_read t = true |- _ => fail
      | _ => let E := fresh "E" in
             pose proof (getAllFiles_emits s a b c w) as E; rewrite H in E; cbn [snd] in E
      end
  | H : run (syncCheckout ?s ?o ?x) ?w = (_, _, ?t) |- _ =>
      lazymatch goal with
      | _ : forallb is_checkout t = true |- _ => fail
      | _ => let E := fresh "E" in
             pose proof (syncCheckout_emits s o x w) as E; rewrite H in E; cbn [snd] in E
      end
  | H : run (syncBuildTree ?s ?o ?f ?c) ?w = (_, _, ?t) |- _ =>
      lazymatch goal with
      | _ : forallb is_tree_building t = true |- _ => fail
      | _ => let E := fresh "E" in
             pose proof (syncBuildTree_emits s o f c w) as E; rewrite H in E; cbn [snd] in E
      end
  end.

(** C9.  If, in a run of [syncWithTemplate], the remote answers the
    request for the pull request with an error, the run still returns a
    success result; the result names the sync branch and carries no
    pull-request URL; and the trace ends with the commit, the move of the
    branch to it, the failed request and the log of its error: nothing is
    called after the failure, so nothing that was written is undone. *)
Theorem sync_survives_failed_pull_request {R : Remote} {rt : JsRuntime}
    (self : GitHubRepoCloner) (options : SyncOptions.t) (w : World) out w' tr :
  let targetOwner := SyncOptions.targetOwner options in
  let targetRepo := SyncOptions.targetRepo options in
  run (syncWithTemplate self options) w = (out, w', tr) ->
  existsb is_failed_pull tr = true ->
  exists res name pre msg treeSha parents commit req e,
    out = Ok res
    /\ SyncResult.success res = true
    /\ SyncResult.syncBranch res = Some name
    /\ SyncResult.pullRequestUrl res = None
    /\ tr = (pre
             ++ [ EvCall (Git_createCommit (octokit self) targetOwner targetRepo
                            msg treeSha parents) (Ok commit);
                  EvCall (Git_updateRef (octokit self) targetOwner targetRepo
                            ("heads/" ++ name) (gc_sha commit) false) (Ok tt);
                  EvConsole LLog ("Successfully updated branch " ++ name
                                  ++ " with template changes");
                  EvCall (Pulls_create (octokit self) targetOwner targetRepo req) (Err e);
                  EvConsole LError ("Error creating pull request:" ++ " " ++ message e) ])%list.
Proof.
  intros targetOwner targetRepo H Hfail.
  apply syncWithTemplate_inv in H as (body & tb & HR & Hm).
  assert (Htb : existsb is_failed_pull tb = true).
  { destruct body as [res|e]; destruct Hm as [_ ->]; revert Hfail;
      cbn [existsb ev_started is_failed_pull orb]; [tauto|].
    rewrite existsb_app. cbn. rewrite orb_false_r. tauto. }
  clear Hfail.
  inversion HR; subst; clear HR; classify_steps;
    repeat (rewrite existsb_app in Htb
            || cbn [existsb ev_found ev_filtered is_failed_pull orb app] in Htb);
    repeat match type of Htb with
           | context [existsb is_failed_pull ?t] =>
               match goal with
               | E : forallb is_resolving t = true |- _ =>
                   rewrite (existsb_none is_resolving is_failed_pull t
                              resolving_not_failed_pull E) in Htb
               | E : forallb is_source_read t = true |- _ =>
                   rewrite (existsb_none is_source_read is_failed_pull t
                              source_read_not_failed_pull E) in Htb
               | E : forallb is_checkout t = true |- _ =>
                   rewrite (existsb_none is_checkout is_failed_pull t
                              checkout_not_failed_pull E) in Htb
               | E : forallb is_tree_building t = true |- _ =>
                   rewrite (existsb_none is_tree_building is_failed_pull t
                              tree_building_not_failed_pull E) in Htb
               end
           end;
    cbn [orb] in Htb; try discriminate.
  (* only a run that reached the delivery can hold the failed request *)
  match goal with
  | H : run (syncDeliver _ _ _ _ _ _) _ = _ |- _ => rename H into Hd
  end.
  rewrite syncDeliver_run in Hd.
  destruct (handle _ w4) as [[commit|e] w5].
  2:{ injection Hd as _ _ Ht5. subst t5. discriminate. }
  destruct (handle _ w5) as [[[]|e] w6].
  2:{ injection Hd as _ _ Ht5. subst t5. discriminate. }
  destruct (default (SyncOptions.createPullRequest options) true
            && negb (String.eqb (syncBranchName t) (defaultBranch t))).
  2:{ injection Hd as _ _ Ht5. subst t5. discriminate. }
  destruct (handle _ w6) as [[pr|e] w7]; injection Hd as Hout _ Ht5; subst t5 body.
  { discriminate. }
  destruct Hm as [-> ->].
  eexists _, (syncBranchName t),
    (ev_started options :: t1 ++ t2 ++ ev_found files :: t3 ++ ev_filtered files ++ t4)%list,
    _, _, _, commit, _, e.
  split; [reflexivity|]. split; [reflexivity|]. split; [reflexivity|].
  split; [reflexivity|]. norm_app. reflexivity.
Qed.

Lemma sync_survives_failed_pull_request_witness :
  exists res w' tr name,
    run (R := Mock.remote pull_rejected)
      (syncWithTemplate (rt := Mock.runtime) Mock.cloner Mock.sync_options) Mock.start
    = (Ok res, w', tr)
    /\ SyncResult.success res = true
    /\ SyncResult.syncBranch res = Some name
    /\ SyncResult.pullRequestUrl res = None.
Proof.
  destruct (run (R := Mock.remote pull_rejected)
              (syncWithTemplate (rt := Mock.runtime) Mock.cloner Mock.sync_options)
              Mock.start) as [[out w'] tr] eqn:Hrun.
  destruct (@sync_survives_failed_pull_request (Mock.remote pull_rejected) Mock.runtime
              Mock.cloner Mock.sync_options Mock.start out w' tr Hrun)
    as (res & name & pre & msg & treeSha & parents & commit & req & e
        & -> & Hs & Hb & Hu & _).
  - apply (f_equal snd) in Hrun. cbn [snd] in Hrun. rewrite <- Hrun.
    vm_compute. reflexivity.
  - exists res, w', tr, name. repeat split; assumption.
Defined.

(* ================================================================== *)
(** * The drift check *)
(* ================================================================== *)

Section Drift.
Context {R : Remote} {rt : JsRuntime}.

Lemma templateClient_emits template octokit :
  emits is_console (templateClient template octokit).
Proof. unfold templateClient, safeDecrypt. emits_tac. Qed.

Lemma console_not_comparison e : is_console e = true -> is_comparison e = false.
Proof. revert e. by_event_cases. Qed.

Lemma checkUpdates_inv project template octokit projectOwner projectRepo
    templateOwner templateRepo w resp w' tr u :
  run (checkUpdates project template octokit projectOwner projectRepo
         templateOwner templateRepo) w = (Ok resp, w', tr) ->
  rs_body resp = UpdateBody u ->
  exists tcl latest rest history pre post,
    tr = (pre
          ++ [ EvCall (Repos_listCommits tcl templateOwner
                         (Js.replace_first ".git" "" templateRepo)
                         (Some (Js.or_else (branch template) "main")) 1)
                 (Ok (latest :: rest));
               EvCall (Repos_listCommits octokit projectOwner
                         (Js.replace_first ".git" "" projectRepo) None 100)
                 (Ok history) ]
          ++ post)%list
    /\ forallb is_console pre = true
    /\ rs_status resp = 200
    /\ hasUpdates u
       = date_gt (Date_parse (author_date latest ""))
           match anchor_of history with
           | Some c => Date_parse (author_date c "")
           | None => Some (createdAt project)
           end
    /\ latestCommit u = Some (latest_of latest)
    /\ match hasUpdates u,
             match anchor_of history with
             | Some c => Js.match_template_sha (ci_message c)
             | None => None
             end with
       | true, Some base =>
           exists r,
             post = (EvCall (Repos_compareCommits tcl templateOwner
                               (Js.replace_first ".git" "" templateRepo)
                               base (ci_sha latest)) r
                     :: match r with
                        | Ok _ => []
                        | Err e => [EvConsole LError ("Error comparing commits:" ++ " "
                                                      ++ message e)]
                        end)
             /\ changedFiles u = match r with
                                 | Ok comparison => Some (default (cmp_files comparison) [])
                                 | Err _ => None
                                 end
       | true, None =>
           post = []
           /\ changedFiles u = Some ["All files (first sync or template SHA not found)"]
       | false, _ => post = [] /\ changedFiles u = None
       end.
Proof.
  intros H Hbody. unfold checkUpdates in H.
  apply run_bind_inv in H as [(tcl & w1 & t1 & t2 & H1 & H & ->)|(e & _ & ?)];
    [|discriminate].
  pose proof (templateClient_emits template octokit w) as E1.
  rewrite H1 in E1. cbn [snd] in E1.
  apply run_bind_inv in H as [(commits & w2 & t3 & t4 & H2 & H & ->)|(e & _ & ?)];
    [|discriminate].
  apply run_await_inv in H2 as [H2 ->].
  destruct commits as [|latest rest].
  { injection H as <- _ _. discriminate. }
  apply run_bind_inv in H as [(history & w3 & t5 & t6 & H3 & H & ->)|(e & _ & ?)];
    [|discriminate].
  apply run_await_inv in H3 as [H3 ->].
  cbv zeta in H. fold (anchor_of history) in H.
  remember (match anchor_of history with
            | Some c => Js.match_template_sha (ci_message c)
            | None => None
            end) as base eqn:Ebase.
  remember (date_gt (Date_parse (author_date latest ""))
              match anchor_of history with
              | Some c => Date_parse (author_date c "")
              | None => Some (createdAt project)
              end) as hu eqn:Ehu.
  apply run_bind_inv in H as [(changed & w4 & t7 & t8 & H4 & H & ->)|(e & _ & ?)];
    [|discriminate].
  injection H as <- _ <-. injection Hbody as <-. cbn [hasUpdates latestCommit changedFiles].
  exists tcl, latest, rest, history, t1, t7.
  rewrite <- Ehu, <- Ebase. clear Ehu Ebase.
  split; [rewrite app_nil_r; norm_app; reflexivity|].
  split; [exact E1|].
  split; [reflexivity|]. split; [reflexivity|]. split; [reflexivity|].
  destruct hu, base as [b|]; cbv beta iota in H4.
  - cbn -[append] in H4. destruct (handle _ w3) as [[cmp|e] w5]; cbn -[append] in H4;
      injection H4 as <- _ <-.
    + exists (Ok cmp). split; reflexivity.
    + exists (Err e). split; reflexivity.
  - injection H4 as <- _ <-. split; reflexivity.
  - injection H4 as <- _ <-. split; reflexivity.
  - injection H4 as <- _ <-. split; reflexivity.
Qed.

(** A drift check that answers with an update report has found the
    project and its template and has run the check proper. *)
Lemma GET_inv id w resp w' tr u :
  run (GET id) w = (Ok resp, w', tr) ->
  rs_body resp = UpdateBody u ->
  exists session project template account projectOwner projectRepo templateOwner templateRepo
         w1 tc,
    let userId := default session "" in
    let token := match account with Some a => access_token a | None => None end in
    githubTemplate project = Some template
    /\ run (checkUpdates project template (mkOctokit token) projectOwner projectRepo
              templateOwner templateRepo) w1 = (Ok resp, w', tc)
    /\ tr = ([ EvCall Auth_session (Ok session);
               EvCall (Prisma_project_findFirst id userId) (Ok (Some project));
               EvCall (Prisma_account_findFirst userId "github") (Ok account) ]
             ++ tc)%list.
Proof.
  intros H Hbody. unfold GET in H.
  apply run_bind_inv in H as [(session & w1 & t1 & t2 & H1 & H & ->)|(e & _ & ?)];
    [|discriminate].
  apply run_await_inv in H1 as [H1 ->].
  destruct (negb (Js.truthy session)).
  { injection H as <- _ _. discriminate. }
  apply run_try_catch_inv in H as [(resp' & H & Hr)|(e & w2 & t3 & t4 & _ & H & _)].
  2:{ rewrite run_bind, run_console2 in H. cbn in H. injection H as <- _ _. discriminate. }
  injection Hr as <-. unfold findAndCheck in H.
  apply run_bind_inv in H as [(project & w2 & t3 & t4 & H2 & H & ->)|(e & _ & ?)];
    [|discriminate].
  apply run_await_inv in H2 as [H2 ->].
  destruct project as [project|].
  2:{ injection H as <- _ _. discriminate. }
  destruct (githubTemplate project) as [template|] eqn:Etpl.
  2:{ injection H as <- _ _. discriminate. }
  destruct (negb (Js.truthy (githubRepo project))).
  { injection H as <- _ _. discriminate. }
  apply run_bind_inv in H as [(account & w3 & t5 & t6 & H3 & H & ->)|(e & _ & ?)];
    [|discriminate].
  apply run_await_inv in H3 as [H3 ->].
  cbv zeta in H.
  destruct (negb (Js.truthy _)).
  { injection H as <- _ _. discriminate. }
  destruct (Js.match_github_url (default (githubRepo project) ""))
    as [[projectOwner projectRepo]|].
  2:{ injection H as <- _ _. discriminate. }
  destruct (Js.match_github_url (githubUrl template)) as [[templateOwner templateRepo]|].
  2:{ injection H as <- _ _. discriminate. }
  exists session, project, template, account, projectOwner, projectRepo,
    templateOwner, templateRepo, w3, t6.
  cbv zeta. split; [exact Etpl|]. split; [exact H|reflexivity].
Qed.

End Drift.


Lemma anchor_of_anchor history c : is_anchor history c -> anchor_of history = Some c.
Proof.
  intros (newer & older & -> & Hc & Hn). unfold anchor_of.
  induction Hn as [|x newer Hx _ IH]; simpl.
  - rewrite Hc. reflexivity.
  - rewrite Hx. exact IH.
Qed.


Section Report.
Context {R : Remote} {rt : JsRuntime}.

(** What a drift check that answers with an update report has done and
    what it reports. *)
Lemma GET_report (id : string) (w : World) resp w' tr u :
  run (GET id) w = (Ok resp, w', tr) ->
  rs_body resp = UpdateBody u ->
  exists project latest rest history,
    project_rows tr = [project]
    /\ listed_commits tr = [latest :: rest; history]
    /\ hasUpdates u
       = date_gt (Date_parse (author_date latest ""))
           match anchor_of history with
           | Some c => Date_parse (author_date c "")
           | None => Some (createdAt project)
           end
    /\ match hasUpdates u,
             match anchor_of history with
             | Some c => Js.match_template_sha (ci_message c)
             | None => None
             end with
       | true, Some base => existsb is_comparison tr = true
       | true, None =>
           existsb is_comparison tr = false
           /\ changedFiles u = Some ["All files (first sync or template SHA not found)"]
       | false, _ => existsb is_comparison tr = false /\ changedFiles u = None
       end.
Proof.
  intros H Hbody.
  apply GET_inv with (u := u) in H; [|assumption].
  destruct H as (session & project & template & account & pO & pR & tO & tR & w1 & tc
                 & _ & Hc & ->).
  apply checkUpdates_inv with (u := u) in Hc; [|assumption].
  destruct Hc as (tcl & latest & rest & history & pre & post & -> & Epre & _ & Hu & _ & Hpost).
  assert (Epost : forallb (fun e => is_console e || is_comparison e) post = true).
  { destruct (hasUpdates u);
      [destruct (match anchor_of history with Some c => _ | None => None end)|].
    - destruct Hpost as ([cmp|e] & -> & _); reflexivity.
    - destruct Hpost as [-> _]; reflexivity.
    - destruct Hpost as [-> _]; reflexivity. }
  assert (Ecmp : existsb is_comparison pre = false)
    by (apply (existsb_none is_console is_comparison _ console_not_comparison Epre)).
  exists project, latest, rest, history.
  split.
  { unfold project_rows.
    repeat first [ rewrite collect_app | rewrite collect_cons
                 | progress cbn [app ev_project_row] ].
    rewrite (collect_none ev_project_row is_console pre) by (assumption || by_event_cases).
    rewrite (collect_none ev_project_row (fun e => is_console e || is_comparison e) post)
      by (assumption || by_event_cases).
    reflexivity. }
  split.
  { unfold listed_commits.
    repeat first [ rewrite collect_app | rewrite collect_cons
                 | progress cbn [app ev_listed_commits] ].
    rewrite (collect_none ev_listed_commits is_console pre) by (assumption || by_event_cases).
    rewrite (collect_none ev_listed_commits (fun e => is_console e || is_comparison e) post)
      by (assumption || by_event_cases).
    reflexivity. }
  split; [exact Hu|].
  cbn [app existsb is_comparison orb]. rewrite !existsb_app, Ecmp.
  cbn [existsb is_comparison orb].
  destruct (hasUpdates u);
    [destruct (match anchor_of history with Some c => _ | None => None end)|].
  - destruct Hpost as (r & -> & _). reflexivity.
  - destruct Hpost as [-> Hch]. split; [reflexivity|assumption].
  - destruct Hpost as [-> Hch]. split; [reflexivity|assumption].
Qed.

End Report.




(* ================================================================== *)
(** * Commit messages *)
(* ================================================================== *)

Lemma commit_message_forallb p tr :
  forallb (commit_message_is p) tr = forallb p (commit_messages tr).
Proof.
  unfold commit_messages. induction tr as [|e tr IH]; [reflexivity|].
  rewrite collect_cons. cbn [forallb]. unfold commit_message_is at 1.
  destruct (ev_commit_message e); cbn [forallb]; rewrite IH; reflexivity.
Qed.

Lemma not_a_commit_message_is p (q : Event -> bool) :
  (forall e, q e = true -> ev_commit_message e = None) ->
  forall e, q e = true -> commit_message_is p e = true.
Proof. intros H e He. unfold commit_message_is. rewrite (H e He). reflexivity. Qed.

Lemma defaultCommitMessage_has_trailer owner repo latest :
  Js.includes (defaultCommitMessage owner repo latest) "template-sha: " = true.
Proof.
  unfold defaultCommitMessage. do 6 apply includes_app_r. apply includes_prefix.
Qed.

Section Messages.
Context {R : Remote} {rt : JsRuntime}.
Variable self : GitHubRepoCloner.
Variable options : SyncOptions.t.

(** The commits of a sync all carry the message step 10 computes. *)
Lemma syncWithTemplate_commit_messages (p : string -> bool) :
  (forall t, p (syncCommitMessage options t) = true) ->
  emits (commit_message_is p) (syncWithTemplate self options).
Proof.
  intros Hp. unfold syncWithTemplate. emits_tac.
  - eapply emits_weaken; [|apply syncResolve_emits].
    apply not_a_commit_message_is. by_event_cases.
  - eapply emits_weaken; [|apply getAllFiles_emits].
    apply not_a_commit_message_is. by_event_cases.
  - unfold syncFiles. emits_tac.
    + eapply emits_weaken; [|apply syncCheckout_emits].
      apply not_a_commit_message_is. by_event_cases.
    + eapply emits_weaken; [|apply syncBuildTree_emits].
      apply not_a_commit_message_is. by_event_cases.
    + unfold syncDeliver, createCommit.
      apply emits_bind.
      * apply emits_await. intros r. unfold commit_message_is. cbn. apply Hp.
      * intros commit. emits_tac.
  - unfold syncFailed. emits_tac.
Qed.

End Messages.

(** C10.  A sync that is given a non-empty commit message uses exactly
    that message for the commit it creates and adds nothing to it; a sync
    that is given none writes the [template-sha:] trailer.  For a later
    drift check the consequence is this: when the anchor it finds is a
    commit whose message is the given one and that message holds no
    [template-sha:] followed by forty hexadecimal digits, the check has no
    template sha to compare from: it asks for no comparison and, if it
    reports updates, reports all files. *)
Theorem sync_custom_commit_message {R : Remote} {rt : JsRuntime}
    (self : GitHubRepoCloner) (options : SyncOptions.t) (m : string) :
  SyncOptions.commitMessage options = Some m ->
  m <> "" ->
  (forall w : World,
     Forall (fun msg => msg = m)
       (commit_messages (trace (syncWithTemplate self options) w)))
  /\ (forall options', Js.truthy (SyncOptions.commitMessage options') = false ->
      forall w : World,
        Forall (fun msg => Js.includes msg "template-sha: " = true)
          (commit_messages (trace (syncWithTemplate self options') w)))
  /\ (forall id (w : World) resp w' tr u latest rest history c,
        run (GET id) w = (Ok resp, w', tr) ->
        rs_body resp = UpdateBody u ->
        listed_commits tr = [latest :: rest; history] ->
        is_anchor history c ->
        ci_message c = m ->
        Js.match_template_sha m = None ->
        existsb is_comparison tr = false
        /\ changedFiles u
           = if hasUpdates u
             then Some ["All files (first sync or template SHA not found)"]
             else None).
Proof.
  intros Hm Hne. split; [|split].
  - intros w.
    pose proof (@syncWithTemplate_commit_messages R rt self options (String.eqb m)) as H.
    unfold trace. specialize (H ltac:(intros t; unfold syncCommitMessage; rewrite Hm;
      cbn [Js.truthy default]; destruct (String.eqb_spec m ""); [contradiction|];
      cbn [negb]; apply String.eqb_refl) w).
    rewrite commit_message_forallb in H. rewrite forallb_forall in H.
    apply Forall_forall. intros msg Hin. specialize (H msg Hin).
    apply String.eqb_eq in H. congruence.
  - intros options' Hfalsy w.
    pose proof (@syncWithTemplate_commit_messages R rt self options'
                  (fun msg => Js.includes msg "template-sha: ")) as H.
    unfold trace. specialize (H ltac:(intros t; unfold syncCommitMessage; rewrite Hfalsy;
      apply defaultCommitMessage_has_trailer) w).
    rewrite commit_message_forallb in H. rewrite forallb_forall in H.
    apply Forall_forall. exact H.
  - intros id w resp w' tr u latest rest history c Hrun Hbody Hl Hanchor Hmsg Hnone.
    destruct (GET_report id w Hrun Hbody)
      as (project & latest' & rest' & history' & _ & Hl' & _ & Hrep).
    rewrite Hl in Hl'. injection Hl' as _ _ <-.
    rewrite (anchor_of_anchor Hanchor), Hmsg, Hnone in Hrep.
    destruct (hasUpdates u); exact Hrep.
Qed.

Lemma sync_custom_commit_message_witness :
  commit_messages
    (trace (R := Mock.remote Mock.quiet)
       (syncWithTemplate (rt := Mock.runtime) Mock.cloner custom_options) Mock.start)
  = [custom_message]
  /\ exists resp w' tr u,
       run (R := Mock.remote customised) (GET (rt := Mock.runtime) "p1") Mock.start
       = (Ok resp, w', tr)
       /\ rs_body resp = UpdateBody u
       /\ existsb is_comparison tr = false
       /\ changedFiles u
          = if hasUpdates u
            then Some ["All files (first sync or template SHA not found)"]
            else None.
Proof.
  destruct (@sync_custom_commit_message (Mock.remote Mock.quiet) Mock.runtime
              Mock.cloner custom_options custom_message eq_refl ltac:(discriminate))
    as (Hmsg & _ & _).
  destruct (@sync_custom_commit_message (Mock.remote customised) Mock.runtime
              Mock.cloner custom_options custom_message eq_refl ltac:(discriminate))
    as (_ & _ & Hdrift).
  split.
  - specialize (Hmsg Mock.start).
    remember (commit_messages _) as msgs eqn:E in Hmsg |- *.
    vm_compute in E. subst msgs. reflexivity.
  - do 4 eexists.
    assert (Hrun : run (R := Mock.remote customised) (GET (rt := Mock.runtime) "p1")
                     Mock.start = (Ok ?[resp], ?[w'], ?[tr]))
      by (vm_compute; reflexivity).
    lazymatch type of Hrun with
    | _ = (Ok ?r, _, _) => assert (Hbody : rs_body r = UpdateBody ?[u]) by reflexivity
    end.
    split; [exact Hrun|]. split; [exact Hbody|].
    eapply (Hdrift "p1" Mock.start _ _ _ _ _ _ custom_history
              (Mock.commit_at "c2" custom_message "2024-05-03T00:00:00Z") Hrun Hbody).
    + vm_compute. reflexivity.
    + exists [], [Mock.commit_at "c1" "Initial commit" "2024-05-01T00:00:00Z"].
      split; [reflexivity|]. split; [vm_compute; reflexivity|constructor].
    + reflexivity.
    + vm_compute. reflexivity.
Defined.


(* ================================================================== *)
(** * Repository URLs and sha trailers *)
(* ================================================================== *)

Lemma match_github_url_unfold (s : string) :
  Js.match_github_url s
  = match github_url_here s with
    | Some r => Some r
    | None =>
        match s with
        | EmptyString => None
        | String _ rest => Js.match_github_url rest
        end
    end.
Proof. destruct s; reflexivity. Qed.

Lemma match_template_sha_unfold (s : string) :
  Js.match_template_sha s
  = match template_sha_here s with
    | Some sha => Some sha
    | None =>
        match s with
        | EmptyString => None
        | String _ rest => Js.match_template_sha rest
        end
    end.
Proof. destruct s; reflexivity. Qed.

Lemma match_literal_exact (lit s rest : string) :
  Js.match_literal false lit s = Some rest -> s = lit ++ rest.
Proof.
  revert s. induction lit as [|a lit IH]; intros s H; simpl in H.
  - injection H as ->. reflexivity.
  - destruct s as [|b s]; [discriminate|].
    unfold Js.char_eq in H. destruct (Ascii.eqb a b) eqn:E; [|discriminate].
    apply Ascii.eqb_eq in E. subst b. simpl. f_equal. apply IH. assumption.
Qed.

Lemma span_spec (cls : ascii -> bool) (s a b : string) :
  Js.span cls s = (a, b) ->
  s = a ++ b /\ all_chars cls a = true /\ stops cls b = true.
Proof.
  revert a b. induction s as [|c s IH]; intros a b H; simpl in H.
  - injection H as <- <-. repeat split.
  - destruct (cls c) eqn:E.
    + destruct (Js.span cls s) as [a' b'] eqn:Es. injection H as <- <-.
      destruct (IH a' b' eq_refl) as (-> & Ha & Hb).
      repeat split; [simpl; rewrite E; assumption|assumption].
    + injection H as <- <-. repeat split. simpl. rewrite E. reflexivity.
Qed.

Lemma span_app (cls : ascii -> bool) (a b : string) :
  all_chars cls a = true -> stops cls b = true -> Js.span cls (a ++ b) = (a, b).
Proof.
  intros Ha Hb. induction a as [|c a IH]; simpl in *.
  - destruct b as [|c b]; [reflexivity|]. simpl in Hb. simpl.
    destruct (cls c); [discriminate|reflexivity].
  - apply andb_true_iff in Ha as [Hc Ha]. rewrite Hc, (IH Ha). reflexivity.
Qed.

Lemma replace_first_no_dot (r : string) :
  all_chars not_dot r = true -> Js.replace_first ".git" "" r = r.
Proof.
  induction r as [|c r IH]; intro H; [reflexivity|].
  simpl in H. apply andb_true_iff in H as [Hc Hr].
  cbn [Js.replace_first prefix].
  destruct (ascii_dec "." c) as [<-|_]; [discriminate|].
  f_equal. apply IH. assumption.
Qed.

Lemma repo_char_not_dot (r : string) :
  all_chars Js.repo_char r = true -> all_chars not_dot r = true.
Proof.
  induction r as [|c r IH]; intro H; [reflexivity|].
  simpl in *. apply andb_true_iff in H as [Hc Hr]. rewrite (IH Hr), andb_true_r.
  unfold Js.repo_char in Hc. unfold not_dot.
  destruct (Ascii.eqb c "."); [|reflexivity].
  rewrite !orb_true_r in Hc. discriminate.
Qed.

Lemma includes_cons (c : ascii) (h n : string) :
  Js.includes h n = true -> Js.includes (String c h) n = true.
Proof.
  intro H. change (String c h) with (String c EmptyString ++ h).
  apply includes_app_r. assumption.
Qed.

Lemma github_url_here_shape (s o r : string) :
  github_url_here s = Some (o, r) ->
  exists rest,
    s = ("github.com/" ++ o ++ "/" ++ r) ++ rest
    /\ o <> "" /\ all_chars Js.not_slash o = true
    /\ r <> "" /\ all_chars Js.repo_char r = true
    /\ stops Js.repo_char rest = true.
Proof.
  unfold github_url_here. intro H.
  destruct (Js.match_literal false "github.com/" s) as [rest|] eqn:El; [|discriminate].
  apply match_literal_exact in El.
  destruct (Js.span Js.not_slash rest) as [owner rest1] eqn:E1.
  destruct owner as [|c owner]; [discriminate|].
  destruct rest1 as [|c1 rest2]; [discriminate|].
  destruct (Ascii.eqb c1 "/") eqn:Ec; cycle 1.
  { exfalso. destruct c1 as [[] [] [] [] [] [] [] []]; try discriminate H.
    discriminate Ec. }
  apply Ascii.eqb_eq in Ec. subst c1.
  destruct (Js.span Js.repo_char rest2) as [repo rest3] eqn:E2.
  destruct repo as [|c2 repo]; [discriminate|].
  injection H as <- <-.
  apply span_spec in E1 as (-> & Ho & _).
  apply span_spec in E2 as (-> & Hr & Hs).
  exists rest3. subst s.
  split.
  { rewrite !append_assoc. reflexivity. }
  repeat split; try assumption; discriminate.
Qed.

(** X1.  Whatever the URL, the owner and repository that the routes read
    from it are non-empty, occur in the URL as [github.com/owner/repo],
    the owner holds no [/] and the repository holds no [/], [?] or [.],
    so that the [replace('.git', '')] that follows never changes it. *)
Theorem match_github_url_shape (url o r : string) :
  Js.match_github_url url = Some (o, r) ->
  Js.includes url ("github.com/" ++ o ++ "/" ++ r) = true
  /\ o <> "" /\ all_chars Js.not_slash o = true
  /\ r <> "" /\ all_chars Js.repo_char r = true
  /\ Js.replace_first ".git" "" r = r.
Proof.
  induction url as [|c url IH]; rewrite match_github_url_unfold.
  - cbn. discriminate.
  - destruct (github_url_here (String c url)) as [[o' r']|] eqn:E.
    + intro H. injection H as -> ->.
      apply github_url_here_shape in E as (rest & -> & Ho & Ho' & Hr & Hr' & _).
      split; [apply includes_prefix|].
      repeat split; try assumption.
      apply replace_first_no_dot, repo_char_not_dot. assumption.
    + intro H. destruct (IH H) as (Hi & Hrest).
      split; [apply includes_cons; assumption|assumption].
Qed.

Lemma match_github_url_shape_witness :
  Js.match_github_url "git@github.com/acme/my.template.git" = Some ("acme", "my")
  /\ Js.replace_first ".git" "" "my" = "my".
Proof.
  split; [reflexivity|].
  apply (@match_github_url_shape "git@github.com/acme/my.template.git" "acme" "my").
  reflexivity.
Defined.

(** X2.  The URL [https://github.com/owner/repo], followed by nothing or
    by something that begins with [/], [?] or [.], is read back as
    [owner] and [repo]: a [.git] suffix is dropped, and so is everything
    after the first dot of a repository name. *)
Theorem match_github_url_of_https (o r suffix : string) :
  o <> "" -> all_chars Js.not_slash o = true ->
  r <> "" -> all_chars Js.repo_char r = true ->
  stops Js.repo_char suffix = true ->
  Js.match_github_url ("https://github.com/" ++ o ++ "/" ++ r ++ suffix) = Some (o, r).
Proof.
  intros Ho Ho' Hr Hr' Hs.
  do 8 (rewrite match_github_url_unfold; cbn [append github_url_here Js.match_literal
          Js.char_eq Ascii.eqb Bool.eqb]).
  rewrite match_github_url_unfold.
  unfold github_url_here. cbn [Js.match_literal Js.char_eq Ascii.eqb Bool.eqb].
  rewrite (@span_app Js.not_slash o (String "/" (r ++ suffix)) Ho' eq_refl).
  destruct o as [|c o]; [contradiction|].
  rewrite (@span_app Js.repo_char r suffix Hr' Hs).
  destruct r as [|c' r]; [contradiction|]. reflexivity.
Qed.

Lemma match_github_url_of_https_witness :
  Js.match_github_url ("https://github.com/" ++ "octo" ++ "/" ++ "app" ++ ".git")
  = Some ("octo", "app").
Proof.
  apply match_github_url_of_https; try discriminate; reflexivity.
Defined.

Lemma match_literal_newline (lit x rest : string) :
  all_chars (fun a => negb (Js.char_eq true a newline)) lit = true ->
  Js.match_literal true lit (x ++ String newline rest)
  = option_map (fun r => r ++ String newline rest) (Js.match_literal true lit x).
Proof.
  revert x. induction lit as [|a lit IH]; intros x H; [reflexivity|].
  cbn [all_chars] in H. apply andb_true_iff in H as [Ha Hl].
  destruct x as [|b x]; cbn [append Js.match_literal].
  - apply negb_true_iff in Ha. rewrite Ha. reflexivity.
  - destruct (Js.char_eq true a b); [apply IH; assumption|reflexivity].
Qed.

Lemma take_hex_newline (n : nat) (x rest : string) :
  Js.take_hex n (x ++ String newline rest) = Js.take_hex n x.
Proof.
  revert x. induction n as [|n IH]; intro x; [reflexivity|].
  destruct x as [|c x]; cbn [append Js.take_hex]; [reflexivity|].
  destruct (Js.is_hex c); [rewrite IH|]; reflexivity.
Qed.

Lemma template_sha_here_newline (x rest : string) :
  template_sha_here (x ++ String newline rest) = template_sha_here x.
Proof.
  unfold template_sha_here. rewrite match_literal_newline by reflexivity.
  destruct (Js.match_literal true "template-sha: " x) as [r|]; [|reflexivity].
  apply take_hex_newline.
Qed.

(** A line break ends every attempt to read a trailer. *)
Lemma match_template_sha_newline (x rest : string) :
  Js.match_template_sha (x ++ String newline rest)
  = match Js.match_template_sha x with
    | Some sha => Some sha
    | None => Js.match_template_sha (String newline rest)
    end.
Proof.
  induction x as [|c x IH].
  - reflexivity.
  - rewrite (match_template_sha_unfold (String c x)).
    rewrite (match_template_sha_unfold (String c x ++ String newline rest)).
    rewrite template_sha_here_newline.
    destruct (template_sha_here (String c x)); [reflexivity|].
    cbn [append]. apply IH.
Qed.

Lemma match_template_sha_skip (c : ascii) (s : string) :
  template_sha_here (String c s) = None ->
  Js.match_template_sha (String c s) = Js.match_template_sha s.
Proof. intro H. rewrite match_template_sha_unfold, H. reflexivity. Qed.

Ltac skip_no_trailer :=
  repeat (rewrite match_template_sha_skip by reflexivity).

(** X3.  The commit message a sync writes by default is read back by the
    drift check: when the latest template commit has a forty-digit sha
    and the names of the template hold no trailer of their own, the sha
    that [match_template_sha] finds in the message is that sha. *)
Theorem template_sha_round_trip (sourceOwner sourceRepo : string) (latest : CommitItem) :
  is_sha (ci_sha latest) ->
  Js.match_template_sha (sourceOwner ++ "/" ++ sourceRepo) = None ->
  Js.match_template_sha (defaultCommitMessage sourceOwner sourceRepo latest)
  = Some (ci_sha latest).
Proof.
  intros Hsha Hnames. unfold defaultCommitMessage, nl.
  cbn [append]. skip_no_trailer.
  change (sourceOwner ++ String "/" (sourceRepo
            ++ String (ascii_of_nat 10) (String (ascii_of_nat 10)
                 (String "t" (String "e" (String "m" (String "p" (String "l" (String "a"
                 (String "t" (String "e" (String "-" (String "s" (String "h" (String "a"
                 (String ":" (String " " (ci_sha latest))))))))))))))))))
    with (sourceOwner ++ "/" ++ (sourceRepo
            ++ String newline (String newline ("template-sha: " ++ ci_sha latest)))).
  rewrite <- !append_assoc.
  rewrite match_template_sha_newline.
  rewrite append_assoc, Hnames.
  skip_no_trailer.
  rewrite match_template_sha_unfold.
  unfold template_sha_here. cbn [append].
  change (Js.match_literal true "template-sha: "
            (String "t" (String "e" (String "m" (String "p" (String "l" (String "a"
            (String "t" (String "e" (String "-" (String "s" (String "h" (String "a"
            (String ":" (String " " (ci_sha latest))))))))))))))))
    with (Some (ci_sha latest)).
  cbv beta iota. unfold is_sha in Hsha. rewrite Hsha. reflexivity.
Qed.

Lemma template_sha_round_trip_witness :
  Js.match_template_sha
    (defaultCommitMessage "acme" "template" (Mock.commit_at Mock.sha_b "add b" "2024"))
  = Some Mock.sha_b.
Proof.
  apply (@template_sha_round_trip "acme" "template"
           (Mock.commit_at Mock.sha_b "add b" "2024")); reflexivity.
Defined.

(* ================================================================== *)
(** * Which commits the drift check takes for syncs *)
(* ================================================================== *)

Lemma prefix_newline (n x rest : string) :
  all_chars (fun a => negb (Ascii.eqb a newline)) n = true ->
  prefix n (x ++ String newline rest) = prefix n x.
Proof.
  revert x. induction n as [|a n IH]; intros x H; [destruct x; reflexivity|].
  cbn [all_chars] in H. apply andb_true_iff in H as [Ha Hn].
  destruct x as [|b x]; cbn [append prefix].
  - destruct (ascii_dec a newline) as [->|_]; [discriminate|reflexivity].
  - destruct (ascii_dec a b); [apply IH; assumption|reflexivity].
Qed.

(** A needle without line break is found in a text either before a line
    break or from it on. *)
Lemma includes_newline (n x rest : string) :
  all_chars (fun a => negb (Ascii.eqb a newline)) n = true ->
  Js.includes (x ++ String newline rest) n
  = Js.includes x n || Js.includes (String newline rest) n.
Proof.
  intro Hn. induction x as [|c x IH].
  - cbn [append]. rewrite (includes_unfold "" n).
    destruct n as [|a n]; [reflexivity|reflexivity].
  - rewrite (includes_unfold (String c x ++ String newline rest)).
    rewrite (includes_unfold (String c x)).
    rewrite prefix_newline by assumption.
    destruct (prefix n (String c x)); [reflexivity|].
    cbn [append]. apply IH.
Qed.

Lemma includes_skip (a b : ascii) (n s : string) :
  a <> b -> Js.includes (String b s) (String a n) = Js.includes s (String a n).
Proof.
  intro H. rewrite includes_unfold. cbn [prefix].
  destruct (ascii_dec a b); [contradiction|reflexivity].
Qed.

Lemma take_hex_all (n : nat) (s h : string) :
  Js.take_hex n s = Some h -> all_chars Js.is_hex h = true.
Proof.
  revert s h. induction n as [|n IH]; intros s h H; simpl in H.
  - injection H as <-. reflexivity.
  - destruct s as [|c s]; [discriminate|].
    destruct (Js.is_hex c) eqn:Ec; [|discriminate].
    destruct (Js.take_hex n s) as [h'|] eqn:E; [|discriminate].
    injection H as <-. cbn [all_chars]. rewrite Ec. apply (IH s). assumption.
Qed.

Lemma includes_hex (s n : string) (a : ascii) :
  all_chars Js.is_hex s = true -> Js.is_hex a = false ->
  Js.includes s (String a n) = false.
Proof.
  intros Hs Ha. induction s as [|c s IH]; [reflexivity|].
  cbn [all_chars] in Hs. apply andb_true_iff in Hs as [Hc Hs].
  rewrite includes_skip; [apply IH; assumption|].
  intros ->. congruence.
Qed.

Ltac skip_chars :=
  repeat (rewrite includes_skip by discriminate).

Lemma default_message_includes (o r sha n : string) (a : ascii) :
  all_chars (fun c => negb (Ascii.eqb c newline)) (String a n) = true ->
  Js.is_hex a = false -> is_sha sha ->
  (forall tail, Js.includes ("Sync with template " ++ tail) (String a n)
                = Js.includes tail (String a n)) ->
  Js.includes (String newline (String newline ("template-sha: " ++ sha))) (String a n)
  = Js.includes sha (String a n) ->
  Js.includes ("Sync with template " ++ o ++ "/" ++ r ++ nl ++ nl ++ "template-sha: " ++ sha)
    (String a n)
  = Js.includes (o ++ "/" ++ r) (String a n).
Proof.
  intros Hn Ha Hsha Hhead Htail.
  rewrite Hhead.
  change (o ++ "/" ++ r ++ nl ++ nl ++ "template-sha: " ++ sha)
    with (o ++ "/" ++ (r ++ String newline (String newline ("template-sha: " ++ sha)))).
  rewrite <- !append_assoc. rewrite includes_newline by assumption.
  rewrite Htail, (@includes_hex sha n a), orb_false_r, append_assoc;
    [reflexivity| |assumption].
  apply (@take_hex_all 40 sha). assumption.
Qed.

(** X4.  A commit that carries the default message of a sync is taken for
    a sync by the drift check only when the names of the template happen
    to hold a marker: the message itself, [Sync with template ...] with
    its trailer, holds neither [sync-template] nor
    [Initial commit from template]. *)
Theorem default_message_is_no_marker (sourceOwner sourceRepo : string)
    (latest : CommitItem) (sha : string) (author : option Author) :
  is_sha (ci_sha latest) ->
  is_sync_marker
    (mkCommitItem sha (defaultCommitMessage sourceOwner sourceRepo latest) author)
  = Js.includes (sourceOwner ++ "/" ++ sourceRepo) "sync-template"
    || Js.includes (sourceOwner ++ "/" ++ sourceRepo) "Initial commit from template".
Proof.
  intro Hsha. unfold is_sync_marker, defaultCommitMessage. cbn [ci_message].
  rewrite (@default_message_includes sourceOwner sourceRepo (ci_sha latest)
             "ync-template" "s"); try reflexivity; try assumption.
  rewrite (@default_message_includes sourceOwner sourceRepo (ci_sha latest)
             "nitial commit from template" "I"); try reflexivity; try assumption.
  all: cbn [append]; skip_chars.
  all: rewrite includes_unfold.
  all: change (prefix "sync-template" (String "s" (String "h" (String "a" (String ":"
              (String " " (ci_sha latest))))))) with false.
  all: cbv iota; skip_chars; reflexivity.
Qed.

Lemma default_message_is_no_marker_witness :
  is_sync_marker
    (mkCommitItem "c9"
       (defaultCommitMessage "acme" "template" (Mock.commit_at Mock.sha_b "add b" "2024"))
       None)
  = false.
Proof.
  rewrite (@default_message_is_no_marker "acme" "template"
             (Mock.commit_at Mock.sha_b "add b" "2024") "c9" None); reflexivity.
Defined.

Lemma all_chars_app (cls : ascii -> bool) (a b : string) :
  all_chars cls (a ++ b) = all_chars cls a && all_chars cls b.
Proof.
  induction a as [|c a IH]; [reflexivity|].
  cbn [append all_chars]. rewrite IH, andb_assoc. reflexivity.
Qed.

Lemma all_chars_substring (cls : ascii -> bool) (n : nat) (s : string) :
  all_chars cls s = true -> all_chars cls (substring 0 n s) = true.
Proof.
  revert s. induction n as [|n IH]; intros s H.
  - destruct s; reflexivity.
  - destruct s as [|c s]; [reflexivity|].
    cbn [all_chars] in H. apply andb_true_iff in H as [Hc Hs].
    cbn [substring all_chars]. rewrite Hc. apply IH. assumption.
Qed.

Lemma length_append (a b : string) :
  String.length (a ++ b) = String.length a + String.length b.
Proof. induction a as [|c a IH]; [reflexivity|]. cbn [append String.length]. lia. Qed.

Lemma length_slice0 (n : nat) (s : string) : String.length (Js.slice0 n s) <= n.
Proof.
  unfold Js.slice0. revert s. induction n as [|n IH]; intro s.
  - destruct s; simpl; lia.
  - destruct s as [|c s]; cbn [substring String.length]; [lia|].
    specialize (IH s). lia.
Qed.

Lemma replace_class_clean (s : string) :
  all_chars (fun c => negb (colon_or_dot c)) (Js.replace_class colon_or_dot "-" s) = true.
Proof.
  induction s as [|c s IH]; [reflexivity|].
  cbn [Js.replace_class]. destruct (colon_or_dot c) eqn:E.
  - cbn [append all_chars]. assumption.
  - cbn [all_chars]. rewrite E. assumption.
Qed.

(** X5.  The branch a sync names itself starts with [sync-template-] and
    holds neither [:] nor [.], whatever the clock shows; so every commit
    message that mentions that branch, such as the message of the merge
    of its pull request, and every message that holds the title of the
    pull request, is a sync marker for the drift check. *)
Theorem generated_branch_is_marker (iso : string) :
  prefix "sync-template-" (generatedBranchName iso) = true
  /\ all_chars (fun c => negb (colon_or_dot c)) (generatedBranchName iso) = true
  /\ String.length (generatedBranchName iso) <= 33
  /\ (forall sha before after author,
        is_sync_marker
          (mkCommitItem sha (before ++ generatedBranchName iso ++ after) author) = true)
  /\ (forall options t files sha before after author,
        is_sync_marker
          (mkCommitItem sha (before ++ pq_title (syncPullReq options t files) ++ after)
             author) = true).
Proof.
  unfold generatedBranchName. split; [apply prefix_app|]. split; [|split; [|split]].
  - rewrite all_chars_app. cbn [all_chars]. unfold Js.slice0.
    apply all_chars_substring, replace_class_clean.
  - rewrite length_append. cbn [String.length].
    pose proof (length_slice0 19 (Js.replace_class colon_or_dot "-" iso)). lia.
  - intros sha before after author. unfold is_sync_marker. cbn [ci_message].
    apply orb_true_iff. left. apply includes_app_r.
    rewrite append_assoc.
    change ("sync-template-" ++ Js.slice0 19 (Js.replace_class colon_or_dot "-" iso) ++ after)
      with ("sync-template"
            ++ ("-" ++ Js.slice0 19 (Js.replace_class colon_or_dot "-" iso) ++ after)).
    apply includes_prefix.
  - intros options t files sha before after author. unfold is_sync_marker.
    cbn [ci_message syncPullReq pq_title].
    apply orb_true_iff. left. apply includes_app_r.
    rewrite append_assoc. cbn [append]. apply includes_cons.
    match goal with
    | |- Js.includes (String "s" ?rest) _ = true =>
        lazymatch rest with
        | context [String "]" ?tail] =>
            change (String "s" rest) with ("sync-template" ++ String "]" tail)
        end
    end.
    apply includes_prefix.
Qed.

(* ================================================================== *)
(** * Programs that cannot fail *)
(* ================================================================== *)

Section NeverThrows.
Context {R : Remote}.

Lemma never_throws_Ret A (a : A) : never_throws (Ret a).
Proof. intro w. reflexivity. Qed.

Lemma never_throws_Call A X (c : Api X) (k : Result X -> Prog A) :
  (forall r, never_throws (k r)) -> never_throws (Call c k).
Proof.
  intros H w. unfold outcome. simpl. destruct (handle c w) as [r w1].
  specialize (H r w1). unfold outcome in H.
  destruct (run (k r) w1) as [[out w2] t]. assumption.
Qed.

Lemma never_throws_Sleep A ms (k : Prog A) : never_throws k -> never_throws (Sleep ms k).
Proof.
  intros H w. unfold outcome. simpl. specialize (H w). unfold outcome in H.
  destruct (run k w) as [[out w2] t]. assumption.
Qed.

Lemma never_throws_Console A lvl text (k : Prog A) :
  never_throws k -> never_throws (Console lvl text k).
Proof.
  intros H w. unfold outcome. simpl. specialize (H w). unfold outcome in H.
  destruct (run k w) as [[out w2] t]. assumption.
Qed.

Lemma never_throws_bind A B (m : Prog A) (f : A -> Prog B) :
  never_throws m -> (forall a, never_throws (f a)) -> never_throws (bind m f).
Proof.
  intros Hm Hf w. unfold outcome. rewrite run_bind.
  specialize (Hm w). unfold outcome in Hm.
  destruct (run m w) as [[[a|e] w1] t1]; [|discriminate].
  specialize (Hf a w1). unfold outcome in Hf.
  destruct (run (f a) w1) as [[out w2] t2]. assumption.
Qed.

(** A [try] whose handler cannot fail cannot fail. *)
Lemma never_throws_try_catch A (m : Prog A) (h : JsError -> Prog A) :
  (forall e, never_throws (h e)) -> never_throws (try_catch m h).
Proof.
  intros Hh w. unfold outcome. rewrite run_try_catch.
  destruct (run m w) as [[[a|e] w1] t1]; [reflexivity|].
  specialize (Hh e w1). unfold outcome in Hh.
  destruct (run (h e) w1) as [[out w2] t2]. assumption.
Qed.

Lemma never_throws_settle_all A (ps : list (Prog A)) : never_throws (settle_all ps).
Proof.
  induction ps as [|p ps IH]; [apply never_throws_Ret|].
  cbn [settle_all]. apply never_throws_bind.
  - unfold settle. apply never_throws_try_catch. intro e. apply never_throws_Ret.
  - intro r. apply never_throws_bind; [assumption|]. intro rs. apply never_throws_Ret.
Qed.

Lemma never_throws_for_of A S (xs : list A) (body : A -> S -> Prog S) :
  (forall x acc, never_throws (body x acc)) -> forall acc, never_throws (for_of xs body acc).
Proof.
  intros Hb. induction xs as [|x xs IH]; intro acc; [apply never_throws_Ret|].
  cbn [for_of]. apply never_throws_bind; [apply Hb|]. intro acc'. apply IH.
Qed.

Lemma never_throws_for_batches A S fuel (xs : list A) delay batchSize
    (body : list A -> S -> Prog S) :
  (forall batch acc, never_throws (body batch acc)) ->
  forall i acc, never_throws (for_batches fuel i batchSize xs delay body acc).
Proof.
  intros Hb. induction fuel as [|fuel IH]; intros i acc; [apply never_throws_Ret|].
  cbn [for_batches]. destruct (Nat.ltb i (List.length xs)); [|apply never_throws_Ret].
  apply never_throws_bind; [apply Hb|]. intro acc'.
  apply never_throws_bind; [|intro; apply IH].
  destruct (Nat.ltb _ _); [apply never_throws_Sleep|]; apply never_throws_Ret.
Qed.

Lemma never_throws_run A (p : Prog A) w e w' tr :
  never_throws p -> run p w = (Err e, w', tr) -> False.
Proof.
  intros H E. specialize (H w). unfold outcome in H. rewrite E in H. discriminate.
Qed.

End NeverThrows.

Ltac never_throws_step :=
  match goal with
  | |- never_throws (Ret _) => apply never_throws_Ret
  | |- never_throws (Console _ _ _) => apply never_throws_Console
  | |- never_throws (Sleep _ _) => apply never_throws_Sleep
  | |- never_throws (Call _ _) => apply never_throws_Call; intros [?|?]
  | |- never_throws (console _ _) => unfold console
  | |- never_throws (console2 _ _ _) => unfold console2, console
  | |- never_throws (sleep _) => unfold sleep
  | |- never_throws (bind _ _) => apply never_throws_bind; [|intro]
  | |- never_throws (if ?b then _ else _) => destruct b
  | |- never_throws (match ?x with _ => _ end) => destruct x
  end.

Ltac never_throws_tac := repeat never_throws_step.

(* ================================================================== *)
(** * The tasks of a batch loop *)
(* ================================================================== *)

Section Batches.
Context {R : Remote}.
Variables A B C : Type.
Variable g : A -> Prog B.
Variable post : list B -> list C.
Hypothesis post_nil : post [] = [].
Hypothesis post_app : forall a b, post (a ++ b)%list = (post a ++ post b)%list.

Lemma settle_all_steps (xs : list A) w out w' tr :
  run (settle_all (map g xs)) w = (out, w', tr) ->
  exists steps,
    out = Ok (map (fun s => snd (fst s)) steps)
    /\ map (fun s => fst (fst s)) steps = xs
    /\ Forall (step_of g) steps
    /\ tr = flat_map snd steps.
Proof.
  revert w out w' tr. induction xs as [|x xs IH]; intros w out w' tr; simpl.
  - intros H; inversion H; subst. exists []. repeat split. constructor.
  - rewrite run_bind, run_settle.
    destruct (run (g x) w) as [[r w1] t1] eqn:Ex.
    rewrite run_bind.
    destruct (run (settle_all (map g xs)) w1) as [[out2 w2] t2] eqn:Exs.
    destruct (IH _ _ _ _ Exs) as (steps & -> & Hxs & HF & ->). simpl.
    intros H; inversion H; subst. exists ((x, r, t1) :: steps).
    split; [reflexivity|]. split; [reflexivity|].
    split; [constructor; [exists w, w1; assumption|assumption]|].
    cbn [flat_map snd]. rewrite app_nil_r. reflexivity.
Qed.

(** The tasks of a fulfilled [Promise.all] have all been fulfilled, and
    its trace is theirs, one after the other. *)
Lemma Promise_all_steps (xs : list A) w ys w' tr :
  run (Promise_all (map g xs)) w = (Ok ys, w', tr) ->
  exists steps,
    map (fun s => snd (fst s)) steps = map Ok ys
    /\ map (fun s => fst (fst s)) steps = xs
    /\ Forall (step_of g) steps
    /\ tr = flat_map snd steps.
Proof.
  unfold Promise_all. rewrite run_bind.
  destruct (run (settle_all (map g xs)) w) as [[out w1] t1] eqn:E.
  destruct (settle_all_steps _ _ E) as (steps & -> & Hxs & HF & ->).
  destruct (first_error _) eqn:Efe; simpl; [discriminate|].
  intros H; inversion H; subst. exists steps.
  rewrite app_nil_r. repeat split; try assumption.
  apply first_error_none_values. assumption.
Qed.

Let body (batch : list A) (acc : list C) : Prog (list C) :=
  ys <- Promise_all (map g batch) ;; Ret (acc ++ post ys)%list.

(** A batch loop that ends well has run one task for each item from
    index [i] on, in order; waits apart, its trace is theirs. *)
Lemma for_batches_steps (xs : list A) delay fuel :
  forall i acc w out w' tr,
    List.length xs <= i + 5 * fuel ->
    run (for_batches fuel i 5 xs delay body acc) w = (Ok out, w', tr) ->
    exists steps ys,
      map (fun s => snd (fst s)) steps = map Ok ys
      /\ map (fun s => fst (fst s)) steps = skipn i xs
      /\ Forall (step_of g) steps
      /\ out = (acc ++ post ys)%list
      /\ (forall D (f : Event -> option D),
            (forall ms, f (EvSleep ms) = None) ->
            collect f tr = flat_map (fun s => collect f (snd s)) steps)
      /\ (forall s e, In s steps -> In e (snd s) -> In e tr).
Proof.
  induction fuel as [|fuel IH]; intros i acc w out w' tr Hlen; simpl.
  - intros H; inversion H; subst. exists [], [].
    rewrite skipn_all2 by lia. rewrite post_nil, app_nil_r.
    repeat split; try constructor. intros s e [].
  - destruct (Nat.ltb_spec i (List.length xs)) as [Hi|Hi].
    + rewrite run_bind. unfold body at 1. rewrite run_bind.
      destruct (run (Promise_all _) w) as [[[ys1|e] w1] t1] eqn:Eb; [|discriminate].
      cbn [run]. cbv beta iota. rewrite app_nil_r.
      apply Promise_all_steps in Eb as (steps1 & Hys1 & Hxs1 & HF1 & ->).
      rewrite run_bind.
      destruct (run (if Nat.ltb (i + 5) (List.length xs) then sleep delay else Ret tt) w1)
        as [[[[]|e] w2] t2] eqn:Es.
      2:{ destruct (Nat.ltb (i + 5) (List.length xs)); simpl in Es; discriminate. }
      assert (Ht2 : forall D (f : Event -> option D),
                 (forall ms, f (EvSleep ms) = None) -> collect f t2 = []).
      { intros D f Hf. destruct (Nat.ltb (i + 5) (List.length xs)); simpl in Es;
          inversion Es; subst; [|reflexivity].
        unfold collect. simpl. rewrite Hf. reflexivity. }
      destruct (run (for_batches fuel (i + 5) 5 xs delay body (acc ++ post ys1)%list) w2)
        as [[out3 w3] t3] eqn:Er.
      intros H; inversion H; subst.
      apply IH in Er as (steps2 & ys2 & Hys2 & Hxs2 & HF2 & -> & Hc & Hin); [|lia].
      exists (steps1 ++ steps2)%list, (ys1 ++ ys2)%list.
      split; [rewrite !map_app, Hys1, Hys2; reflexivity|].
      split.
      { rewrite map_app, Hxs1, Hxs2. unfold Js.slice.
        replace (i + 5 - i) with 5 by lia.
        replace (skipn (i + 5) xs) with (skipn 5 (skipn i xs))
          by (rewrite skipn_skipn; f_equal; lia).
        apply firstn_skipn. }
      split; [apply Forall_app; split; assumption|].
      split; [rewrite post_app, app_assoc; reflexivity|].
      split.
      * intros D f Hf. rewrite !collect_app, (Ht2 D f Hf), (Hc D f Hf).
        rewrite flat_map_app. cbn [app]. f_equal.
        clear. induction steps1 as [|s steps1 IHs]; [reflexivity|].
        cbn [flat_map]. rewrite collect_app, IHs. reflexivity.
      * intros s e Hs He. apply in_app_iff in Hs as [Hs|Hs].
        -- apply in_or_app. left. apply in_flat_map. exists s. split; assumption.
        -- apply in_or_app. right. apply in_or_app. right. eapply Hin; eassumption.
    + intros H; inversion H; subst. exists [], [].
      rewrite skipn_all2 by lia. rewrite post_nil, app_nil_r.
      repeat split; try constructor. intros s e [].
Qed.

End Batches.

(* ================================================================== *)
(** * Enumerating the files of a repository *)
(* ================================================================== *)

Lemma octokit_eqb_refl (cl : Octokit) : octokit_eqb cl cl = true.
Proof. unfold octokit_eqb. destruct (auth cl); [apply String.eqb_refl|reflexivity]. Qed.

Lemma read_by_not_write cl o r e : is_read_by cl o r e = true -> is_write e = false.
Proof. revert e. by_event_cases. Qed.

Section Enumerating.
Context {R : Remote} {rt : JsRuntime}.
Variable self : GitHubRepoCloner.
Variables owner repo : string.

Lemma fetch_item_never_throws item : never_throws (fetch_item self owner repo item).
Proof. unfold fetch_item. never_throws_tac. Qed.

Lemma fetch_batches_never_throw blobs fuel i acc :
  never_throws
    (for_batches fuel i 5 blobs 300
       (fun batch files =>
          fetched <- Promise_all (map (fetch_item self owner repo) batch) ;;
          Ret (files ++ somes fetched)%list) acc).
Proof.
  apply never_throws_for_batches. intros batch files.
  apply never_throws_bind; [|intro; apply never_throws_Ret].
  intro w. unfold outcome, Promise_all. rewrite run_bind.
  destruct (run (settle_all _) w) as [[out w1] t1] eqn:E.
  apply settle_all_steps in E as (steps & -> & _ & HF & _).
  assert (Hnone : first_error (map (fun s => snd (fst s)) steps) = None).
  { induction HF as [|[[item r] t] steps (w0 & w2 & Hs) _ IH]; [reflexivity|].
    cbn [map fst snd first_error] in *.
    destruct r as [a|e]; [assumption|].
    exfalso. eapply never_throws_run; [apply fetch_item_never_throws|eassumption]. }
  rewrite Hnone. reflexivity.
Qed.




End Enumerating.



(** X7.  [getAllFiles] raises only when the listing of the tree fails,
    with the error of the listing, and not when that error is the answer
    for an empty repository: a reference that cannot be resolved and
    blobs that cannot be read never make it raise. *)
Theorem getAllFiles_raises_listing_error {R : Remote} {rt : JsRuntime}
    (self : GitHubRepoCloner) (owner repo ref : string) (w : World) e w' tr :
  run (getAllFiles self owner repo ref) w = (Err e, w', tr) ->
  (exists commitSha,
      In (EvCall (Git_getTree (sourceOctokit self) owner repo commitSha "true") (Err e)) tr)
  /\ status_is e 409 && Js.includes (message e) "Git Repository is empty" = false.
Proof.
  unfold getAllFiles. intro H.
  apply run_try_catch_inv in H as [(a & _ & Ha)|(e0 & w1 & t1 & t2 & H & Hh & ->)];
    [discriminate|].
  rewrite run_bind, run_console2 in Hh. cbv beta iota in Hh.
  destruct (status_is e0 409 && _) eqn:Econd.
  { rewrite run_bind, run_console in Hh. cbn [run] in Hh. discriminate. }
  cbn [run] in Hh. injection Hh as <- <- <-.
  split; [|assumption].
  apply run_bind_inv in H as [(sha & w2 & t3 & t4 & _ & H & ->)|(e1 & H & _)].
  - destruct sha as [sha|]; [|cbn [run] in H; discriminate].
    apply run_bind_inv in H as [(tree & w3 & t5 & t6 & _ & H & _)|(e1 & H & He)].
    + exfalso. eapply never_throws_run; [|exact H]. apply fetch_batches_never_throw.
    + injection He as <-. apply run_await_inv in H as (_ & ->).
      exists sha. apply in_or_app. left. apply in_or_app. right. left. reflexivity.
  - exfalso. cbn [run] in H. destruct (handle _ w) as [[g|e2] w2].
    + cbn [run] in H. discriminate.
    + cbn [run] in H. destruct (handle _ w2) as [[c|e3] w3]; cbn [run] in H; discriminate.
Qed.

Lemma getAllFiles_raises_listing_error_witness :
  exists e w' tr,
    run (R := Mock.remote listing_fails)
      (getAllFiles (rt := Mock.runtime) Mock.cloner "acme" "template" "main") Mock.start
    = (Err e, w', tr)
    /\ e = mkError "Server Error" (Some 500)
    /\ exists commitSha,
         In (EvCall (Git_getTree (sourceOctokit Mock.cloner) "acme" "template"
                       commitSha "true") (Err e)) tr.
Proof.
  do 3 eexists.
  assert (Hrun : run (R := Mock.remote listing_fails)
                   (getAllFiles (rt := Mock.runtime) Mock.cloner "acme" "template" "main")
                   Mock.start = (Err ?[e], ?[w'], ?[tr]))
    by (vm_compute; reflexivity).
  split; [exact Hrun|]. split; [reflexivity|].
  exact (proj1 (getAllFiles_raises_listing_error _ _ _ _ _ Hrun)).
Defined.

(** X8.  [getAllFiles] only reads, and only the git data of the
    repository it is asked about, through the source client of the
    cloner: whatever the remote answers, it writes nothing. *)
Theorem getAllFiles_only_reads {R : Remote} {rt : JsRuntime} (self : GitHubRepoCloner)
    (owner repo ref : string) (w : World) :
  forallb (is_read_by (sourceOctokit self) owner repo)
    (trace (getAllFiles self owner repo ref) w) = true
  /\ writes (trace (getAllFiles self owner repo ref) w) = [].
Proof.
  assert (E : emits (is_read_by (sourceOctokit self) owner repo)
                (getAllFiles self owner repo ref)).
  { unfold getAllFiles.
    assert (Hrefl : octokit_eqb (sourceOctokit self) (sourceOctokit self)
                    && String.eqb owner owner && String.eqb repo repo = true)
      by (rewrite octokit_eqb_refl, !String.eqb_refl; reflexivity).
    apply emits_try_catch; [|intros e; emits_tac].
    apply emits_bind.
    - apply emits_Call; [intros; exact Hrefl|]. intros [g|e]; [apply emits_Ret|].
      apply emits_Call; [intros; exact Hrefl|]. intros [g|e']; emits_tac.
    - intros [sha|]; [|apply emits_Ret].
      apply emits_bind; [apply emits_await; intros; exact Hrefl|]. intros tree.
      apply emits_for_batches; [reflexivity|]. intros batch acc.
      apply emits_bind; [|intros; apply emits_Ret].
      apply emits_Promise_all. intros p Hp. apply in_map_iff in Hp as (item & <- & _).
      unfold fetch_item.
      destruct (ti_sha item); [|apply emits_Ret].
      destruct (ti_path item); [|apply emits_Ret].
      destruct (negb _ && negb _); [|apply emits_Ret].
      apply emits_Call; [intros; exact Hrefl|]. intros [b|e]; emits_tac. }
  split; [apply E|].
  apply (filter_none is_write (is_read_by (sourceOctokit self) owner repo));
    [intros e; apply read_by_not_write|apply E].
Qed.

(** X9.  A reference that is no branch is tried as a commit: when the
    branch cannot be read but the commit can, the tree of that commit is
    what [getAllFiles] lists next; when neither can be read it logs the
    reference as not found and returns no file, having asked for nothing
    else. *)
Theorem getAllFiles_reference_fallback {R : Remote} {rt : JsRuntime}
    (self : GitHubRepoCloner) (owner repo ref : string) (w : World) e1 w1 :
  let byBranch := Git_getRef (sourceOctokit self) owner repo ("heads/" ++ ref) in
  let byCommit := Git_getCommit (sourceOctokit self) owner repo ref in
  handle byBranch w = (Err e1, w1) ->
  match handle byCommit w1 with
  | (Err e2, w2) =>
      run (getAllFiles self owner repo ref) w
      = (Ok [], w2,
         [ EvCall byBranch (Err e1); EvCall byCommit (Err e2);
           EvConsole LError ("Reference " ++ ref ++ " not found in " ++ owner ++ "/" ++ repo) ])
  | (Ok commit, w2) =>
      exists r rest,
        trace (getAllFiles self owner repo ref) w
        = EvCall byBranch (Err e1) :: EvCall byCommit (Ok commit)
          :: EvCall (Git_getTree (sourceOctokit self) owner repo (gc_sha commit) "true") r
          :: rest
  end.
Proof.
  intros byBranch byCommit H1.
  destruct (handle byCommit w1) as [[commit|e2] w2] eqn:H2.
  - unfold trace, getAllFiles. rewrite run_try_catch, run_bind.
    cbn [run]. fold byBranch byCommit. rewrite H1. cbn [run]. rewrite H2. cbn [run].
    cbv beta iota. rewrite run_bind. unfold await at 1. cbn [run].
    destruct (handle (Git_getTree _ _ _ _ _) w2) as [[tree|e] w3].
    + cbn [run]. cbv beta iota.
      destruct (run (for_batches _ _ _ _ _ _ _) w3) as [[[files|e] w4] t4];
        cbv beta iota.
      * eexists _, _. reflexivity.
      * destruct (run _ w4) as [[out w5] t5]. eexists _, _. reflexivity.
    + cbn [run]. cbv beta iota.
      destruct (run _ w3) as [[out w5] t5]. eexists _, _. reflexivity.
  - unfold getAllFiles. rewrite run_try_catch, run_bind.
    cbn [run]. fold byBranch byCommit. rewrite H1. cbn [run]. rewrite H2.
    rewrite run_bind, run_console. reflexivity.
Qed.

Lemma getAllFiles_reference_fallback_witness :
  (exists r rest,
      trace (R := Mock.remote Mock.quiet)
        (getAllFiles (rt := Mock.runtime) Mock.cloner "acme" "template" "t1") Mock.start
      = EvCall (Git_getRef (sourceOctokit Mock.cloner) "acme" "template" "heads/t1")
          Mock.not_found
        :: EvCall (Git_getCommit (sourceOctokit Mock.cloner) "acme" "template" "t1")
             (Ok (mkGitCommit "t1" "tree-of-t1"))
        :: EvCall (Git_getTree (sourceOctokit Mock.cloner) "acme" "template" "t1" "true") r
        :: rest)
  /\ outcome (R := Mock.remote all_fail)
       (getAllFiles (rt := Mock.runtime) Mock.cloner "acme" "template" "main") Mock.start
     = Ok [].
Proof.
  split.
  - exact (@getAllFiles_reference_fallback (Mock.remote Mock.quiet) Mock.runtime
             Mock.cloner "acme" "template" "t1" Mock.start _ _ eq_refl).
  - unfold outcome.
    rewrite (@getAllFiles_reference_fallback (Mock.remote all_fail) Mock.runtime
               Mock.cloner "acme" "template" "main" Mock.start _ _ eq_refl).
    reflexivity.
Defined.

(* ================================================================== *)
(** * The tree [createTree] asks for *)
(* ================================================================== *)

Lemma blobs_created_blob_building_none tr :
  forallb is_blob_building tr = true -> tree_requests tr = [] /\ tree_errors tr = [].
Proof.
  intro H. split.
  - apply tree_requests_blob_building. assumption.
  - apply (collect_none ev_tree_rejected is_blob_building); [|assumption].
    intros [X c r| | |]; simpl; try reflexivity; try discriminate.
    destruct c; simpl; try reflexivity; discriminate.
Qed.

Section TreeAsked.
Context {R : Remote} {rt : JsRuntime}.
Variable self : GitHubRepoCloner.
Variables owner repo : string.

Lemma blob_entry_step file entry w0 w1 t :
  run (blob_entry self owner repo file) w0 = (Ok entry, w1, t) ->
  exists sha,
    entry = entry_for (file, sha)
    /\ blobs_created t = [(base64_of_utf8 (f_content file), sha)].
Proof.
  unfold blob_entry. rewrite run_bind, createBlobWithRetry_run.
  unfold blob_call.
  destruct (handle _ w0) as [[sha|e1] w2].
  { cbn [run]. intro H; inversion H; subst. exists sha. split; reflexivity. }
  destruct (handle _ w2) as [[sha|e2] w3].
  { cbn [run]. intro H; inversion H; subst. exists sha. split; reflexivity. }
  destruct (handle _ w3) as [[sha|e3] w4].
  { cbn [run]. intro H; inversion H; subst. exists sha. split; reflexivity. }
  discriminate.
Qed.

Lemma blob_steps steps (ys : list TreeEntry) :
  Forall (step_of (blob_entry self owner repo)) steps ->
  map (fun s => snd (fst s)) steps = map Ok ys ->
  exists shas,
    List.length shas = List.length steps
    /\ flat_map (fun s => blobs_created (snd s)) steps
       = combine (map (fun f => base64_of_utf8 (f_content f))
                    (map (fun s => fst (fst s)) steps)) shas
    /\ ys = map entry_for (combine (map (fun s => fst (fst s)) steps) shas)
    /\ flat_map (fun s => tree_requests (snd s)) steps = []
    /\ flat_map (fun s => tree_errors (snd s)) steps = [].
Proof.
  intros HF. revert ys.
  induction HF as [|[[file r] t] steps (w0 & w1 & Hs) _ IH]; intros [|y ys] Hys;
    try discriminate.
  - exists []. repeat split.
  - cbn [map fst snd] in *. injection Hys as -> Hys.
    destruct (IH ys Hys) as (shas & Hlen & Hb & -> & Hq & He).
    pose proof (blob_entry_emits self owner repo file w0) as Hem.
    rewrite Hs in Hem. cbn [snd] in Hem.
    apply blobs_created_blob_building_none in Hem as [Hq1 He1].
    apply blob_entry_step in Hs as (sha & -> & Hb1).
    exists (sha :: shas). cbn [flat_map fst snd List.length combine map].
    rewrite Hb1, Hb, Hq1, He1, Hq, He, Hlen. repeat split.
Qed.

Lemma createTree_run files baseTree w :
  run (createTree self owner repo files baseTree) w =
  match run (for_batches (List.length files) 0 5 files 500
               (blob_batch self owner repo) []) w with
  | (Err e, w1, t1) => (Err e, w1, EvSleep 1000 :: t1)
  | (Ok tree, w1, t1) =>
      let base := if Js.truthy baseTree then baseTree else None in
      let ask := Git_createTree (octokit self) owner repo tree base in
      match handle ask w1 with
      | (Ok td, w2) => (Ok td, w2, EvSleep 1000 :: t1 ++ [EvCall ask (Ok td)])
      | (Err e, w2) =>
          (Err (if status_is e 404 && Js.truthy baseTree
                then new_Error ("Base tree SHA " ++ default baseTree ""
                                ++ " not found. The repository state may have changed.")
                else e),
           w2,
           EvSleep 1000
           :: t1 ++ [ EvCall ask (Err e);
                      EvConsole LError ("Error creating tree:" ++ " " ++ message e) ])
      end
  end%list.
Proof.
  rewrite createTree_eq, run_bind, run_sleep. cbv beta iota. rewrite run_bind.
  destruct (run (for_batches _ _ _ _ _ _ _) w) as [[[tree|e] w1] t1]; [|reflexivity].
  cbn [run]. destruct (handle _ w1) as [[td|e] w2].
  - cbn [run app]. reflexivity.
  - rewrite run_bind, run_console2. cbv beta iota.
    destruct (status_is e 404 && Js.truthy baseTree); cbn [run app];
      rewrite ?app_nil_r; reflexivity.
Qed.

End TreeAsked.



(** X11.  When [createTree] fails, either a blob could not be created and
    no tree was asked for, or the one tree it asked for was rejected.  A
    rejection with status 404 of a request that had a base tree is
    reported as a plain error that names the base tree; any other
    rejection is rethrown as it is. *)
Theorem createTree_failure {R : Remote} {rt : JsRuntime} (self : GitHubRepoCloner)
    (owner repo : string) (files : list File) (baseTree : option string)
    (w : World) e w' tr :
  run (createTree self owner repo files baseTree) w = (Err e, w', tr) ->
  (tree_requests tr = [] /\ tree_errors tr = [])
  \/ exists rejection entries,
       tree_errors tr = [rejection]
       /\ tree_requests tr = [(entries, if Js.truthy baseTree then baseTree else None)]
       /\ e = if status_is rejection 404 && Js.truthy baseTree
              then new_Error ("Base tree SHA " ++ default baseTree ""
                              ++ " not found. The repository state may have changed.")
              else rejection.
Proof.
  rewrite createTree_run.
  pose proof (blob_batches_emit self owner repo files (List.length files) 0 [] w) as Hem.
  destruct (run (for_batches _ _ _ _ _ _ _) w) as [[[tree|e0] w1] t1] eqn:E;
    cbn [snd] in Hem; apply blobs_created_blob_building_none in Hem as [Hq He].
  - cbv zeta. destruct (handle _ w1) as [[td'|e1] w2] eqn:Eh; [discriminate|].
    intro H. injection H as <- <- <-. right. exists e1, tree.
    unfold tree_requests, tree_errors in *.
    rewrite !collect_cons. cbn [ev_tree_request ev_tree_rejected].
    rewrite !collect_app, Hq, He. repeat split.
  - intro H. injection H as <- <- <-. left.
    unfold tree_requests, tree_errors in *.
    rewrite !collect_cons. cbn [ev_tree_request ev_tree_rejected]. split; assumption.
Qed.

Lemma createTree_failure_witness :
  outcome (R := Mock.remote stale)
    (createTree (rt := Mock.runtime) Mock.cloner "octo" "app" [good_file] (Some "t0"))
    Mock.start
  = Err (new_Error "Base tree SHA t0 not found. The repository state may have changed.").
Proof.
  destruct (run (R := Mock.remote stale)
              (createTree (rt := Mock.runtime) Mock.cloner "octo" "app" [good_file]
                 (Some "t0")) Mock.start) as [[out w'] tr] eqn:Hrun.
  assert (Hout : exists e, out = Err e).
  { apply (f_equal (fun x => fst (fst x))) in Hrun. cbn [fst] in Hrun. rewrite <- Hrun.
    eexists. vm_compute. reflexivity. }
  destruct Hout as (e & ->).
  destruct (createTree_failure _ _ _ _ _ _ Hrun) as [[Hq _]|(rej & entries & He & _ & ->)].
  - exfalso. apply (f_equal snd) in Hrun. cbn [snd] in Hrun. rewrite <- Hrun in Hq.
    vm_compute in Hq. discriminate.
  - apply (f_equal snd) in Hrun. cbn [snd] in Hrun. rewrite <- Hrun in He.
    vm_compute in He. injection He as <-. unfold outcome. cbn [fst]. reflexivity.
Defined.

(* ================================================================== *)
(** * The Contents strategy *)
(* ================================================================== *)

Lemma preparing_not_write e : is_preparing e = true -> is_write e = false.
Proof. revert e. by_event_cases. Qed.

Lemma preparing_not_file_created e : is_preparing e = true -> is_file_created e = false.
Proof. revert e. by_event_cases. Qed.

Lemma source_read_not_file_created e : is_source_read e = true -> is_file_created e = false.
Proof. revert e. by_event_cases. Qed.

Lemma preparing_not_repo_created e : is_preparing e = true -> ev_repo_created e = None.
Proof. revert e. by_event_cases. Qed.

Lemma source_read_not_repo_created e : is_source_read e = true -> ev_repo_created e = None.
Proof. revert e. by_event_cases. Qed.

Lemma populating_not_repo_created e : is_populating e = true -> ev_repo_created e = None.
Proof. revert e. by_event_cases. Qed.

Section Contents.
Context {R : Remote} {rt : JsRuntime}.
Variable self : GitHubRepoCloner.
Variable options : CloneOptions.t.

Lemma resolveTargetOwner_emits : emits is_preparing (resolveTargetOwner self options).
Proof. unfold resolveTargetOwner. emits_tac. Qed.

Lemma copyBranchProtection_emits so sr to tn b :
  emits is_populating (copyBranchProtection self so sr to tn b).
Proof. unfold copyBranchProtection. emits_tac. Qed.

Lemma copyBranchProtection_never_throws so sr to tn b :
  never_throws (copyBranchProtection self so sr to tn b).
Proof.
  unfold copyBranchProtection. apply never_throws_try_catch. intro e. never_throws_tac.
Qed.

Lemma copyBranchProtection_creates_no_file so sr to tn b w :
  filter is_file_created (trace (copyBranchProtection self so sr to tn b) w) = [].
Proof.
  unfold trace, copyBranchProtection. rewrite run_try_catch, run_bind.
  unfold await at 1. cbn [run].
  destruct (handle _ w) as [[rules|e] w1]; cbn [run]; cbv beta iota.
  - rewrite run_bind. unfold await at 1. cbn [run].
    destruct (handle _ w1) as [[u|e] w2]; cbn [run]; cbv beta iota; reflexivity.
  - reflexivity.
Qed.

Lemma createFile_emits to tn file n : emits is_populating (createFile self to tn file n).
Proof. unfold createFile. emits_tac. Qed.

Lemma createFile_never_throws to tn file n : never_throws (createFile self to tn file n).
Proof. unfold createFile. never_throws_tac. Qed.

(** One file adds one to the count exactly when the remote accepted it,
    at the first attempt or at the second. *)
Lemma createFile_counts to tn file n w m w' t :
  run (createFile self to tn file n) w = (Ok m, w', t) ->
  m = n + List.length (filter is_file_created t).
Proof.
  unfold createFile. cbv zeta. cbn [run].
  destruct (handle _ w) as [[u|e] w1].
  { cbn [run bind console sleep]. intro H; inversion H; subst. cbn. lia. }
  destruct (Js.includes (message e) "sha" || status_is e 409).
  - cbn [run bind console sleep]. destruct (handle _ w1) as [[u|e'] w2].
    + cbn [run bind console sleep]. intro H; inversion H; subst. cbn. lia.
    + cbn [run bind console console2 sleep]. intro H; inversion H; subst. cbn. lia.
  - cbn [run bind console console2 sleep]. intro H; inversion H; subst. cbn. lia.
Qed.

Lemma createFiles_count to tn files :
  forall n w m w' t,
    run (for_of files (createFile self to tn) n) w = (Ok m, w', t) ->
    m = n + List.length (filter is_file_created t).
Proof.
  induction files as [|f files IH]; intros n w m w' t; cbn [for_of].
  - intro H; inversion H; subst. cbn. lia.
  - rewrite run_bind.
    destruct (run (createFile self to tn f n) w) as [[[n1|e] w1] t1] eqn:E1; [|discriminate].
    destruct (run (for_of files (createFile self to tn) n1) w1) as [[out w2] t2] eqn:E2.
    intro H; inversion H; subst.
    apply createFile_counts in E1. apply IH in E2.
    rewrite filter_app, length_app. lia.
Qed.

Lemma removeReadme_emits to tn :
  emits is_populating
    (try_catch
       (existingReadme <- await (Repos_getContent (octokit self) to tn "README.md") ;;
        match cd_sha existingReadme with
        | Some sha =>
            await (Repos_deleteFile (octokit self) to tn "README.md"
                     "Remove auto-generated README" sha) ;;;
            console LLog "Removed auto-generated README.md"
        | None => Ret tt
        end)
       (fun _ => console LLog "No existing README to remove")).
Proof. emits_tac. Qed.

End Contents.

(** Taking a run of [x <- m ;; k] apart. *)
Ltac next_step H a w t E :=
  let e := fresh "e" in
  let t' := fresh "t" in
  let He := fresh "He" in
  apply run_bind_inv in H as [(a & w & t & t' & E & H & ->)|(e & E & He)].

Ltac console_step H :=
  let a := fresh "a" in
  let w := fresh "w" in
  let t := fresh "t" in
  let E := fresh "E" in
  next_step H a w t E;
  [ first [ rewrite run_console in E | rewrite run_console2 in E | rewrite run_sleep in E ];
    injection E as <- <- <-
  | first [ rewrite run_console in E | rewrite run_console2 in E | rewrite run_sleep in E ];
    discriminate E ].

(** The events of a run are of the kind its program emits. *)
Ltac emits_in E Em q lem :=
  lazymatch type of E with
  | run _ _ = (?o, ?w1, ?t) =>
      assert (Em : forallb q t = true)
        by (change t with (snd (o, w1, t)); rewrite <- E; apply lem)
  end.

Section ContentsRuns.
Context {R : Remote} {rt : JsRuntime}.
Variable self : GitHubRepoCloner.
Variable options : CloneOptions.t.

Let sourceOwner := CloneOptions.sourceOwner options.
Let sourceRepo := CloneOptions.sourceRepo options.
Let targetName := CloneOptions.targetName options.

Lemma populate_never_throws to b newRepo files : never_throws (populate self options to b newRepo files).
Proof.
  unfold populate. fold sourceOwner sourceRepo targetName. destruct (Nat.eqb _ 0); [never_throws_tac|].
  apply never_throws_bind; [never_throws_tac|]. intros _.
  apply never_throws_bind.
  { destruct (existsb _ files); [|apply never_throws_Ret].
    apply never_throws_try_catch. intro e. never_throws_tac. }
  intros _. apply never_throws_bind.
  { apply never_throws_for_of. intros f n. apply createFile_never_throws. }
  intro n. apply never_throws_bind; [apply copyBranchProtection_never_throws|].
  intros _. apply never_throws_Ret.
Qed.

Lemma populate_emits to b newRepo files : emits is_populating (populate self options to b newRepo files).
Proof.
  unfold populate. fold sourceOwner sourceRepo targetName. destruct (Nat.eqb _ 0); [emits_tac|].
  apply emits_bind; [emits_tac|]. intros _.
  apply emits_bind.
  { destruct (existsb _ files); [apply removeReadme_emits|apply emits_Ret]. }
  intros _. apply emits_bind.
  { apply emits_for_of. intros f n. apply createFile_emits. }
  intro n. apply emits_bind; [apply copyBranchProtection_emits|].
  intros _. apply emits_Ret.
Qed.

Lemma populate_counts to b newRepo files w res w' t :
  run (populate self options to b newRepo files) w = (Ok res, w', t) ->
  CloneResult.filesCount res = List.length (filter is_file_created t)
  /\ CloneResult.repository res = newRepo.
Proof.
  unfold populate. fold sourceOwner sourceRepo targetName. destruct (Nat.eqb _ 0).
  { rewrite run_bind, run_console. cbn [run]. intro H; inversion H; subst.
    split; reflexivity. }
  intro H. console_step H.
  next_step H u wa ta Ea; [|discriminate].
  next_step H n wb tb Eb; [|discriminate].
  next_step H u' wc tc Ec; [|discriminate].
  cbn [run] in H. injection H as <- <- <-.
  cbn [CloneResult.filesCount CloneResult.repository]. split; [|reflexivity].
  apply createFiles_count in Eb. 
  assert (H1 : filter is_file_created ta = []).
  { destruct (existsb _ files); [|cbn [run] in Ea; inversion Ea; reflexivity].
    rewrite run_try_catch, run_bind in Ea. unfold await at 1 in Ea. cbn [run] in Ea.
    destruct (handle _ w) as [[readme|e] w4]; cbn [run] in Ea; cbv beta iota in Ea.
    - destruct (cd_sha readme) as [sha|].
      + rewrite run_bind in Ea. unfold await at 1 in Ea. cbn [run] in Ea.
        destruct (handle _ w4) as [[x|e] w5]; cbn [run] in Ea; cbv beta iota in Ea;
          inversion Ea; reflexivity.
      + cbn [run] in Ea. inversion Ea; reflexivity.
    - inversion Ea; reflexivity. }
  pose proof (copyBranchProtection_creates_no_file self sourceOwner sourceRepo to targetName b wb)
    as H3.
  unfold trace in H3. rewrite Ec in H3. cbn [snd] in H3.
  cbn [app filter is_file_created]. rewrite !filter_app, H1, H3, app_nil_r. cbn [app].
  rewrite Eb. reflexivity.
Qed.

Lemma cloneUsingContentsAPI_eq :
  cloneUsingContentsAPI self options =
  (console LLog ("Cloning " ++ sourceOwner ++ "/" ++ sourceRepo ++ " as " ++ targetName
                 ++ " using Contents API...") ;;;
   targetOwner <- resolveTargetOwner self options ;;
   sourceRepoData <- await (Repos_get (sourceOctokit self) sourceOwner sourceRepo) ;;
   newRepo <- await (Repos_createForAuthenticatedUser (octokit self)
                       (mkCreateRepoReq targetName
                          (repoDescription options sourceRepoData)
                          (default (CloneOptions.isPrivate options) false) true)) ;;
   console LLog ("Created repository: " ++ html_url newRepo) ;;;
   console LLog "Waiting for repository to be fully initialized..." ;;;
   sleep 3000 ;;;
   files <- getAllFiles self sourceOwner sourceRepo
              (Js.or_else (default_branch sourceRepoData) "main") ;;
   populate self options targetOwner (Js.or_else (default_branch sourceRepoData) "main") newRepo files).
Proof. reflexivity. Qed.

(** The runs of the Contents strategy: it fails before it has the files,
    having written at most the request for the repository, or it has the
    files and ends well. *)
Lemma cloneUsingContentsAPI_inv w out w' tr :
  run (cloneUsingContentsAPI self options) w = (out, w', tr) ->
  (exists e, out = Err e
     /\ (writes tr = []
         \/ exists req r,
              writes tr = [EvCall (Repos_createForAuthenticatedUser (octokit self) req) r])
     /\ filter is_file_created tr = [])
  \/ (exists targetOwner sourceRepoData newRepo files pre w1 t1 w2 t2 res,
        run (getAllFiles self sourceOwner sourceRepo
               (Js.or_else (default_branch sourceRepoData) "main")) w1 = (Ok files, w2, t1)
        /\ run (populate self options targetOwner (Js.or_else (default_branch sourceRepoData) "main")
                  newRepo files) w2 = (Ok res, w', t2)
        /\ out = Ok res
        /\ forallb is_preparing pre = true
        /\ tr = (pre
                 ++ [ EvCall (Repos_get (sourceOctokit self) sourceOwner sourceRepo)
                        (Ok sourceRepoData);
                      EvCall (Repos_createForAuthenticatedUser (octokit self)
                                (mkCreateRepoReq targetName
                                   (repoDescription options sourceRepoData)
                                   (default (CloneOptions.isPrivate options) false) true))
                        (Ok newRepo);
                      EvConsole LLog ("Created repository: " ++ html_url newRepo);
                      EvConsole LLog "Waiting for repository to be fully initialized...";
                      EvSleep 3000 ]
                 ++ t1 ++ t2)%list).
Proof.
  rewrite cloneUsingContentsAPI_eq. intro H.
  console_step H.
  next_step H targetOwner wa ta E1.
  2:{ left. subst out. exists e. split; [reflexivity|].
      pose proof (resolveTargetOwner_emits self options w) as Em.
      rewrite E1 in Em. cbn [snd] in Em.
      cbn [app]. unfold writes. cbn [filter is_write is_file_created].
      rewrite (filter_none is_write is_preparing _ preparing_not_write Em).
      rewrite (filter_none is_file_created is_preparing _ preparing_not_file_created Em).
      split; [left|]; reflexivity. }
  pose proof (resolveTargetOwner_emits self options w) as Em1.
  rewrite E1 in Em1. cbn [snd] in Em1.
  assert (Hw1 : filter is_write ta = [])
    by exact (filter_none is_write is_preparing _ preparing_not_write Em1).
  assert (Hf1 : filter is_file_created ta = [])
    by exact (filter_none is_file_created is_preparing _ preparing_not_file_created Em1).
  next_step H sourceRepoData wb tb E2.
  2:{ left. subst out. exists e. split; [reflexivity|].
      apply run_await_inv in E2 as (_ & ->).
      cbn [app]. unfold writes. cbn [filter is_write is_file_created].
      rewrite !filter_app, Hw1, Hf1. split; [left|]; reflexivity. }
  apply run_await_inv in E2 as (_ & ->).
  next_step H newRepo wc tc E3.
  2:{ left. subst out. exists e. split; [reflexivity|].
      apply run_await_inv in E3 as (_ & ->).
      cbn [app]. unfold writes. cbn [filter is_write is_file_created].
      rewrite !filter_app, Hw1, Hf1. cbn [app filter is_write is_file_created].
      split; [right; eexists _, _|]; reflexivity. }
  apply run_await_inv in E3 as (_ & ->).
  console_step H. console_step H. console_step H.
  next_step H files wd td E4.
  2:{ left. subst out. exists e. split; [reflexivity|].
      pose proof (getAllFiles_emits self sourceOwner sourceRepo
                    (Js.or_else (default_branch sourceRepoData) "main") wc) as Em.
      rewrite E4 in Em. cbn [snd] in Em.
      cbn [app]. unfold writes. cbn [filter is_write is_file_created].
      rewrite !filter_app, Hw1, Hf1. cbn [app filter is_write is_file_created].
      rewrite (filter_none is_write is_source_read _ source_read_not_write Em).
      rewrite (filter_none is_file_created is_source_read _ source_read_not_file_created Em).
      split; [right; eexists _, _|]; reflexivity. }
  destruct out as [res|e].
  2:{ exfalso. eapply never_throws_run; [apply populate_never_throws|exact H]. }
  right. exists targetOwner, sourceRepoData, newRepo, files.
  exists (EvConsole LLog ("Cloning " ++ sourceOwner ++ "/" ++ sourceRepo ++ " as "
                          ++ targetName ++ " using Contents API...") :: ta).
  exists wc, td, wd. eexists. exists res.
  split; [exact E4|]. split; [exact H|]. split; [reflexivity|].
  split; [cbn [forallb is_preparing]; assumption|].
  norm_app. reflexivity.
Qed.

End ContentsRuns.

(** X12.  The [filesCount] of a result of the Contents strategy is the
    number of files the remote accepted, at the first attempt or at the
    retry after a conflict; the [repository] of the result is the one
    the remote created in this run, asked for under the target name, with
    the given or inherited description, auto-initialised. *)
Theorem contents_clone_result {R : Remote} {rt : JsRuntime} (self : GitHubRepoCloner)
    (options : CloneOptions.t) (w : World) res w' tr :
  run (cloneUsingContentsAPI self options) w = (Ok res, w', tr) ->
  CloneResult.filesCount res = List.length (filter is_file_created tr)
  /\ exists sourceRepoData,
       In (EvCall (Repos_get (sourceOctokit self) (CloneOptions.sourceOwner options)
                     (CloneOptions.sourceRepo options)) (Ok sourceRepoData)) tr
       /\ repos_created tr
          = [(mkCreateRepoReq (CloneOptions.targetName options)
                (repoDescription options sourceRepoData)
                (default (CloneOptions.isPrivate options) false) true,
              CloneResult.repository res)].
Proof.
  intro H. apply cloneUsingContentsAPI_inv in H
    as [(e & He & _)|(to & srd & newRepo & files & pre & w1 & t1 & w2 & t2 & res'
                      & E1 & E2 & Hout & Hpre & ->)]; [discriminate|].
  injection Hout as <-.
  pose proof (getAllFiles_emits self (CloneOptions.sourceOwner options)
                (CloneOptions.sourceRepo options)
                (Js.or_else (default_branch srd) "main") w1) as Em1.
  rewrite E1 in Em1. cbn [snd] in Em1.
  pose proof (populate_emits self options to (Js.or_else (default_branch srd) "main") newRepo files w2) as Em2.
  rewrite E2 in Em2. cbn [snd] in Em2.
  apply populate_counts in E2 as [Hcount Hrepo].
  split.
  - rewrite !filter_app. cbn [filter is_file_created app].
    rewrite (filter_none is_file_created is_preparing _ preparing_not_file_created Hpre).
    rewrite (filter_none is_file_created is_source_read _ source_read_not_file_created Em1).
    assumption.
  - exists srd. split; [apply in_or_app; right; left; reflexivity|].
    unfold repos_created. rewrite !collect_app.
    rewrite (collect_none ev_repo_created is_preparing _ preparing_not_repo_created Hpre).
    rewrite (collect_none ev_repo_created is_source_read _ source_read_not_repo_created Em1).
    rewrite (collect_none ev_repo_created is_populating _ populating_not_repo_created Em2).
    rewrite Hrepo. reflexivity.
Qed.

Lemma contents_clone_result_witness :
  exists res w' tr,
    run (R := Mock.remote Mock.quiet)
      (cloneUsingContentsAPI (rt := Mock.runtime) Mock.cloner Mock.clone_options) Mock.start
    = (Ok res, w', tr)
    /\ CloneResult.filesCount res = 3
    /\ List.length (filter is_file_created tr) = 3.
Proof.
  do 3 eexists.
  assert (Hrun : run (R := Mock.remote Mock.quiet)
                   (cloneUsingContentsAPI (rt := Mock.runtime) Mock.cloner
                      Mock.clone_options) Mock.start
                 = (Ok ?[res], ?[w'], ?[tr]))
    by (vm_compute; reflexivity).
  split; [exact Hrun|]. split; [reflexivity|].
  rewrite <- (proj1 (contents_clone_result _ _ _ Hrun)). reflexivity.
Defined.

(** X13.  When the Contents strategy fails it has written no file: the
    only thing it may have asked the remote to change is to create the
    repository.  So a run in which a file was accepted does not fail. *)
Theorem contents_clone_failure {R : Remote} {rt : JsRuntime} (self : GitHubRepoCloner)
    (options : CloneOptions.t) (w : World) e w' tr :
  run (cloneUsingContentsAPI self options) w = (Err e, w', tr) ->
  (writes tr = []
   \/ exists req r,
        writes tr = [EvCall (Repos_createForAuthenticatedUser (octokit self) req) r])
  /\ filter is_file_created tr = [].
Proof.
  intro H. apply cloneUsingContentsAPI_inv in H
    as [(e' & _ & Hw & Hf)|(to & srd & newRepo & files & pre & w1 & t1 & w2 & t2 & res'
                           & _ & _ & Hout & _)]; [|discriminate].
  split; assumption.
Qed.

Lemma contents_clone_failure_witness :
  exists e w' tr,
    run (R := Mock.remote listing_fails)
      (cloneUsingContentsAPI (rt := Mock.runtime) Mock.cloner Mock.clone_options) Mock.start
    = (Err e, w', tr)
    /\ filter is_file_created tr = [].
Proof.
  do 3 eexists.
  assert (Hrun : run (R := Mock.remote listing_fails)
                   (cloneUsingContentsAPI (rt := Mock.runtime) Mock.cloner
                      Mock.clone_options) Mock.start
                 = (Err ?[e], ?[w'], ?[tr]))
    by (vm_compute; reflexivity).
  split; [exact Hrun|].
  exact (proj2 (contents_clone_failure _ _ _ Hrun)).
Defined.

(* ================================================================== *)
(** * The Git strategy *)
(* ================================================================== *)

Lemma preparing_not_forced_move e : is_preparing e = true -> is_forced_move e = false.
Proof. revert e. by_event_cases. Qed.

Lemma source_read_not_forced_move e : is_source_read e = true -> is_forced_move e = false.
Proof. revert e. by_event_cases. Qed.

Lemma checkout_not_forced_move e : is_checkout e = true -> is_forced_move e = false.
Proof. revert e. by_event_cases. Qed.

Lemma tree_building_not_forced_move e : is_tree_building e = true -> is_forced_move e = false.
Proof. revert e. by_event_cases. Qed.

Lemma preparing_no_tree_request e : is_preparing e = true -> ev_tree_request e = None.
Proof. revert e. by_event_cases. Qed.

Lemma source_read_no_tree_request e : is_source_read e = true -> ev_tree_request e = None.
Proof. revert e. by_event_cases. Qed.

Lemma checkout_no_tree_request e : is_checkout e = true -> ev_tree_request e = None.
Proof. revert e. by_event_cases. Qed.

Lemma checkout_not_repo_created e : is_checkout e = true -> ev_repo_created e = None.
Proof. revert e. by_event_cases. Qed.

Lemma tree_building_not_repo_created e : is_tree_building e = true -> ev_repo_created e = None.
Proof. revert e. by_event_cases. Qed.

(** X14.  The readiness check of the Git strategy reads the new
    repository at most five times and stops at the first read that
    succeeds; it waits two seconds after every failed read, the fifth
    included, and never fails: after five failed reads it answers
    [false]. *)
Theorem waitForRepo_polls {R : Remote} {rt : JsRuntime} (self : GitHubRepoCloner)
    (targetOwner targetName : string) (w : World) :
  let tr := trace (waitForRepo self targetOwner targetName 5 0) w in
  let n := List.length (polls tr) in
  exists ready,
    outcome (waitForRepo self targetOwner targetName 5 0) w = Ok ready
    /\ 1 <= n <= 5
    /\ polls tr = (repeat false (n - 1) ++ [ready])%list
    /\ sleeps tr = repeat 2000 (if ready then n - 1 else n)
    /\ (ready = false -> n = 5).
Proof.
  unfold trace, outcome. cbn [waitForRepo run].
  destruct (handle _ w) as [[d|e1] w1].
  { exists true. cbn. repeat split; lia || discriminate. }
  cbn [run bind console sleep]. destruct (handle _ w1) as [[d|e2] w2].
  { exists true. cbn. repeat split; lia || discriminate. }
  cbn [run bind console sleep]. destruct (handle _ w2) as [[d|e3] w3].
  { exists true. cbn. repeat split; lia || discriminate. }
  cbn [run bind console sleep]. destruct (handle _ w3) as [[d|e4] w4].
  { exists true. cbn. repeat split; lia || discriminate. }
  cbn [run bind console sleep]. destruct (handle _ w4) as [[d|e5] w5].
  { exists true. cbn. repeat split; lia || discriminate. }
  exists false. cbn. repeat split; lia.
Qed.

Section GitRuns.
Context {R : Remote} {rt : JsRuntime}.
Variable self : GitHubRepoCloner.
Variable options : CloneOptions.t.

Let sourceOwner := CloneOptions.sourceOwner options.
Let sourceRepo := CloneOptions.sourceRepo options.
Let targetName := CloneOptions.targetName options.

Lemma waitForRepo_emits to tn n i : emits is_preparing (waitForRepo self to tn n i).
Proof.
  revert i. induction n as [|n IH]; intro i; cbn [waitForRepo]; [apply emits_Ret|].
  apply emits_Call; [reflexivity|]. intros [d|e]; [emits_tac|].
  apply emits_bind; [emits_tac|]. intros _.
  apply emits_bind; [emits_tac|]. intros _. apply IH.
Qed.

Lemma waitForRepo_never_throws to tn n i : never_throws (waitForRepo self to tn n i).
Proof.
  revert i. induction n as [|n IH]; intro i; cbn [waitForRepo]; [apply never_throws_Ret|].
  apply never_throws_Call. intros [d|e]; [never_throws_tac|].
  apply never_throws_bind; [never_throws_tac|]. intros _.
  apply never_throws_bind; [never_throws_tac|]. intros _. apply IH.
Qed.

Lemma readHead_emits to b : emits is_checkout (readHead self options to b).
Proof. unfold readHead. emits_tac. Qed.

Lemma readHead_never_throws to b : never_throws (readHead self options to b).
Proof. unfold readHead. never_throws_tac. Qed.

Lemma getBranches_never_throws o r : never_throws (getBranches self o r).
Proof. unfold getBranches. never_throws_tac. Qed.

Lemma copyBranch_never_throws so sr to tn b commit br u :
  never_throws (copyBranch self so sr to tn b commit br u).
Proof.
  unfold copyBranch. destruct (negb _); [|apply never_throws_Ret].
  apply never_throws_try_catch. intro e. never_throws_tac.
Qed.

Lemma copyBranches_never_throws to b newRepo files commit :
  never_throws (copyBranches self options to b newRepo files commit).
Proof.
  unfold copyBranches. apply never_throws_bind.
  - destruct (default _ true); [|apply never_throws_Ret].
    apply never_throws_bind; [apply getBranches_never_throws|]. intro branches.
    apply never_throws_for_of. intros br u. apply copyBranch_never_throws.
  - intros _. apply never_throws_bind; [apply copyBranchProtection_never_throws|].
    intros _. apply never_throws_Ret.
Qed.

Lemma copyBranches_returns to b newRepo files commit :
  returns (fun res => CloneResult.filesCount res = List.length files
                      /\ CloneResult.repository res = newRepo)
    (copyBranches self options to b newRepo files commit).
Proof.
  unfold copyBranches. apply returns_bind. intros _. apply returns_bind. intros _.
  apply returns_Ret. split; reflexivity.
Qed.

(** No branch copy and no branch protection creates a repository. *)
Lemma copyBranches_creates_no_repo to b newRepo files commit w :
  repos_created (trace (copyBranches self options to b newRepo files commit) w) = [].
Proof.
  set (q := fun e => match ev_repo_created e with None => true | Some _ => false end).
  assert (Hq : forall e, q e = true -> ev_repo_created e = None).
  { intros e. unfold q. destruct (ev_repo_created e); [discriminate|reflexivity]. }
  assert (Hsrc : forall e, is_source_read e = true -> q e = true).
  { intros e He. unfold q. rewrite source_read_not_repo_created; auto. }
  assert (Htree : forall e, is_tree_building e = true -> q e = true).
  { intros e He. unfold q. rewrite tree_building_not_repo_created; auto. }
  assert (Hpop : forall e, is_populating e = true -> q e = true).
  { intros e He. unfold q. rewrite populating_not_repo_created; auto. }
  apply (collect_none ev_repo_created q _ Hq).
  unfold trace. revert w. change (emits q (copyBranches self options to b newRepo files commit)).
  unfold copyBranches. apply emits_bind.
  - destruct (default _ true); [|apply emits_Ret].
    apply emits_bind; [unfold getBranches; emits_tac|]. intro branches.
    apply emits_for_of. intros br u. unfold copyBranch.
    destruct (negb _); [|apply emits_Ret].
    apply emits_try_catch; [|intro; emits_tac].
    apply emits_bind; [eapply emits_weaken; [exact Hsrc|apply getAllFiles_emits]|].
    intro branchFiles.
    apply emits_bind; [eapply emits_weaken; [exact Htree|apply createTree_emits]|].
    intro branchTree. unfold createCommit. emits_tac.
  - intros _. apply emits_bind.
    + eapply emits_weaken; [exact Hpop|apply copyBranchProtection_emits].
    + intros _. apply emits_Ret.
Qed.

Lemma cloneUsingGitAPI_eq :
  cloneUsingGitAPI self options =
  (console LLog ("Cloning " ++ sourceOwner ++ "/" ++ sourceRepo ++ " as " ++ targetName
                 ++ " using Git API...") ;;;
   targetOwner <- resolveTargetOwner self options ;;
   sourceRepoData <- await (Repos_get (sourceOctokit self) sourceOwner sourceRepo) ;;
   newRepo <- await (Repos_createForAuthenticatedUser (octokit self)
                       (mkCreateRepoReq targetName
                          (repoDescription options sourceRepoData)
                          (default (CloneOptions.isPrivate options) false) true)) ;;
   console LLog ("Created repository: " ++ html_url newRepo) ;;;
   console LLog "Waiting for repository to be fully initialized..." ;;;
   sleep 5000 ;;;
   repoReady <- waitForRepo self targetOwner targetName 5 0 ;;
   if negb repoReady then
     Throw (new_Error "Repository creation timed out. Please try again.")
   else
     files <- getAllFiles self sourceOwner sourceRepo
                (Js.or_else (default_branch sourceRepoData) "main") ;;
     if Nat.eqb (List.length files) 0 then
       console LWarn ("Source repository " ++ sourceOwner ++ "/" ++ sourceRepo
                      ++ " appears to be empty") ;;;
       Ret (CloneResult.mk true newRepo 0
              ("Successfully created repository " ++ targetName ++ " (source was empty)"))
     else
       writeFiles self options targetOwner
         (Js.or_else (default_branch sourceRepoData) "main") newRepo files).
Proof. reflexivity. Qed.

(** The runs of [writeFiles]: it fails before the default branch is
    moved, or moves it and ends well. *)
Lemma writeFiles_inv to b newRepo files w out w' tr :
  run (writeFiles self options to b newRepo files) w = (out, w', tr) ->
  (exists e, out = Err e /\ existsb is_forced_move tr = false
             /\ repos_created tr = [])
  \/ (exists res entries base more,
        out = Ok res
        /\ CloneResult.filesCount res = List.length files
        /\ CloneResult.repository res = newRepo
        /\ tree_requests tr = (entries, base) :: more
        /\ List.length entries = List.length files
        /\ existsb is_forced_move tr = true
        /\ repos_created tr = []).
Proof.
  unfold writeFiles. fold targetName sourceOwner sourceRepo. intro H.
  next_step H hd0 wa ta Ea.
  2:{ exfalso. eapply never_throws_run; [apply readHead_never_throws|exact Ea]. }
  pose proof (readHead_emits to b w) as Ema. rewrite Ea in Ema. cbn [snd] in Ema.
  destruct hd0 as [parentSha baseTreeSha].
  console_step H.
  next_step H tree wb tb Eb.
  2:{ left. subst out. exists e. split; [reflexivity|].
      pose proof (createTree_emits self to targetName files baseTreeSha wa) as Emb.
      rewrite Eb in Emb. cbn [snd] in Emb.
      unfold repos_created. rewrite !existsb_app, !collect_app.
      cbn [existsb is_forced_move collect map somes ev_repo_created app].
      rewrite (existsb_none is_checkout is_forced_move _ checkout_not_forced_move Ema).
      rewrite (existsb_none is_tree_building is_forced_move _
                 tree_building_not_forced_move Emb).
      rewrite (collect_none ev_repo_created is_checkout _ checkout_not_repo_created Ema).
      rewrite (collect_none ev_repo_created is_tree_building _
                 tree_building_not_repo_created Emb).
      split; reflexivity. }
  pose proof (createTree_emits self to targetName files baseTreeSha wa) as Emb.
  rewrite Eb in Emb. cbn [snd] in Emb.
  assert (Hma : existsb is_forced_move ta = false)
    by exact (existsb_none is_checkout is_forced_move _ checkout_not_forced_move Ema).
  assert (Hmb : existsb is_forced_move tb = false)
    by exact (existsb_none is_tree_building is_forced_move _
                tree_building_not_forced_move Emb).
  assert (Hra : repos_created ta = [])
    by exact (collect_none ev_repo_created is_checkout _ checkout_not_repo_created Ema).
  assert (Hrb : repos_created tb = [])
    by exact (collect_none ev_repo_created is_tree_building _
                tree_building_not_repo_created Emb).
  next_step H commit wc tc Ec.
  2:{ left. subst out. exists e. split; [reflexivity|].
      unfold createCommit in Ec. apply run_await_inv in Ec as (_ & ->).
      unfold repos_created in *. rewrite !existsb_app, !collect_app.
      cbn [existsb is_forced_move collect map somes ev_repo_created app].
      rewrite Hma, Hmb, Hra, Hrb. split; reflexivity. }
  unfold createCommit in Ec. apply run_await_inv in Ec as (_ & ->).
  next_step H u wd td Ed.
  2:{ left. subst out. exists e. split; [reflexivity|].
      apply run_await_inv in Ed as (_ & ->).
      unfold repos_created in *. rewrite !existsb_app, !collect_app.
      cbn [existsb is_forced_move collect map somes ev_repo_created app succeeded].
      rewrite Hma, Hmb, Hra, Hrb. split; reflexivity. }
  apply run_await_inv in Ed as (_ & ->).
  destruct out as [res|e].
  2:{ exfalso. eapply never_throws_run; [apply copyBranches_never_throws|exact H]. }
  pose proof (copyBranches_creates_no_repo to b newRepo files commit wd) as Hrest.
  unfold trace in Hrest. rewrite H in Hrest. cbn [snd] in Hrest.
  apply copyBranches_returns in H as [Hcount Hrepo].
  apply createTree_inv in Eb as [(e & He & _)|(entries & r & HF & Hreq & _)];
    [discriminate|].
  right. exists res, entries. eexists. eexists.
  split; [reflexivity|]. split; [assumption|]. split; [assumption|].
  unfold tree_requests, repos_created in *.
  split.
  { rewrite !collect_app. cbn [collect map somes ev_tree_request app].
    rewrite (collect_none ev_tree_request is_checkout _ checkout_no_tree_request Ema).
    rewrite Hreq. cbn [app]. reflexivity. }
  split; [symmetry; eapply Forall2_length; eassumption|].
  split.
  { rewrite !existsb_app. cbn [existsb is_forced_move succeeded andb].
    rewrite !orb_true_r. reflexivity. }
  rewrite !collect_app. cbn [collect map somes ev_repo_created app].
  rewrite Hra, Hrb, Hrest. reflexivity.
Qed.

End GitRuns.

Ltac split_trace :=
  repeat first
    [ rewrite !existsb_app | rewrite !collect_app | rewrite !collect_cons
    | progress cbn [existsb is_forced_move ev_repo_created ev_tree_request
                    orb andb app succeeded] ].

Section GitClone.
Context {R : Remote} {rt : JsRuntime}.
Variable self : GitHubRepoCloner.
Variable options : CloneOptions.t.

Let sourceOwner := CloneOptions.sourceOwner options.
Let sourceRepo := CloneOptions.sourceRepo options.
Let targetName := CloneOptions.targetName options.

(** The runs of the Git strategy. *)
Lemma cloneUsingGitAPI_inv w out w' tr :
  run (cloneUsingGitAPI self options) w = (out, w', tr) ->
  (exists e, out = Err e /\ existsb is_forced_move tr = false
             /\ List.length (repos_created tr) <= 1)
  \/ (exists res sourceRepoData,
        out = Ok res
        /\ In (EvCall (Repos_get (sourceOctokit self) sourceOwner sourceRepo)
                 (Ok sourceRepoData)) tr
        /\ repos_created tr
           = [(mkCreateRepoReq targetName (repoDescription options sourceRepoData)
                 (default (CloneOptions.isPrivate options) false) true,
               CloneResult.repository res)]
        /\ ((CloneResult.filesCount res = 0 /\ tree_requests tr = []
             /\ existsb is_forced_move tr = false)
            \/ (exists entries base more,
                  tree_requests tr = (entries, base) :: more
                  /\ CloneResult.filesCount res = List.length entries
                  /\ CloneResult.filesCount res <> 0
                  /\ existsb is_forced_move tr = true))).
Proof.
  rewrite cloneUsingGitAPI_eq. unfold repos_created, tree_requests. intro H.
  console_step H.
  next_step H targetOwner wa ta E1.
  2:{ left. subst out. exists e. split; [reflexivity|].
      emits_in E1 Em is_preparing resolveTargetOwner_emits.
      split_trace.
      rewrite (existsb_none is_preparing is_forced_move _ preparing_not_forced_move Em).
      rewrite (collect_none ev_repo_created is_preparing _ preparing_not_repo_created Em).
      split; [reflexivity|cbn; lia]. }
  emits_in E1 Em1 is_preparing resolveTargetOwner_emits.
  assert (Hm1 : existsb is_forced_move ta = false)
    by exact (existsb_none is_preparing is_forced_move _ preparing_not_forced_move Em1).
  assert (Hr1 : collect ev_repo_created ta = [])
    by exact (collect_none ev_repo_created is_preparing _ preparing_not_repo_created Em1).
  assert (Hq1 : collect ev_tree_request ta = [])
    by exact (collect_none ev_tree_request is_preparing _ preparing_no_tree_request Em1).
  next_step H sourceRepoData wb tb E2.
  2:{ left. subst out. exists e. split; [reflexivity|].
      apply run_await_inv in E2 as (_ & ->).
      split_trace. rewrite Hm1, Hr1. split; [reflexivity|cbn; lia]. }
  apply run_await_inv in E2 as (_ & ->).
  next_step H newRepo wc tc E3.
  2:{ left. subst out. exists e. split; [reflexivity|].
      apply run_await_inv in E3 as (_ & ->).
      split_trace. rewrite Hm1, Hr1. split; [reflexivity|cbn; lia]. }
  apply run_await_inv in E3 as (_ & ->).
  console_step H. console_step H. console_step H.
  next_step H repoReady wd td E4.
  2:{ exfalso. eapply never_throws_run; [apply waitForRepo_never_throws|exact E4]. }
  emits_in E4 Em4 is_preparing waitForRepo_emits.
  assert (Hm4 : existsb is_forced_move td = false)
    by exact (existsb_none is_preparing is_forced_move _ preparing_not_forced_move Em4).
  assert (Hr4 : collect ev_repo_created td = [])
    by exact (collect_none ev_repo_created is_preparing _ preparing_not_repo_created Em4).
  assert (Hq4 : collect ev_tree_request td = [])
    by exact (collect_none ev_tree_request is_preparing _ preparing_no_tree_request Em4).
  destruct repoReady; cbn [negb] in H.
  2:{ left. cbn [run] in H. injection H as <- <- <-. eexists. split; [reflexivity|].
      split_trace. rewrite Hm1, Hr1, Hm4, Hr4. split; [reflexivity|cbn; lia]. }
  next_step H files we te E5.
  2:{ left. subst out. exists e. split; [reflexivity|].
      emits_in E5 Em is_source_read getAllFiles_emits.
      split_trace. rewrite Hm1, Hr1, Hm4, Hr4.
      rewrite (existsb_none is_source_read is_forced_move _ source_read_not_forced_move Em).
      rewrite (collect_none ev_repo_created is_source_read _ source_read_not_repo_created Em).
      split; [reflexivity|cbn; lia]. }
  emits_in E5 Em5 is_source_read getAllFiles_emits.
  assert (Hm5 : existsb is_forced_move te = false)
    by exact (existsb_none is_source_read is_forced_move _ source_read_not_forced_move Em5).
  assert (Hr5 : collect ev_repo_created te = [])
    by exact (collect_none ev_repo_created is_source_read _ source_read_not_repo_created Em5).
  assert (Hq5 : collect ev_tree_request te = [])
    by exact (collect_none ev_tree_request is_source_read _ source_read_no_tree_request Em5).
  destruct (Nat.eqb (List.length files) 0) eqn:Elen.
  { console_step H. cbn [run] in H. injection H as <- <- <-.
    right. eexists. exists sourceRepoData. split; [reflexivity|].
    split; [cbn [app]; right; apply in_or_app; right; left; reflexivity|].
    split_trace. rewrite Hm1, Hr1, Hq1, Hm4, Hr4, Hq4, Hm5, Hr5, Hq5.
    split; [reflexivity|]. left. repeat split. }
  apply Nat.eqb_neq in Elen.
  apply writeFiles_inv in H
    as [(e & -> & Hm & Hr)|(res & entries & base & more & -> & Hc & Hrepo & Hq & Hl & Hm & Hr)];
    unfold repos_created, tree_requests in *.
  - left. exists e. split; [reflexivity|].
    split_trace. rewrite Hm1, Hr1, Hm4, Hr4, Hm5, Hr5, Hm, Hr.
    split; [reflexivity|cbn; lia].
  - right. exists res, sourceRepoData. split; [reflexivity|].
    split; [cbn [app]; right; apply in_or_app; right; left; reflexivity|].
    split_trace. rewrite Hr1, Hq1, Hr4, Hq4, Hr5, Hq5, Hr, Hq, Hm, Hrepo.
    rewrite !orb_true_r.
    split; [reflexivity|]. right. exists entries, base, more.
    repeat split; lia.
Qed.

End GitClone.

(** X15.  The result of the Git strategy: its [repository] is the one the
    remote created in this run, asked for under the target name, with
    the given or inherited description, auto-initialised; its
    [filesCount] is the number of entries of the first tree the run asked
    for, or zero when it asked for none; and the run has forced a
    reference to move exactly when that count is not zero. *)
Theorem git_clone_result {R : Remote} {rt : JsRuntime} (self : GitHubRepoCloner)
    (options : CloneOptions.t) (w : World) res w' tr :
  run (cloneUsingGitAPI self options) w = (Ok res, w', tr) ->
  (exists sourceRepoData,
      In (EvCall (Repos_get (sourceOctokit self) (CloneOptions.sourceOwner options)
                    (CloneOptions.sourceRepo options)) (Ok sourceRepoData)) tr
      /\ repos_created tr
         = [(mkCreateRepoReq (CloneOptions.targetName options)
               (repoDescription options sourceRepoData)
               (default (CloneOptions.isPrivate options) false) true,
             CloneResult.repository res)])
  /\ CloneResult.filesCount res
     = match tree_requests tr with
       | [] => 0
       | (entries, _) :: _ => List.length entries
       end
  /\ existsb is_forced_move tr = negb (Nat.eqb (CloneResult.filesCount res) 0).
Proof.
  intro H. apply cloneUsingGitAPI_inv in H
    as [(e & He & _)|(res' & srd & Hout & Hin & Hrepo & Hcases)]; [discriminate|].
  injection Hout as <-.
  split; [exists srd; split; assumption|].
  destruct Hcases as [(-> & -> & ->)|(entries & base & more & -> & -> & Hne & ->)].
  - split; reflexivity.
  - split; [reflexivity|]. apply Nat.eqb_neq in Hne. rewrite Hne. reflexivity.
Qed.

Lemma git_clone_result_witness :
  exists res w' tr,
    run (R := Mock.remote Mock.quiet)
      (cloneUsingGitAPI (rt := Mock.runtime) Mock.cloner Mock.clone_options) Mock.start
    = (Ok res, w', tr)
    /\ CloneResult.filesCount res = 3
    /\ existsb is_forced_move tr = true.
Proof.
  do 3 eexists.
  assert (Hrun : run (R := Mock.remote Mock.quiet)
                   (cloneUsingGitAPI (rt := Mock.runtime) Mock.cloner Mock.clone_options)
                   Mock.start = (Ok ?[res], ?[w'], ?[tr]))
    by (vm_compute; reflexivity).
  split; [exact Hrun|]. split; [reflexivity|].
  rewrite (proj2 (proj2 (git_clone_result _ _ _ Hrun))). reflexivity.
Defined.

(** X16.  When the Git strategy fails it has not moved the default
    branch of the new repository, and it has created at most one
    repository.  So once the branch is moved the run does not fail. *)
Theorem git_clone_failure {R : Remote} {rt : JsRuntime} (self : GitHubRepoCloner)
    (options : CloneOptions.t) (w : World) e w' tr :
  run (cloneUsingGitAPI self options) w = (Err e, w', tr) ->
  existsb is_forced_move tr = false /\ List.length (repos_created tr) <= 1.
Proof.
  intro H. apply cloneUsingGitAPI_inv in H
    as [(e' & _ & Hm & Hr)|(res' & srd & Hout & _)]; [|discriminate].
  split; assumption.
Qed.

Lemma git_clone_failure_witness :
  exists w' tr,
    run (R := Mock.remote never_ready)
      (cloneUsingGitAPI (rt := Mock.runtime) Mock.cloner Mock.clone_options) Mock.start
    = (Err (new_Error "Repository creation timed out. Please try again."), w', tr)
    /\ existsb is_forced_move tr = false
    /\ List.length (repos_created tr) <= 1.
Proof.
  do 2 eexists.
  assert (Hrun : run (R := Mock.remote never_ready)
                   (cloneUsingGitAPI (rt := Mock.runtime) Mock.cloner Mock.clone_options)
                   Mock.start
                 = (Err (new_Error "Repository creation timed out. Please try again."),
                    ?[w'], ?[tr]))
    by (vm_compute; reflexivity).
  split; [exact Hrun|].
  exact (git_clone_failure _ _ _ Hrun).
Defined.

(* ================================================================== *)
(** * The branch protection of a clone *)
(* ================================================================== *)

(** X17.  Copying the branch protection never fails, asks for at most one
    update and for none when the protection of the source cannot be read;
    when it asks for required reviews it asks for at least one approving
    review, also where the source asks for none. *)
Theorem copyBranchProtection_reviews {R : Remote} {rt : JsRuntime}
    (self : GitHubRepoCloner) (sourceOwner sourceRepo targetOwner targetName branch_ : string)
    (w : World) :
  let p := copyBranchProtection self sourceOwner sourceRepo targetOwner targetName branch_ in
  outcome p w = Ok tt
  /\ List.length (protections (trace p w)) <= 1
  /\ Forall (fun reviews =>
               match reviews with
               | Some s => 1 <= sr_required_approving_review_count s
               | None => True
               end) (protections (trace p w))
  /\ (succeeded (fst (handle (Repos_getBranchProtection (sourceOctokit self)
                                sourceOwner sourceRepo branch_) w)) = false ->
      writes (trace p w) = []).
Proof.
  cbv zeta. unfold outcome, trace.
  destruct (handle (Repos_getBranchProtection (sourceOctokit self)
                      sourceOwner sourceRepo branch_) w) as [r1 w1] eqn:E1.
  assert (Hrun : exists w' tr,
             run (copyBranchProtection self sourceOwner sourceRepo targetOwner targetName
                    branch_) w = (Ok tt, w', tr)
             /\ List.length (protections tr) <= 1
             /\ Forall (fun reviews =>
                          match reviews with
                          | Some s => 1 <= sr_required_approving_review_count s
                          | None => True
                          end) (protections tr)
             /\ (succeeded r1 = false -> writes tr = [])).
  { unfold copyBranchProtection. rewrite run_try_catch, run_bind.
    unfold await at 1. cbn [run]. rewrite E1.
    destruct r1 as [rules|e]; cbn [run fst snd]; cbv beta iota.
    - rewrite run_bind. unfold await at 1. cbn [run].
      destruct (handle _ w1) as [[u|e] w2]; cbn [run fst snd console]; cbv beta iota;
        cbn [fst snd app]; do 2 eexists; (split; [reflexivity|]);
        unfold protections; rewrite !collect_cons; cbn [collect map somes ev_protection app List.length];
        (split; [lia|]); (split; [|discriminate]);
        (constructor; [|constructor]);
        destruct (required_pull_request_reviews rules) as [rv|]; try exact I;
        cbn [sr_required_approving_review_count];
        destruct (required_approving_review_count rv) as [[|n]|]; lia.
    - cbn [run console fst snd app]. do 2 eexists. split; [reflexivity|].
      unfold protections. rewrite !collect_cons. cbn [collect map somes ev_protection app List.length].
      repeat split; try lia; constructor. }
  destruct Hrun as (w' & tr & -> & H1 & H2 & H3). cbn [fst snd].
  repeat split; assumption.
Qed.

(* ================================================================== *)
(** * The clients of a sync *)
(* ================================================================== *)

Ltac emits_with tac :=
  repeat match goal with
  | |- emits _ (Ret _) => apply emits_Ret
  | |- emits _ (Throw _) => apply emits_Throw
  | |- emits _ (Console _ _ _) => apply emits_Console; [tac|]
  | |- emits _ (Sleep _ _) => apply emits_Sleep; [tac|]
  | |- emits _ (Call _ _) => apply emits_Call; [intros; tac|intros [?|?]]
  | |- emits _ (Now _) => apply emits_Now; [intros; tac|intro]
  | |- emits _ (await _) => apply emits_await; intros; tac
  | |- emits _ (console _ _) => unfold console
  | |- emits _ (console2 _ _ _) => unfold console2, console
  | |- emits _ (sleep _) => unfold sleep
  | |- emits _ now_iso => unfold now_iso
  | |- emits _ (bind _ _) => apply emits_bind; [|intro]
  | |- emits _ (try_catch _ _) => apply emits_try_catch; [|intro]
  | |- emits _ (if ?b then _ else _) => destruct b
  | |- emits _ (match ?x with _ => _ end) => destruct x
  | |- emits _ (let '(_, _) := ?x in _) => destruct x
  end.

Ltac by_client :=
  cbn [sync_call_by]; rewrite ?octokit_eqb_refl, ?orb_true_r; reflexivity.

Section Clients.
Context {R : Remote} {rt : JsRuntime}.
Variable self : GitHubRepoCloner.
Variable q : Event -> bool.
Hypothesis q_sleep : forall ms, q (EvSleep ms) = true.
Hypothesis q_console : forall lvl text, q (EvConsole lvl text) = true.

Ltac by_q := first [apply q_sleep | apply q_console | solve [auto]].

(** [getAllFiles] in terms of its four reads. *)
Lemma getAllFiles_emits_reads owner repo ref :
  (forall x r, q (EvCall (Git_getRef (sourceOctokit self) owner repo x) r) = true) ->
  (forall x r, q (EvCall (Git_getCommit (sourceOctokit self) owner repo x) r) = true) ->
  (forall x y r, q (EvCall (Git_getTree (sourceOctokit self) owner repo x y) r) = true) ->
  (forall x r, q (EvCall (Git_getBlob (sourceOctokit self) owner repo x) r) = true) ->
  emits q (getAllFiles self owner repo ref).
Proof.
  intros Href Hcommit Htree Hblob. unfold getAllFiles.
  apply emits_try_catch; [|intros e; emits_with by_q].
  apply emits_bind.
  - emits_with by_q.
  - intros [sha|]; [|apply emits_Ret].
    apply emits_bind; [apply emits_await; intros; apply Htree|]. intros tree.
    apply emits_for_batches; [apply q_sleep|]. intros batch acc.
    apply emits_bind; [|intros; apply emits_Ret].
    apply emits_Promise_all. intros p Hp. apply in_map_iff in Hp as (item & <- & _).
    unfold fetch_item. emits_with by_q.
Qed.

Lemma createBlobWithRetry_loop_emits_writes owner repo file retries n i :
  (forall x y r, q (EvCall (Git_createBlob (octokit self) owner repo x y) r) = true) ->
  emits q (createBlobWithRetry_loop self owner repo file retries n i).
Proof.
  intros Hblob. revert i. induction n as [|n IH]; intros i; cbn [createBlobWithRetry_loop].
  - apply emits_Throw.
  - emits_with by_q. apply IH.
Qed.

(** [createTree] in terms of its two writes. *)
Lemma createTree_emits_writes owner repo files baseTree :
  (forall x y r, q (EvCall (Git_createBlob (octokit self) owner repo x y) r) = true) ->
  (forall x y r, q (EvCall (Git_createTree (octokit self) owner repo x y) r) = true) ->
  emits q (createTree self owner repo files baseTree).
Proof.
  intros Hblob Htree. rewrite createTree_eq.
  apply emits_bind; [emits_with by_q|]. intros _.
  apply emits_bind; [|intro tree; emits_with by_q].
  apply emits_for_batches; [apply q_sleep|]. intros batch acc. unfold blob_batch.
  apply emits_bind; [|intros; apply emits_Ret].
  apply emits_Promise_all. intros p Hp. apply in_map_iff in Hp as (f & <- & _).
  unfold blob_entry, createBlobWithRetry.
  apply emits_bind; [|intros; apply emits_Ret].
  apply createBlobWithRetry_loop_emits_writes. exact Hblob.
Qed.

End Clients.

Section SyncClients.
Context {R : Remote} {rt : JsRuntime}.
Variable self : GitHubRepoCloner.
Variable options : SyncOptions.t.

Lemma syncWithTemplate_clients :
  emits (sync_call_by (octokit self) (sourceOctokit self) (syncSourceOctokit self options))
    (syncWithTemplate self options).
Proof.
  unfold syncWithTemplate. emits_with by_client.
  - unfold syncResolve. emits_with by_client.
  - apply getAllFiles_emits_reads; intros; by_client.
  - unfold syncFiles. emits_with by_client.
    + unfold syncCheckout. emits_with by_client.
    + unfold syncBuildTree. emits_with by_client;
        apply createTree_emits_writes; intros; by_client.
    + unfold syncDeliver, createCommit. emits_with by_client.
  - unfold syncFailed. emits_with by_client.
Qed.

End SyncClients.

(** X18.  In a sync every change of the target goes through the client of
    the cloner, and the token the call is given for the template is used
    for two reads only, the data of the template repository and its
    latest commit: the tree and the blobs of the template are read
    through the source client the cloner was built with, whatever token
    the call is given. *)
Theorem sync_clients {R : Remote} {rt : JsRuntime} (self : GitHubRepoCloner)
    (options : SyncOptions.t) (w : World) :
  forallb
    (sync_call_by (octokit self) (sourceOctokit self) (syncSourceOctokit self options))
    (trace (syncWithTemplate self options) w) = true.
Proof. apply syncWithTemplate_clients. Qed.

(** With a token of its own for the template, the sync of the example
    reads the repository and the commits of the template with that token
    and its tree without. *)
Example sync_clients_with_token :
  let tr := trace (R := Mock.remote Mock.quiet)
              (syncWithTemplate (rt := Mock.runtime) Mock.cloner token_options) Mock.start in
  syncSourceOctokit Mock.cloner token_options = mkOctokit (Some "per-call-token")
  /\ sourceOctokit Mock.cloner = mkOctokit (Some "user-token")
  /\ collect (fun e => match e with
                       | EvCall c _ =>
                           match c with
                           | Repos_listCommits cl _ _ _ _ => Some (auth cl)
                           | Git_getTree cl _ _ _ _ => Some (auth cl)
                           | _ => None
                           end
                       | _ => None
                       end) tr
     = [Some "per-call-token"; Some "user-token"].
Proof. vm_compute. repeat split. Qed.

(* ================================================================== *)
(** * What a sync commits *)
(* ================================================================== *)

Lemma makes_no_commit (q : Event -> bool) :
  (forall e, q e = true ->
             ev_commit_created e = None /\ ev_ref_moved e = None
             /\ is_pull_request e = false) ->
  forall t, forallb q t = true ->
            commits_created t = [] /\ refs_moved t = []
            /\ existsb is_pull_request t = false.
Proof.
  intros Hq t Ht. repeat split.
  - eapply collect_none; [|exact Ht]. intros e He. apply Hq, He.
  - eapply collect_none; [|exact Ht]. intros e He. apply Hq, He.
  - eapply existsb_none; [|exact Ht]. intros e He. apply Hq, He.
Qed.

Ltac by_kind :=
  let c := fresh "c" in
  intros [? c ?| | |]; simpl; try discriminate; try (repeat split; reflexivity);
  destruct c; simpl; try discriminate; repeat split; reflexivity.

Lemma resolving_makes_no_commit t :
  forallb is_resolving t = true ->
  commits_created t = [] /\ refs_moved t = [] /\ existsb is_pull_request t = false.
Proof. apply makes_no_commit. by_kind. Qed.

Lemma source_read_makes_no_commit t :
  forallb is_source_read t = true ->
  commits_created t = [] /\ refs_moved t = [] /\ existsb is_pull_request t = false.
Proof. apply makes_no_commit. by_kind. Qed.

Lemma checkout_makes_no_commit t :
  forallb is_checkout t = true ->
  commits_created t = [] /\ refs_moved t = [] /\ existsb is_pull_request t = false.
Proof. apply makes_no_commit. by_kind. Qed.

Lemma tree_building_makes_no_commit t :
  forallb is_tree_building t = true ->
  commits_created t = [] /\ refs_moved t = [] /\ existsb is_pull_request t = false.
Proof. apply makes_no_commit. by_kind. Qed.

Lemma resolving_creates_no_tree t : forallb is_resolving t = true -> trees_created t = [].
Proof. apply collect_none. by_kind. Qed.

Lemma source_read_creates_no_tree t :
  forallb is_source_read t = true -> trees_created t = [].
Proof. apply collect_none. by_kind. Qed.

Lemma checkout_creates_no_tree t : forallb is_checkout t = true -> trees_created t = [].
Proof. apply collect_none. by_kind. Qed.

Lemma blob_building_creates_no_tree t :
  forallb is_blob_building t = true -> trees_created t = [].
Proof. apply collect_none. by_kind. Qed.

Section Committing.
Context {R : Remote} {rt : JsRuntime}.
Variable self : GitHubRepoCloner.

(** The one tree [createTree] creates when it succeeds. *)
Lemma createTree_created owner repo files baseTree w out w' tr :
  run (createTree self owner repo files baseTree) w = (out, w', tr) ->
  match out with
  | Ok td =>
      exists shas,
        List.length shas = List.length files
        /\ trees_created tr = [(map entry_for (combine files shas), td_sha td)]
  | Err _ => trees_created tr = []
  end.
Proof.
  rewrite createTree_run.
  pose proof (blob_batches_emit self owner repo files (List.length files) 0 [] w) as Hem.
  destruct (run (for_batches _ _ _ _ _ _ _) w) as [[[tree|e] w1] t1] eqn:E;
    cbn [snd] in Hem; apply blob_building_creates_no_tree in Hem.
  2:{ intro H. injection H as <- <- <-. unfold trees_created in *.
      rewrite collect_cons. exact Hem. }
  cbv zeta. destruct (handle _ w1) as [[td'|e] w2] eqn:Eh;
    intro H; injection H as <- <- <-.
  2:{ unfold trees_created in *. rewrite collect_cons. cbn [ev_tree_created].
      rewrite collect_app, Hem. reflexivity. }
  apply (@for_batches_steps R File TreeEntry TreeEntry (blob_entry self owner repo)
           (fun ys => ys) eq_refl (fun a b => eq_refl)) in E; [|lia].
  destruct E as (steps & ys & Hys & Hxs & HF & -> & Hc & _).
  cbn [skipn app] in *.
  destruct (@blob_steps _ _ self owner repo steps ys HF Hys)
    as (shas & Hlen & Hb & -> & Hq & He).
  rewrite Hxs in *.
  exists shas.
  split; [rewrite Hlen, <- Hxs, length_map; reflexivity|].
  unfold trees_created in *.
  rewrite collect_cons. cbn [ev_tree_created].
  rewrite collect_app, Hem. reflexivity.
Qed.

Variable options : SyncOptions.t.

Lemma syncBuildTree_created files cur w tree w' tr :
  run (syncBuildTree self options files cur) w = (Ok tree, w', tr) ->
  exists entries,
    List.length entries = List.length files
    /\ trees_created tr = [(entries, td_sha tree)].
Proof.
  unfold syncBuildTree. intro H.
  apply run_try_catch_inv in H as [(a & H & Ha)|(e & w1 & t1 & t2 & H1 & H2 & ->)].
  - injection Ha as <-. apply createTree_created in H as (shas & Hlen & Ht).
    eexists. split; [|exact Ht]. rewrite length_map, length_combine. lia.
  - apply createTree_created in H1. rewrite run_bind, run_console2 in H2.
    cbv beta iota in H2.
    destruct (run (createTree _ _ _ _ _) w1) as [[out w2] t3] eqn:E2.
    injection H2 as -> <- <-.
    apply createTree_created in E2 as (shas & Hlen & Ht).
    eexists. split; [|unfold trees_created in *; rewrite collect_app, H1, collect_cons;
                      cbn [ev_tree_created app]; exact Ht].
    rewrite length_map, length_combine. lia.
Qed.

End Committing.

(** X19.  A sync that returns a branch has created exactly one tree and
    one commit: the files it counts are the entries of that tree, also
    when there are none; the commit has that tree and one parent, the
    head of the branch as the sync read it; and the branch is moved to
    that commit once, without force. *)
Theorem sync_commit {R : Remote} {rt : JsRuntime} (self : GitHubRepoCloner)
    (options : SyncOptions.t) (w : World) res w' tr name :
  run (syncWithTemplate self options) w = (Ok res, w', tr) ->
  SyncResult.syncBranch res = Some name ->
  exists entries treeSha head commitSha,
    trees_created tr = [(entries, treeSha)]
    /\ SyncResult.filesCount res = List.length entries
    /\ In (EvCall (Git_getRef (octokit self) (SyncOptions.targetOwner options)
                     (SyncOptions.targetRepo options) ("heads/" ++ name)) (Ok head)) tr
    /\ commits_created tr = [(treeSha, [object_sha head], commitSha)]
    /\ refs_moved tr = [("heads/" ++ name, commitSha, false)].
Proof.
  intros Hrun Hname.
  destruct (syncWithTemplate_delivered _ _ _ Hrun Hname)
    as (t & w1 & t1 & files & w2 & t2 & ref & cur & w3 & t3 & tree & w4 & t4 & t5
        & E1 & E2 & Hne & E3 & E4 & E5 & ->).
  pose proof (syncResolve_emits self options w) as Q1. rewrite E1 in Q1. cbn [snd] in Q1.
  pose proof (getAllFiles_emits self (SyncOptions.sourceOwner options)
                (SyncOptions.sourceRepo options) (sourceBranch t) w1) as Q2.
  rewrite E2 in Q2. cbn [snd] in Q2.
  pose proof (syncCheckout_emits self options t w2) as Q3. rewrite E3 in Q3. cbn [snd] in Q3.
  pose proof (syncBuildTree_emits self options (filter syncable files) cur w3) as Q4.
  rewrite E4 in Q4. cbn [snd] in Q4.
  destruct (resolving_makes_no_commit _ Q1) as (C1 & M1 & _).
  destruct (source_read_makes_no_commit _ Q2) as (C2 & M2 & _).
  destruct (checkout_makes_no_commit _ Q3) as (C3 & M3 & _).
  destruct (tree_building_makes_no_commit _ Q4) as (C4 & M4 & _).
  apply resolving_creates_no_tree in Q1. apply source_read_creates_no_tree in Q2.
  apply checkout_creates_no_tree in Q3.
  apply syncBuildTree_created in E4 as (entries & Hlen & T4).
  assert (Hin : In (EvCall (Git_getRef (octokit self) (SyncOptions.targetOwner options)
                              (SyncOptions.targetRepo options)
                              ("heads/" ++ syncBranchName t)) (Ok ref)) t3).
  { apply syncCheckout_inv in E3 as (hd0 & probe & creation & -> & _).
    apply in_or_app. right. apply in_or_app. right. left. reflexivity. }
  rewrite syncDeliver_run in E5. cbv zeta in E5.
  destruct (handle _ w4) as [[commit|e] w5]; [|discriminate].
  destruct (handle _ w5) as [[[]|e] w6]; [|discriminate].
  assert (Hres : exists url extra,
             res = synced options (syncBranchName t) (List.length (filter syncable files)) url
             /\ t5 = ([ EvCall (Git_createCommit (octokit self)
                                  (SyncOptions.targetOwner options)
                                  (SyncOptions.targetRepo options)
                                  (syncCommitMessage options t) (td_sha tree)
                                  [object_sha ref]) (Ok commit);
                        EvCall (Git_updateRef (octokit self)
                                  (SyncOptions.targetOwner options)
                                  (SyncOptions.targetRepo options)
                                  ("heads/" ++ syncBranchName t) (gc_sha commit) false)
                          (Ok tt);
                        EvConsole LLog ("Successfully updated branch " ++ syncBranchName t
                                        ++ " with template changes") ] ++ extra)%list
             /\ trees_created extra = [] /\ commits_created extra = []
             /\ refs_moved extra = []).
  { destruct (default (SyncOptions.createPullRequest options) true
              && negb (String.eqb (syncBranchName t) (defaultBranch t))).
    - destruct (handle _ w6) as [[pr|e] w7]; injection E5 as <- <- <-;
        do 2 eexists; (split; [reflexivity|]); (split; [reflexivity|]); repeat split.
    - injection E5 as <- <- <-. exists None, []. rewrite app_nil_r. repeat split. }
  destruct Hres as (url & extra & -> & -> & T5 & C5 & M5).
  cbn [synced SyncResult.syncBranch] in Hname. injection Hname as <-.
  exists entries, (td_sha tree), ref, (gc_sha commit).
  unfold trees_created, commits_created, refs_moved in *.
  repeat split.
  - rewrite collect_cons. cbn [ev_started ev_tree_created].
    rewrite !collect_app, Q1, Q2, collect_cons. cbn [ev_found ev_tree_created].
    rewrite !collect_app, Q3, T4, T5. reflexivity.
  - cbn [synced SyncResult.filesCount]. symmetry. exact Hlen.
  - right. apply in_or_app. right. apply in_or_app. right. right.
    apply in_or_app. left. exact Hin.
  - rewrite collect_cons. cbn [ev_started ev_commit_created].
    rewrite !collect_app, C1, C2, collect_cons. cbn [ev_found ev_commit_created].
    rewrite !collect_app, C3, C4, C5. reflexivity.
  - rewrite collect_cons. cbn [ev_started ev_ref_moved].
    rewrite !collect_app, M1, M2, collect_cons. cbn [ev_found ev_ref_moved].
    rewrite !collect_app, M3, M4, M5. reflexivity.
Qed.

Lemma sync_commit_witness :
  exists res w' tr,
    run (R := Mock.remote only_denylisted)
      (syncWithTemplate (rt := Mock.runtime) Mock.cloner Mock.sync_options) Mock.start
    = (Ok res, w', tr)
    /\ SyncResult.filesCount res = 0
    /\ exists name treeSha commitSha,
         SyncResult.syncBranch res = Some name
         /\ trees_created tr = [([], treeSha)]
         /\ commits_created tr = [(treeSha, ["h0"], commitSha)]
         /\ refs_moved tr = [("heads/" ++ name, commitSha, false)].
Proof.
  do 3 eexists.
  assert (Hrun : run (R := Mock.remote only_denylisted)
                   (syncWithTemplate (rt := Mock.runtime) Mock.cloner Mock.sync_options)
                   Mock.start
                 = (Ok ?[res], ?[w'], ?[tr]))
    by (vm_compute; reflexivity).
  split; [exact Hrun|]. split; [reflexivity|].
  lazymatch type of Hrun with
  | _ = (Ok ?r, _, _) =>
      eassert (Hname : SyncResult.syncBranch r = Some _) by reflexivity
  end.
  destruct (sync_commit _ _ _ Hrun Hname)
    as (entries & treeSha & hd0 & commitSha & Ht & Hn & Hin & Hc & Hm).
  destruct entries as [|en entries]; [|discriminate Hn].
  assert (Hh : object_sha hd0 = "h0").
  { pose proof Hc as Hc'. vm_compute in Hc'. injection Hc' as H1 H2 H3.
    symmetry. first [exact H1 | exact H2 | exact H3]. }
  rewrite Hh in Hc.
  eexists _, treeSha, commitSha. repeat split; assumption.
Defined.



(* ================================================================== *)
(** * The answers of the drift check *)
(* ================================================================== *)

Ltac by_drift := first [reflexivity | solve [auto]].

Section Answers.
Context {R : Remote} {rt : JsRuntime}.

Lemma GET_emits id : emits is_drift_check_event (GET id).
Proof.
  unfold GET, findAndCheck, checkUpdates, templateClient, safeDecrypt, json.
  emits_with by_drift.
Qed.

Lemma checkUpdates_status project template octokit pO pR tO tR :
  returns (fun resp => rs_status resp = 200)
    (checkUpdates project template octokit pO pR tO tR).
Proof.
  unfold checkUpdates, json.
  repeat first [ returns_step
               | match goal with
                 | |- returns _ (match ?x with _ => _ end) => destruct x
                 | |- returns _ (await _) => unfold await
                 | |- returns _ (console2 _ _ _) => unfold console2, console
                 end ]; reflexivity.
Qed.

(** The ways [findAndCheck] answers. *)
Lemma findAndCheck_answers id userId w resp w' tr :
  run (findAndCheck id userId) w = (Ok resp, w', tr) ->
  rs_status resp = 200
  \/ (In (rs_status resp) [400; 401; 404]
      /\ (exists msg, rs_body resp = ErrorBody msg)
      /\ existsb is_github_call tr = false).
Proof.
  intro H. unfold findAndCheck, json in H.
  apply run_bind_inv in H as [(project & w2 & t3 & t4 & H2 & H & ->)|(e & _ & ?)];
    [|discriminate].
  apply run_await_inv in H2 as [H2 ->].
  destruct project as [project|].
  2:{ injection H as <- _ <-. right. cbn. repeat split; eauto. }
  destruct (githubTemplate project) as [template|] eqn:Etpl.
  2:{ injection H as <- _ <-. right. cbn. repeat split; eauto. }
  destruct (negb (Js.truthy (githubRepo project))).
  { injection H as <- _ <-. right. cbn. repeat split; eauto. }
  apply run_bind_inv in H as [(account & w3 & t5 & t6 & H3 & H & ->)|(e & _ & ?)];
    [|discriminate].
  apply run_await_inv in H3 as [H3 ->].
  cbv zeta in H.
  destruct (negb (Js.truthy _)).
  { injection H as <- _ <-. right. cbn. repeat split; eauto. }
  destruct (Js.match_github_url (default (githubRepo project) ""))
    as [[projectOwner projectRepo]|].
  2:{ injection H as <- _ <-. right. cbn. repeat split; eauto. }
  destruct (Js.match_github_url (githubUrl template)) as [[templateOwner templateRepo]|].
  2:{ injection H as <- _ <-. right. cbn. repeat split; eauto. }
  left. eapply checkUpdates_status. exact H.
Qed.

(** The ways [GET] answers once the session is known. *)
Lemma GET_answers id w session w1 :
  handle Auth_session w = (Ok session, w1) ->
  exists resp w' tr,
    run (GET id) w = (Ok resp, w', tr)
    /\ (rs_status resp = 200
        \/ (In (rs_status resp) [400; 401; 404]
            /\ (exists msg, rs_body resp = ErrorBody msg)
            /\ existsb is_github_call tr = false)
        \/ (rs_status resp = 500
            /\ rs_body resp = ErrorBody "Failed to check template updates"
            /\ exists e pre,
                 run (findAndCheck id (default session "")) w1 = (Err e, w', pre)
                 /\ tr = (EvCall Auth_session (Ok session) :: pre
                          ++ [EvConsole LError ("Error checking template updates:" ++ " "
                                                ++ message e)])%list)).
Proof.
  intro Hs. unfold GET. rewrite run_bind. unfold await at 1. cbn [run]. rewrite Hs.
  cbn [run fst snd]. cbv beta iota.
  destruct (negb (Js.truthy session)).
  { cbn. do 3 eexists. split; [reflexivity|]. right. left. cbn. repeat split; eauto. }
  rewrite run_try_catch.
  destruct (run (findAndCheck id (default session "")) w1) as [[[resp|e] w2] t2] eqn:E.
  - do 3 eexists. split; [reflexivity|].
    apply findAndCheck_answers in E as [E|(E1 & E2 & E3)]; [left; exact E|].
    right. left. repeat split; try assumption.
  - rewrite run_bind, run_console2. cbn [run json]. cbv beta iota. cbn [fst snd app].
    do 3 eexists. split; [reflexivity|]. right. right. cbn [rs_status rs_body].
    repeat split. exists e, t2. split; reflexivity.
Qed.

End Answers.

(** X21.  The drift check changes nothing: whatever the remote answers,
    it only asks for the session, the project and the account, lists
    commits and compares commits. *)
Theorem drift_check_read_only {R : Remote} {rt : JsRuntime} (id : string) (w : World) :
  forallb is_drift_check_event (trace (GET id) w) = true
  /\ writes (trace (GET id) w) = [].
Proof.
  pose proof (GET_emits id w) as H. unfold trace. split; [exact H|].
  eapply filter_none; [|exact H]. by_event_cases.
Qed.

(** X22.  The drift check calls GitHub only for a request that passed
    every check: an answer with a status other than 200 and 500 has
    status 400, 401 or 404, carries an error message, and was given
    without a call to GitHub. *)
Theorem drift_check_gate {R : Remote} {rt : JsRuntime} (id : string) (w : World)
    resp w' tr :
  run (GET id) w = (Ok resp, w', tr) ->
  rs_status resp <> 200 ->
  rs_status resp <> 500 ->
  In (rs_status resp) [400; 401; 404]
  /\ (exists msg, rs_body resp = ErrorBody msg)
  /\ existsb is_github_call tr = false.
Proof.
  intros Hrun H200 H500.
  destruct (handle Auth_session w) as [[session|e] w1] eqn:Hs.
  2:{ unfold GET in Hrun. rewrite run_bind in Hrun. unfold await at 1 in Hrun.
      cbn [run] in Hrun. rewrite Hs in Hrun. discriminate. }
  destruct (GET_answers id _ Hs) as (resp' & w2 & tr' & Hrun' & Hcases).
  rewrite Hrun in Hrun'. injection Hrun' as <- <- <-.
  destruct Hcases as [H|[H|(H & _)]]; [contradiction|exact H|contradiction].
Qed.

Lemma drift_check_gate_witness :
  exists w' tr,
    run (R := Mock.remote no_project) (GET (rt := Mock.runtime) "p1") Mock.start
    = (Ok (mkResponse 404 (ErrorBody "Project not found")), w', tr)
    /\ existsb is_github_call tr = false.
Proof.
  do 2 eexists.
  assert (Hrun : run (R := Mock.remote no_project) (GET (rt := Mock.runtime) "p1") Mock.start
                 = (Ok (mkResponse 404 (ErrorBody "Project not found")), ?[w'], ?[tr]))
    by (vm_compute; reflexivity).
  split; [exact Hrun|].
  apply (drift_check_gate _ _ Hrun); cbn; discriminate.
Defined.

(** X23.  Once the session is known the drift check always answers, with
    status 200, 400, 401, 404 or 500.  An answer with status 500 carries
    the fixed message of the check: the cause is only logged, as the last
    thing the check does. *)
Theorem drift_check_always_answers {R : Remote} {rt : JsRuntime} (id : string) (w : World)
    session w1 :
  handle Auth_session w = (Ok session, w1) ->
  exists resp,
    outcome (GET id) w = Ok resp
    /\ In (rs_status resp) [200; 400; 401; 404; 500]
    /\ (rs_status resp = 500 ->
        rs_body resp = ErrorBody "Failed to check template updates"
        /\ exists e,
             last (trace (GET id) w) (EvSleep 0)
             = EvConsole LError ("Error checking template updates: " ++ message e)).
Proof.
  intro Hs.
  destruct (GET_answers id _ Hs) as (resp & w' & tr & Hrun & Hcases).
  exists resp. unfold outcome, trace. rewrite Hrun. cbn [fst snd].
  split; [reflexivity|].
  destruct Hcases as [H|[(H & _)|(H & Hb & e & pre & _ & ->)]].
  - rewrite H. split; [left; reflexivity|]. discriminate.
  - split; [cbn in *; intuition|].
    intro H5. rewrite H5 in H. cbn in H. intuition discriminate.
  - rewrite H. split; [cbn; intuition|]. intros _. split; [exact Hb|].
    exists e. rewrite app_comm_cons. apply last_last.
Qed.

Lemma drift_check_always_answers_witness :
  outcome (R := Mock.remote listing_rejected) (GET (rt := Mock.runtime) "p1") Mock.start
  = Ok (mkResponse 500 (ErrorBody "Failed to check template updates")).
Proof.
  destruct (@drift_check_always_answers (Mock.remote listing_rejected) Mock.runtime "p1"
              Mock.start (Some "user-1") (Mock.mkState (Mock.refs Mock.start) 1) eq_refl)
    as (resp & Hout & _ & H500).
  rewrite Hout. vm_compute in Hout. injection Hout as <-. reflexivity.
Defined.

Lemma console_not_compared e : is_console e = true -> ev_compared e = None.
Proof. revert e. by_event_cases. Qed.

(** X24.  A drift check compares commits only when it reports updates and
    the message of the anchor of the project names a commit of the
    template: it then asks once, for the changes from that commit to the
    latest commit of the template.  A comparison the remote rejects does
    not fail the check: the report is still answered with status 200,
    without a list of changed files. *)
Theorem drift_check_comparison {R : Remote} {rt : JsRuntime} (id : string) (w : World)
    resp w' tr u :
  run (GET id) w = (Ok resp, w', tr) ->
  rs_body resp = UpdateBody u ->
  rs_status resp = 200
  /\ exists latest rest history,
       listed_commits tr = [latest :: rest; history]
       /\ match hasUpdates u,
                match anchor_of history with
                | Some c => Js.match_template_sha (ci_message c)
                | None => None
                end with
          | true, Some base =>
              exists ok,
                comparisons tr = [(base, ci_sha latest, ok)]
                /\ (ok = false -> changedFiles u = None)
          | _, _ => comparisons tr = []
          end.
Proof.
  intros H Hbody.
  apply GET_inv with (u := u) in H; [|assumption].
  destruct H as (session & project & template & account & pO & pR & tO & tR & w1 & tc
                 & _ & Hc & ->).
  apply checkUpdates_inv with (u := u) in Hc; [|assumption].
  destruct Hc as (tcl & latest & rest & history & pre & post & -> & Epre & Hst & _ & _ & Hpost).
  split; [exact Hst|]. exists latest, rest, history.
  assert (Hl : forall t, listed_commits (pre ++ t) = listed_commits t).
  { intro t. unfold listed_commits. rewrite collect_app.
    rewrite (collect_none ev_listed_commits is_console pre) by (assumption || by_event_cases).
    reflexivity. }
  assert (Hp : forall t, comparisons (pre ++ t) = comparisons t).
  { intro t. unfold comparisons. rewrite collect_app.
    rewrite (collect_none ev_compared is_console pre)
      by (assumption || apply console_not_compared).
    reflexivity. }
  assert (Hhead : forall t,
             comparisons ([ EvCall Auth_session (Ok session);
                            EvCall (Prisma_project_findFirst id (default session ""))
                              (Ok (Some project));
                            EvCall (Prisma_account_findFirst (default session "") "github")
                              (Ok account) ] ++ t) = comparisons t) by reflexivity.
  assert (Hhead' : forall t,
             listed_commits ([ EvCall Auth_session (Ok session);
                               EvCall (Prisma_project_findFirst id (default session ""))
                                 (Ok (Some project));
                               EvCall (Prisma_account_findFirst (default session "") "github")
                                 (Ok account) ] ++ t) = listed_commits t) by reflexivity.
  rewrite Hhead, Hhead', Hl, Hp.
  destruct (hasUpdates u);
    [destruct (match anchor_of history with Some c => _ | None => None end)|].
  - destruct Hpost as (r & -> & Hch). split; [destruct r; reflexivity|].
    exists (succeeded r). split; [destruct r; reflexivity|].
    destruct r; [discriminate|]. intros _. exact Hch.
  - destruct Hpost as [-> _]. split; reflexivity.
  - destruct Hpost as [-> _]. split; reflexivity.
Qed.

Lemma drift_check_comparison_witness :
  exists resp w' tr u,
    run (R := Mock.remote comparison_rejected) (GET (rt := Mock.runtime) "p1") Mock.start
    = (Ok resp, w', tr)
    /\ rs_body resp = UpdateBody u
    /\ rs_status resp = 200
    /\ hasUpdates u = true
    /\ comparisons tr = [(Mock.sha_a, Mock.sha_b, false)]
    /\ changedFiles u = None.
Proof.
  do 3 eexists.
  assert (Hrun : run (R := Mock.remote comparison_rejected) (GET (rt := Mock.runtime) "p1")
                   Mock.start
                 = (Ok ?[resp], ?[w'], ?[tr]))
    by (vm_compute; reflexivity).
  eexists.
  lazymatch type of Hrun with
  | _ = (Ok ?r, _, _) => assert (Hbody : rs_body r = UpdateBody ?[u]) by reflexivity
  end.
  destruct (@drift_check_comparison (Mock.remote comparison_rejected) Mock.runtime "p1"
              Mock.start _ _ _ _ Hrun Hbody)
    as (Hst & latest & rest & history & Hl & Hc).
  vm_compute in Hl. injection Hl as Hlatest _ Hhistory. subst latest history.
  split; [exact Hrun|]. split; [exact Hbody|]. split; [exact Hst|].
  split; [reflexivity|]. split; reflexivity.
Defined.

(* ================================================================== *)
(** * The sync route *)
(* ================================================================== *)

Ltac by_no_pull := first [reflexivity | solve [auto]].

Section NoPullRequest.
Context {R : Remote} {rt : JsRuntime}.
Variable self : GitHubRepoCloner.
Variable options : SyncOptions.t.

(** A sync that is told not to create a pull request asks for none. *)
Lemma syncWithTemplate_no_pull_request :
  default (SyncOptions.createPullRequest options) true = false ->
  emits (fun e => negb (is_pull_request e)) (syncWithTemplate self options).
Proof.
  intro Hcp. unfold syncWithTemplate. emits_with by_no_pull.
  - unfold syncResolve. emits_with by_no_pull.
  - apply getAllFiles_emits_reads; intros; reflexivity.
  - unfold syncFiles. emits_with by_no_pull.
    + unfold syncCheckout. emits_with by_no_pull.
    + unfold syncBuildTree. emits_with by_no_pull;
        apply createTree_emits_writes; intros; reflexivity.
    + unfold syncDeliver, createCommit. rewrite Hcp. cbn [andb]. emits_with by_no_pull.
  - unfold syncFailed. emits_with by_no_pull.
Qed.

(** Every result of a sync is a success. *)
Lemma syncWithTemplate_success :
  returns (fun res => SyncResult.success res = true) (syncWithTemplate self options).
Proof.
  unfold syncWithTemplate, syncFiles, syncDeliver, syncFailed.
  repeat first [ returns_step
               | match goal with
                 | |- returns _ (console _ _) => unfold console
                 end ]; reflexivity.
Qed.

(** A sync returns the URL of a pull request only if it was to create
    one. *)
Lemma syncWithTemplate_url w res w' tr :
  run (syncWithTemplate self options) w = (Ok res, w', tr) ->
  SyncResult.pullRequestUrl res <> None ->
  default (SyncOptions.createPullRequest options) true = true.
Proof.
  intros Hrun Hurl.
  apply syncWithTemplate_inv in Hrun as (body & tb & Hb & Hout).
  destruct body as [res'|e]; destruct Hout as [Hout ->]; [|discriminate].
  injection Hout as <-.
  inversion Hb as [| |t w1 t1 w2 t2 E1 E2| |
                   |t w1 t1 files w2 t2 ref cur w3 t3 tree w4 t4 out w5 t5 E1 E2 Hne E3 E4 E5];
    subst.
  - exfalso. apply Hurl. reflexivity.
  - rewrite syncDeliver_run in E5. cbv zeta in E5.
    destruct (handle _ w4) as [[commit|e] w6]; [|discriminate].
    destruct (handle _ w6) as [[[]|e] w7]; [|discriminate].
    destruct (default (SyncOptions.createPullRequest options) true); [reflexivity|].
    cbn [andb] in E5. injection E5 as <- _ _. exfalso. apply Hurl. reflexivity.
Qed.

End NoPullRequest.

Lemma console_not_github_call e : is_console e = true -> is_github_call e = false.
Proof. revert e. by_event_cases. Qed.

Section RouteAnswers.
Context {R : Remote} {rt : JsRuntime}.

Lemma routeTemplateToken_run template w :
  exists token t,
    run (routeTemplateToken template) w = (Ok token, w, t)
    /\ existsb is_github_call t = false.
Proof.
  unfold routeTemplateToken, safeDecrypt.
  destruct (Js.truthy (githubToken template)); [|exists None, []; split; reflexivity].
  destruct (String.eqb _ ""); [eexists _, []; split; reflexivity|].
  destruct (isEncrypted _); [|eexists _, []; split; reflexivity].
  destruct (decrypt _); [eexists _, []; split; reflexivity|].
  eexists _, [_]. split; reflexivity.
Qed.

(** The sync of the route always answers, with a report or with the
    error of the sync. *)
Lemma syncAndAnswer_run self options direct w :
  exists resp w' tr,
    run (syncAndAnswer self options direct) w = (Ok resp, w', tr)
    /\ match ps_body resp with
       | SyncError _ => False
       | SyncErrorDetails error details =>
           ps_status resp = 500 /\ details = error
           /\ exists cause, error = "Failed to sync with template: " ++ cause
       | SyncReport _ _ _ url direct' =>
           ps_status resp = 200 /\ direct' = direct
           /\ (url <> None -> default (SyncOptions.createPullRequest options) true = true)
       end.
Proof.
  unfold syncAndAnswer. rewrite run_try_catch, run_bind.
  destruct (run (syncWithTemplate self options) w) as [[[res|e] w1] t1] eqn:E.
  - assert (Hs : SyncResult.success res = true)
      by (eapply syncWithTemplate_success; exact E).
    rewrite Hs. cbn [negb run fst snd]. cbv beta iota.
    do 3 eexists. split; [reflexivity|]. cbn [ps_body ps_status].
    repeat split. eapply syncWithTemplate_url. exact E.
  - cbv beta iota. rewrite run_bind, run_console2. cbn [run]. cbv beta iota.
    do 3 eexists. split; [reflexivity|]. cbn [ps_body ps_status].
    apply syncWithTemplate_inv in E as (body & tb & _ & Hout).
    destruct body as [res|cause]; destruct Hout as [Hout _]; [discriminate|].
    injection Hout as ->. cbn.
    repeat split. exists (message cause). reflexivity.
Qed.

(** The ways [findAndSync] ends. *)
Lemma findAndSync_answers request id userId w out w' tr :
  run (findAndSync request id userId) w = (out, w', tr) ->
  match out with
  | Ok resp => route_answer (Ok request) resp tr
  | Err _ => existsb is_github_call tr = false
  end.
Proof.
  unfold findAndSync. cbv zeta. rewrite run_bind. unfold await at 1. cbn [run].
  destruct (handle _ w) as [[project|e] w1]; cbn [run fst snd]; cbv beta iota.
  2:{ intro H. injection H as <- _ <-. reflexivity. }
  destruct project as [project|].
  2:{ intro H; injection H as <- _ <-; unfold route_answer; cbn; intuition. }
  destruct (githubTemplate project) as [template|].
  2:{ intro H; injection H as <- _ <-; unfold route_answer; cbn; intuition. }
  destruct (negb (Js.truthy (githubRepo project))).
  { intro H; injection H as <- _ <-; unfold route_answer; cbn; intuition. }
  rewrite run_bind. unfold await at 1. cbn [run].
  destruct (handle _ w1) as [[account|e] w2]; cbn [run fst snd]; cbv beta iota.
  2:{ intro H. injection H as <- _ <-. reflexivity. }
  destruct (negb (Js.truthy _)).
  { intro H; injection H as <- _ <-; unfold route_answer; cbn; intuition. }
  destruct (Js.match_github_url (default (githubRepo project) ""))
    as [[projectOwner projectRepo]|].
  2:{ intro H; injection H as <- _ <-; unfold route_answer; cbn; intuition. }
  destruct (Js.match_github_url (githubUrl template)) as [[templateOwner templateRepo]|].
  2:{ intro H; injection H as <- _ <-; unfold route_answer; cbn; intuition. }
  rewrite run_bind.
  destruct (routeTemplateToken_run template w2) as (token & t & -> & _).
  cbv beta iota.
  match goal with
  | |- context [run (syncAndAnswer ?self ?options ?direct) w2] =>
      destruct (syncAndAnswer_run self options direct w2) as (resp & w3 & t3 & -> & Hresp)
  end.
  intro H. injection H as <- _ <-. unfold route_answer.
  destruct (ps_body resp) as [error|error details|msg name n url direct].
  - contradiction.
  - exact Hresp.
  - destruct Hresp as (Hst & -> & Hurl). split; [exact Hst|].
    exists request. split; [reflexivity|]. split; [reflexivity|].
    intro Hu. apply Hurl in Hu. cbn [SyncOptions.createPullRequest default] in Hu.
    apply andb_true_iff in Hu as [Hcp Hd]. apply negb_true_iff in Hd. split; assumption.
Qed.

End RouteAnswers.

Section RouteEmits.
Context {R : Remote} {rt : JsRuntime}.

Lemma POST_no_pull_request request id :
  default (rq_createPullRequest request) true
  && negb (default (rq_directToMain request) false) = false ->
  emits (fun e => negb (is_pull_request e)) (POST (Ok request) id).
Proof.
  intro Hcp. unfold POST.
  apply emits_bind; [emits_with by_no_pull|]. intro session.
  destruct (negb (Js.truthy session)); [apply emits_Ret|].
  apply emits_try_catch; [|intro e; emits_with by_no_pull].
  cbn [bind].
  unfold findAndSync, routeTemplateToken, safeDecrypt, syncAndAnswer. cbv zeta.
  emits_with by_no_pull.
  all: apply syncWithTemplate_no_pull_request; exact Hcp.
Qed.

Lemma POST_answers body id w session w1 :
  handle Auth_session w = (Ok session, w1) ->
  exists resp w' tr,
    run (POST body id) w = (Ok resp, w', tr) /\ route_answer body resp tr.
Proof.
  intro Hs. unfold POST.
  rewrite run_bind. unfold await at 1. cbn [run]. rewrite Hs.
  cbn [run fst snd]. cbv beta iota.
  destruct (negb (Js.truthy session)).
  { cbn. do 3 eexists. split; [reflexivity|]. unfold route_answer. cbn. intuition. }
  rewrite run_try_catch, run_bind.
  destruct body as [request|e]; cbn [run]; cbv beta iota.
  2:{ rewrite run_bind, run_console2. cbn. do 3 eexists. split; [reflexivity|].
      unfold route_answer. cbn. intuition. }
  destruct (run (findAndSync request id (default session "")) w1) as [[out w2] t2] eqn:E.
  apply findAndSync_answers in E.
  destruct out as [resp|e]; cbv beta iota; cbn [fst snd app].
  - exists resp. do 2 eexists. split; [reflexivity|]. unfold route_answer in *.
    destruct (ps_body resp); exact E.
  - rewrite run_bind, run_console2. cbn [run]. cbv beta iota. cbn [fst snd ps_body ps_status].
    do 3 eexists. split; [reflexivity|]. unfold route_answer. cbn [ps_body ps_status].
    split; [cbn; intuition|].
    cbn [existsb is_github_call orb]. rewrite existsb_app, E. reflexivity.
Qed.

End RouteEmits.

(** X25.  The sync route asks for no pull request when the request says
    to sync directly to the default branch, whether or not it also asks
    for a pull request, or when it says to create none. *)
Theorem sync_route_direct {R : Remote} {rt : JsRuntime} (request : SyncRequest)
    (id : string) (w : World) :
  rq_directToMain request = Some true \/ rq_createPullRequest request = Some false ->
  existsb is_pull_request (trace (POST (Ok request) id) w) = false.
Proof.
  intro H.
  assert (Hcp : default (rq_createPullRequest request) true
                && negb (default (rq_directToMain request) false) = false).
  { destruct H as [-> | ->]; cbn [default negb]; [apply andb_false_r|reflexivity]. }
  pose proof (POST_no_pull_request request id Hcp w) as Hem. unfold trace.
  eapply existsb_none; [|exact Hem].
  intros e He. apply negb_true_iff. exact He.
Qed.

Lemma sync_route_direct_witness :
  let tr := trace (R := Mock.remote Mock.quiet)
              (POST (rt := Mock.runtime) (Ok direct_request) "p1") Mock.start in
  existsb is_pull_request tr = false
  /\ List.length (refs_moved tr) = 1.
Proof.
  split.
  - apply sync_route_direct. left. reflexivity.
  - vm_compute. reflexivity.
Defined.

(** X26.  Once the session is known the sync route always answers.  An
    error without details has status 400, 401, 404 or 500 and was
    answered without a call to GitHub; an error with details has status
    500 and twice the message of the failed sync; a report has status
    200, repeats whether the request was to sync directly, and carries
    the URL of a pull request only if the request was not to sync
    directly and did not decline the pull request. *)
Theorem sync_route_answers {R : Remote} {rt : JsRuntime} (body : Result SyncRequest)
    (id : string) (w : World) session w1 :
  handle Auth_session w = (Ok session, w1) ->
  exists resp,
    outcome (POST body id) w = Ok resp
    /\ match ps_body resp with
       | SyncError _ =>
           In (ps_status resp) [400; 401; 404; 500]
           /\ existsb is_github_call (trace (POST body id) w) = false
       | SyncErrorDetails error details =>
           ps_status resp = 500 /\ details = error
           /\ exists cause, error = "Failed to sync with template: " ++ cause
       | SyncReport _ _ _ url direct =>
           ps_status resp = 200
           /\ exists request,
                body = Ok request
                /\ direct = default (rq_directToMain request) false
                /\ (url <> None ->
                    direct = false /\ default (rq_createPullRequest request) true = true)
       end.
Proof.
  intro Hs.
  destruct (POST_answers body id _ Hs) as (resp & w' & tr & Hrun & Hresp).
  exists resp. unfold outcome, trace. rewrite Hrun. cbn [fst snd].
  split; [reflexivity|]. exact Hresp.
Qed.

Lemma sync_route_answers_witness :
  outcome (R := Mock.remote sync_rejected)
    (POST (rt := Mock.runtime) (Ok direct_request) "p1") Mock.start
  = Ok (mkSyncResponse 500
          (SyncErrorDetails "Failed to sync with template: Server Error"
             "Failed to sync with template: Server Error")).
Proof.
  destruct (@sync_route_answers (Mock.remote sync_rejected) Mock.runtime
              (Ok direct_request) "p1" Mock.start (Some "user-1")
              (Mock.mkState (Mock.refs Mock.start) 1) eq_refl)
    as (resp & Hout & _).
  rewrite Hout. vm_compute in Hout. injection Hout as <-. reflexivity.
Defined.
